(** * parse_main_2subfiles.py: a shallow embedding and its properties

    The script splits [main.tex] into subfiles following [toc_main.txt] and
    regenerates a master file.  This development embeds the script function
    by function and proves the properties of its specification.

    Conventions of the embedding.
    - A Python [str] is a [string] of 8-bit characters, read as the code
      points below 256; [is_space] is [str.isspace] on those code points.
    - A Python [int] is a [Z]; [float('inf')] is the constructor [Inf].
    - An exception is a constructor of [exn]; a computation that may raise
      has type [result A].
    - The file system is a finite map from the path of a regular file to
      its contents; standard output is the list of the strings printed.
      Directories are not represented: the directory of the inputs is taken
      to exist and the path of the sections directory not to be that of a
      regular file, so that [mkdir(exist_ok=True)] returns, and a file is
      written under a plain name (see [plain_name]) in one of these two
      directories, so that the write succeeds and a path is the directory, a
      slash and the name.  The names of the script's table are plain.  A
      function that reads, writes or prints lives in the monad
      [M], whose state survives a raised exception (files written before a
      failure stay written).
    - The limit the interpreter puts on the number of digits [int()]
      converts is the section variable [int_max_str_digits].
    - Files are written as on a POSIX system: a line break is written as
      it is. *)

From Stdlib Require Import ZArith Ascii String List Lia.
From stdpp Require Import base tactics option list list_numbers gmap strings pretty.

Local Open Scope Z_scope.

(** ** Exceptions and the two monads *)

Inductive exn : Type :=
  | ValueError
  | IndexError
  | KeyError
  | FileNotFoundError.

Inductive result (A : Type) : Type :=
  | Ok (a : A)
  | Raise (e : exn).
Arguments Ok {A} a.
Arguments Raise {A} e.

Definition result_bind {A B} (f : A → result B) (r : result A) : result B :=
  match r with
  | Ok a => f a
  | Raise e => Raise e
  end.

#[global] Instance result_mret : MRet result := @Ok.
#[global] Instance result_mbind : MBind result := @result_bind.

(** What a run can touch: the files and the console. *)
Record world : Type := mkWorld {
  files : gmap string string;
  stdout : list string
}.

Definition M (A : Type) : Type := world → result A * world.

Definition M_ret {A} (a : A) : M A := λ w, (Ok a, w).
Definition M_bind {A B} (f : A → M B) (m : M A) : M B :=
  λ w, match m w with
       | (Ok a, w') => f a w'
       | (Raise e, w') => (Raise e, w')
       end.

#[global] Instance M_mret : MRet M := @M_ret.
#[global] Instance M_mbind : MBind M := @M_bind.

Definition lift {A} (r : result A) : M A := λ w, (r, w).

(** [print(s)]: one entry of standard output per call. *)
Definition print (s : string) : M unit :=
  λ w, (Ok tt, mkWorld (files w) (stdout w ++ [s])).

(** [open(path, 'w').writelines(ls)]: the file is truncated and receives the
    strings of [ls] one after the other.  The directory of [path] is taken
    to exist. *)
Definition writelines (path : string) (ls : list string) : M unit :=
  λ w, (Ok tt, mkWorld (<[path := String.concat EmptyString ls]> (files w)) (stdout w)).

(** [open(path, 'r')]: a missing file raises. *)
Definition read_text (path : string) : M string :=
  λ w, match files w !! path with
       | Some s => (Ok s, w)
       | None => (Raise FileNotFoundError, w)
       end.

(** ** Strings *)

Definition nl : string := String "010" EmptyString.

(** [str.isspace] on the code points below 256. *)
Definition is_space (c : ascii) : bool :=
  let n := nat_of_ascii c in
  ((9 <=? n)%nat && (n <=? 13)%nat) || ((28 <=? n)%nat && (n <=? 32)%nat)
  || (n =? 133)%nat || (n =? 160)%nat.

(** [s.lstrip()], [s.rstrip()] and [s.strip()], for the characters [f]
    holds of. *)
Fixpoint lstrip_by (f : ascii → bool) (s : string) : string :=
  match s with
  | EmptyString => EmptyString
  | String c s' => if f c then lstrip_by f s' else s
  end.

Fixpoint rstrip_by (f : ascii → bool) (s : string) : string :=
  match s with
  | EmptyString => EmptyString
  | String c s' =>
      match rstrip_by f s' with
      | EmptyString => if f c then EmptyString else String c EmptyString
      | r => String c r
      end
  end.

Definition strip_by (f : ascii → bool) (s : string) : string :=
  rstrip_by f (lstrip_by f s).

(** [s.strip()] *)
Definition strip (s : string) : string := strip_by is_space s.

(** [s.split(sep)] for a one-character separator: never the empty list. *)
Fixpoint split (sep : ascii) (s : string) : list string :=
  match s with
  | EmptyString => [EmptyString]
  | String c s' =>
      if Ascii.eqb c sep then EmptyString :: split sep s'
      else match split sep s' with
           | f :: fs => String c f :: fs
           | [] => [String c EmptyString]
           end
  end.

(** [s.startswith(p)] *)
Definition startswith (s p : string) : bool := String.prefix p s.

(** [sub in s] *)
Fixpoint contains (sub s : string) : bool :=
  String.prefix sub s ||
  match s with
  | EmptyString => false
  | String _ s' => contains sub s'
  end.

(** [s.replace(old, new)] for a non-empty [old]: the occurrences are replaced
    from left to right, without overlap.  [skip] counts the characters of a
    matched occurrence still to be dropped. *)
Fixpoint replace_go (old new : string) (skip : nat) (s : string) : string :=
  match s with
  | EmptyString => EmptyString
  | String c s' =>
      match skip with
      | S k => replace_go old new k s'
      | O =>
          if String.prefix old s
          then new +:+ replace_go old new (String.length old - 1) s'
          else String c (replace_go old new 0 s')
      end
  end.

Definition replace (old new s : string) : string := replace_go old new 0 s.

(** [s * n] *)
Fixpoint str_repeat (s : string) (n : nat) : string :=
  match n with
  | O => EmptyString
  | S k => s +:+ str_repeat s k
  end.

(** The lines of a file opened in text mode ([for line in f], [readlines]):
    each line keeps its terminator, and the terminators [\n], [\r] and
    [\r\n] all read as [\n]. *)
Fixpoint readlines (s : string) : list string :=
  match s with
  | EmptyString => []
  | String c s' =>
      if Ascii.eqb c "010" then nl :: readlines s'
      else if Ascii.eqb c "013" then
        match s' with
        | String "010" s'' => nl :: readlines s''
        | _ => nl :: readlines s'
        end
      else match readlines s' with
           | l :: ls => String c l :: ls
           | [] => [String c EmptyString]
           end
  end.

(** ** [int(s)] *)

Definition digit_val (c : ascii) : option Z :=
  let n := nat_of_ascii c in
  if ((48 <=? n)%nat && (n <=? 57)%nat) then Some (Z.of_nat n - 48) else None.

(** The digits after the first one; a single underscore may separate two
    digits. *)
Fixpoint int_digits (acc : Z) (s : string) : option Z :=
  match s with
  | EmptyString => Some acc
  | String c s' =>
      match digit_val c with
      | Some d => int_digits (10 * acc + d) s'
      | None =>
          if Ascii.eqb c "_" then
            match s' with
            | String c' s'' =>
                match digit_val c' with
                | Some d => int_digits (10 * acc + d) s''
                | None => None
                end
            | EmptyString => None
            end
          else None
      end
  end.

Definition int_unsigned (s : string) : option Z :=
  match s with
  | String c s' =>
      match digit_val c with
      | Some d => int_digits d s'
      | None => None
      end
  | EmptyString => None
  end.

Definition int_body (s : string) : option Z :=
  match s with
  | String c r =>
      if Ascii.eqb c "+" then int_unsigned r
      else if Ascii.eqb c "-" then Z.opp <$> int_unsigned r
      else int_unsigned s
  | EmptyString => None
  end.

(** The white space [int()] skips around the literal: the ASCII blanks and,
    of the other code points, those [str.isspace] holds of.  The separators
    28 to 31 are white space for [str.strip] but not for [int()]. *)
Definition is_int_space (c : ascii) : bool :=
  let n := nat_of_ascii c in
  ((9 <=? n)%nat && (n <=? 13)%nat) || (n =? 32)%nat
  || (n =? 133)%nat || (n =? 160)%nat.

(** The number of digits of a literal, underscores and sign apart. *)
Fixpoint count_digits (s : string) : nat :=
  match s with
  | EmptyString => O
  | String c s' =>
      match digit_val c with
      | Some _ => S (count_digits s')
      | None => count_digits s'
      end
  end.

Section Interpreter.

(** [sys.get_int_max_str_digits()]: the longest literal [int()] converts,
    0 for no limit (as in the interpreters that have none); the default of
    the others is 4300, and no setting lies between 1 and 639. *)
Variable int_max_str_digits : nat.

Definition exceeds_limit (digits : nat) : bool :=
  (640 <? digits)%nat && (0 <? int_max_str_digits)%nat
  && (int_max_str_digits <? digits)%nat.

(** [int(s)] in base 10. *)
Definition int_of_str (s : string) : result Z :=
  let literal := strip_by is_int_space s in
  match int_body literal with
  | Some z =>
      if exceeds_limit (count_digits literal) then Raise ValueError else Ok z
  | None => Raise ValueError
  end.

(** ** Lists the Python way *)

Definition len {A} (l : list A) : Z := Z.of_nat (length l).

(** [l[i]]: a negative index counts from the end. *)
Definition getitem {A} (l : list A) (i : Z) : result A :=
  let j := if i <? 0 then i + len l else i in
  if (j <? 0) || (len l <=? j) then Raise IndexError
  else match l !! Z.to_nat j with
       | Some x => Ok x
       | None => Raise IndexError
       end.

(** [l.index(x)] *)
Fixpoint list_index (x : string) (l : list string) : result nat :=
  match l with
  | [] => Raise ValueError
  | y :: l' =>
      if String.eqb y x then Ok O
      else k ← list_index x l'; Ok (S k)
  end.

(** [range(a, b)] *)
Definition py_range (a b : Z) : list Z := seqZ a (b - a).

(** [l[start:stop]] *)
Definition slice {A} (l : list A) (start stop : Z) : list A :=
  let adj i := if i <? 0 then Z.max 0 (i + len l) else Z.min i (len l) in
  let a := adj start in
  let b := adj stop in
  take (Z.to_nat (b - a)) (drop (Z.to_nat a) l).

(** [l[start:]] and [l[:stop]] *)
Definition slice_from {A} (l : list A) (start : Z) : list A :=
  slice l start (len l).
Definition slice_to {A} (l : list A) (stop : Z) : list A :=
  slice l 0 stop.

(** [enumerate(l, start)] *)
Definition enumerate {A} (start : nat) (l : list A) : list (nat * A) :=
  zip (seq start (length l)) l.

(** An [int] or [float('inf')]. *)
Inductive num : Type :=
  | Int (z : Z)
  | Inf.

Definition num_pred (x : num) : num :=
  match x with
  | Int z => Int (z - 1)
  | Inf => Inf
  end.

(** [min(x, n)] for an integer [n] *)
Definition num_min (x : num) (n : Z) : Z :=
  match x with
  | Int z => Z.min z n
  | Inf => n
  end.

(** ** Configuration *)

(** [dir / name] for a plain [name]. *)
Definition path_join (dir name : string) : string := dir +:+ "/" +:+ name.

(** A file name without path syntax: not empty, not [.] or [..], and free
    of slashes and of the null character.  For such a name [dir / name] is
    the file called [name] in the directory [dir] itself; another name may
    point into a directory that does not exist, or at a file that has a
    second name. *)
Definition plain_name (name : string) : bool :=
  negb (String.eqb name EmptyString)
  && negb (String.eqb name ".")
  && negb (String.eqb name "..")
  && negb (contains "/" name)
  && negb (contains (String "000" EmptyString) name).

Definition BASE_DIR : string :=
  "/Users/dplane/git_repos/agentic_dissertation/Overleaf_PhD".
Definition MAIN_TEX : string := path_join BASE_DIR "main.tex".
Definition TOC_FILE : string := path_join BASE_DIR "toc_main.txt".
Definition OUTPUT_MAIN : string := path_join BASE_DIR "main_w_sub.tex".
Definition SECTIONS_DIR : string := path_join BASE_DIR "sections".

(** A [dict] with string keys, in insertion order (the order [items()]
    yields). *)
Definition dict : Type := list (string * string).

Definition LABEL_TO_FILENAME : dict :=
  [ ("significance_of_study", "significance_of_study.tex");
    ("problem_statement1", "problem_statement1.tex");
    ("perception_geometry", "perception_geometry.tex");
    ("sensors", "sensors.tex");
    ("sec:Atlas_LAN", "hardware.tex");
    ("sec:calibration", "calibration.tex");
    ("sec:sensor_data_dataset", "sensor_data.tex");
    ("yolo", "yolo.tex");
    ("gbcache", "gbcache.tex");
    ("late_fusion", "late_fusion.tex");
    ("performance", "performance.tex") ].

(** [k in d] and [d[k]] *)
Fixpoint dict_get (d : dict) (k : string) : option string :=
  match d with
  | [] => None
  | (k', v) :: d' => if String.eqb k' k then Some v else dict_get d' k
  end.

Definition dict_mem (d : dict) (k : string) : bool :=
  match dict_get d k with
  | Some _ => true
  | None => false
  end.

Definition dict_getitem (d : dict) (k : string) : result string :=
  match dict_get d k with
  | Some v => Ok v
  | None => Raise KeyError
  end.

(** ** [TexSection] *)

Record TexSection : Type := mkTexSection {
  level : string;
  title : string;
  label : string;
  line_num : Z
}.

(** [TexSection.__init__]: the line number goes through [int()]. *)
Definition TexSection_init (level title label line_num : string)
  : result TexSection :=
  n ← int_of_str line_num;
  Ok (mkTexSection level title label n).

(** ** [parse_toc] *)

(** The body of the [for line in f] loop, [sections] being the list built so
    far. *)
Fixpoint parse_toc_loop (file_lines : list string) (sections : list TexSection)
  : result (list TexSection) :=
  match file_lines with
  | [] => Ok sections
  | line :: rest =>
      let line := strip line in
      if String.eqb line EmptyString then parse_toc_loop rest sections
      else
        let parts := strip <$> split "," line in
        match parts with
        | [level; title; label; line_num] =>
            sec ← TexSection_init level title label line_num;
            parse_toc_loop rest (sections ++ [sec])
        | _ => parse_toc_loop rest sections
        end
  end.

Definition parse_toc_text (toc : string) : result (list TexSection) :=
  parse_toc_loop (readlines toc) [].

Definition parse_toc (toc_path : string) : M (list TexSection) :=
  toc ← read_text toc_path;
  lift (parse_toc_text toc).

(** ** [read_main_tex] *)

Definition read_main_tex (main_path : string) : M (list string) :=
  text ← read_text main_path;
  mret (readlines text).

(** ** [find_section_content_range] *)

Definition level_hierarchy : list string :=
  ["chapter"; "section"; "subsection"; "subsubsection"].

(** The [for i in range(section_idx + 1, len(sections))] loop; [None] when it
    ends without a [break]. *)
Fixpoint scan_for_end (sections : list TexSection) (current_level_idx : nat)
    (indices : list Z) : result (option Z) :=
  match indices with
  | [] => Ok None
  | i :: rest =>
      next_section ← getitem sections i;
      next_level_idx ← list_index (level next_section) level_hierarchy;
      if (next_level_idx <=? current_level_idx)%nat
      then Ok (Some (line_num next_section - 1))
      else scan_for_end sections current_level_idx rest
  end.

Definition find_section_content_range (sections : list TexSection)
    (section_idx : Z) : result (Z * num) :=
  section ← getitem sections section_idx;
  let start_line := line_num section in
  let current_level := level section in
  current_level_idx ← list_index current_level level_hierarchy;
  end_line ← scan_for_end sections current_level_idx
               (py_range (section_idx + 1) (len sections));
  let end_line :=
    match end_line with
    | Some e => Int e
    | None => Inf
    end in
  Ok (start_line, end_line).

(** ** [extract_lines] *)

Definition extract_lines (lines : list string) (start : Z) (end_ : num)
  : list string :=
  let start_idx := start - 1 in
  let end_idx := num_min end_ (len lines) in
  slice lines start_idx end_idx.

(** ** [create_subfile] *)

Definition subfile_header : list string :=
  [ "\documentclass[../main.tex]{subfiles}" +:+ nl;
    "\graphicspath{{\subfix{../Images/}}}" +:+ nl;
    "\begin{document}" +:+ nl;
    nl ].

Definition subfile_footer : string := nl +:+ "\end{document}" +:+ nl.

Definition create_subfile (filename : string) (content : list string) : M unit :=
  let subfile_content := subfile_header in
  let subfile_content := subfile_content ++ content in
  let subfile_content := subfile_content ++ [subfile_footer] in
  let filepath := path_join SECTIONS_DIR filename in
  writelines filepath subfile_content;;
  print ("  Created: " +:+ filename).

(** ** [find_preamble_end] and [find_frontmatter_end] *)

Definition is_begin_document (line : string) : bool :=
  startswith (strip line) "\begin{document}".

Definition is_chapter_line (line : string) : bool :=
  startswith (strip line) "\chapter{".

Definition find_preamble_end (lines : list string) : Z :=
  match list_find (λ line, is_begin_document line) lines with
  | Some (i, _) => Z.of_nat i + 1
  | None => 1
  end.

Definition find_frontmatter_end (lines : list string) : Z :=
  match list_find (λ line, contains "\mainmatter" line || is_chapter_line line)
          lines with
  | Some (i, _) => Z.of_nat i + 1
  | None => find_preamble_end lines
  end.

(** ** [generate_main_w_sub] and [main]

    The label table is a module-level constant of the script; the functions
    that consult it take it as the section variable [label_to_filename], and
    the script itself runs them at [LABEL_TO_FILENAME]. *)

Section Script.

Variable label_to_filename : dict.

(** [[i for i, s in enumerate(sections) if s.level == 'chapter']] *)
Definition chapter_indices (sections : list TexSection) : list nat :=
  (filter (λ p, level p.2 = "chapter") (enumerate 0 sections)).*1.

(** The heading the loop of step 3 emits for a chapter. *)
Definition chapter_heading (chapter : TexSection) : string :=
  if String.eqb (label chapter) EmptyString
  then "\chapter{" +:+ title chapter +:+ "}" +:+ nl +:+ nl
  else "\chapter{" +:+ title chapter +:+ "} \label{" +:+ label chapter +:+ "}"
       +:+ nl +:+ nl.

Definition drop_chapter_lines (ls : list string) : list string :=
  filter (λ l, is_chapter_line l = false) ls.

(** One [\subfile] command of step 3. *)
Definition subfile_command (entry : nat * TexSection) : result string :=
  filename ← dict_getitem label_to_filename (label entry.2);
  Ok ("\subfile{sections/" +:+ replace ".tex" EmptyString filename +:+ "}" +:+ nl).

(** The body of the loop of step 3: what one chapter adds to [output]. *)
Definition chapter_block (lines : list string) (sections : list TexSection)
    (indices : list nat) (entry : nat * nat) : result (list string) :=
  let '(ch_idx, chapter_idx) := entry in
  chapter ← getitem sections (Z.of_nat chapter_idx);
  next_chapter_idx ←
    (if (ch_idx + 1 <? length indices)%nat
     then getitem indices (Z.of_nat (ch_idx + 1))
     else Ok (length sections));
  let chapter_sections :=
    filter (λ p, level p.2 = "section")
      (enumerate (chapter_idx + 1)
         (slice sections (Z.of_nat (chapter_idx + 1)) (Z.of_nat next_chapter_idx))) in
  let subfile_sections :=
    filter (λ p, dict_mem label_to_filename (label p.2) = true) chapter_sections in
  match subfile_sections with
  | _ :: _ =>
      let first_section_line :=
        match chapter_sections with
        | p :: _ => Int (line_num p.2)
        | [] => Inf
        end in
      let intro := extract_lines lines (line_num chapter) (num_pred first_section_line) in
      let intro := drop_chapter_lines intro in
      commands ← mapM subfile_command subfile_sections;
      Ok ([chapter_heading chapter] ++ intro ++ [nl] ++ commands ++ [nl])
  | [] =>
      let start_line := line_num chapter in
      end_line ←
        (if (next_chapter_idx <? length sections)%nat
         then s ← getitem sections (Z.of_nat next_chapter_idx); Ok (line_num s - 1)
         else Ok (len lines));
      let content := extract_lines lines start_line (Int end_line) in
      let content := drop_chapter_lines content in
      Ok ([chapter_heading chapter] ++ content ++ [nl])
  end.

(** Steps 1 and 2: the preamble, the package line and the front matter. *)
Definition preamble_and_frontmatter (lines : list string) : list string :=
  let preamble_end := find_preamble_end lines in
  let preamble := slice_to lines (preamble_end - 1) in
  let frontmatter_end := find_frontmatter_end lines in
  let frontmatter :=
    extract_lines lines (preamble_end + 1) (Int (frontmatter_end - 1)) in
  preamble
  ++ ["\usepackage{subfiles} % Best loaded last in the preamble" +:+ nl]
  ++ [nl +:+ "\begin{document}" +:+ nl +:+ nl]
  ++ frontmatter
  ++ [nl +:+ "\mainmatter" +:+ nl +:+ "\newpage" +:+ nl].

(** Step 3. *)
Definition chapters_output (lines : list string) (sections : list TexSection)
  : result (list string) :=
  let indices := chapter_indices sections in
  blocks ← mapM (chapter_block lines sections indices) (enumerate 0 indices);
  Ok (concat blocks).

(** The [while] loop of step 4: [rest] is [sections[next_item_idx:]]. *)
Fixpoint skip_to_chapter (rest : list TexSection) (next_item_idx : nat) : nat :=
  match rest with
  | [] => next_item_idx
  | s :: rest' =>
      if decide (level s ≠ "chapter")
      then skip_to_chapter rest' (next_item_idx + 1)
      else next_item_idx
  end.

Definition is_backmatter_marker (line : string) : bool :=
  contains "\backmatter" line || contains "\bibliography" line.

(** Step 4: the lines appended after the chapters. *)
Definition backmatter (lines : list string) (sections : list TexSection)
  : result (list string) :=
  match last (chapter_indices sections) with
  | None => Ok []
  | Some last_chapter_idx =>
      let next_item_idx :=
        skip_to_chapter (drop (last_chapter_idx + 1) sections)
          (last_chapter_idx + 1) in
      backmatter_start ←
        (if (next_item_idx <? length sections)%nat
         then s ← getitem sections (Z.of_nat next_item_idx); Ok (line_num s)
         else
           match list_find (λ line, is_backmatter_marker line) lines with
           | Some (i, _) => Ok (Z.of_nat i + 1)
           | None => Ok (len lines)
           end);
      Ok (slice_from lines (backmatter_start - 1))
  end.

(** The list [output] at the end of [generate_main_w_sub]. *)
Definition main_w_sub_output (lines : list string) (sections : list TexSection)
  : result (list string) :=
  chapters ← chapters_output lines sections;
  tail ← backmatter lines sections;
  Ok (preamble_and_frontmatter lines ++ chapters ++ tail).

Definition generate_main_w_sub (lines : list string) (sections : list TexSection)
  : M unit :=
  output ← lift (main_w_sub_output lines sections);
  writelines OUTPUT_MAIN output;;
  print (nl +:+ "Created: main_w_sub.tex").

(** [for x in l: body(x)] *)
Fixpoint for_each {A} (body : A → M unit) (l : list A) : M unit :=
  match l with
  | [] => mret tt
  | x :: l' => body x;; for_each body l'
  end.

Definition warning (key : string) : string :=
  "  WARNING: Label '" +:+ key +:+ "' not found in toc_main.txt".

(** The body of the loop over [LABEL_TO_FILENAME.items()]. *)
Definition subfile_step (sections : list TexSection) (lines : list string)
    (entry : string * string) : M unit :=
  let '(key, filename) := entry in
  match list_find (λ s, label s = key) sections with
  | None => print (warning key)
  | Some (section_idx, _) =>
      range ← lift (find_section_content_range sections (Z.of_nat section_idx));
      let content := extract_lines lines range.1 range.2 in
      create_subfile filename content
  end.

(** [SECTIONS_DIR.mkdir(exist_ok=True)]: directories are not represented;
    the call returns when the parent directory exists and the path is not
    that of a regular file, which is the case in the worlds studied. *)
Definition mkdir_exist_ok (path : string) : M unit := mret tt.

Definition main : M unit :=
  print "LaTeX Subfile Splitter";;
  print (str_repeat "=" 50);;
  mkdir_exist_ok SECTIONS_DIR;;
  print (nl +:+ "1. Parsing toc_main.txt...");;
  sections ← parse_toc TOC_FILE;
  print ("   Found " +:+ pretty (length sections) +:+ " sections");;
  print (nl +:+ "2. Reading main.tex...");;
  lines ← read_main_tex MAIN_TEX;
  print ("   Read " +:+ pretty (length lines) +:+ " lines");;
  print (nl +:+ "3. Generating subfiles...");;
  for_each (subfile_step sections lines) label_to_filename;;
  print (nl +:+ "4. Generating main_w_sub.tex...");;
  generate_main_w_sub lines sections;;
  print (nl +:+ str_repeat "=" 50);;
  print "Complete!";;
  print ("Created " +:+ pretty (length label_to_filename) +:+ " subfiles in: "
         +:+ SECTIONS_DIR);;
  print ("Created main file: " +:+ OUTPUT_MAIN).

End Script.

(** * Properties *)

(** ** The [result] monad *)

Lemma bind_Ok {A B} (f : A → result B) (a : A) : (Ok a ≫= f) = f a.
Proof. reflexivity. Qed.

Lemma bind_Raise {A B} (f : A → result B) (e : exn) :
  (Raise e ≫= f) = Raise e.
Proof. reflexivity. Qed.

(** ** Indexing *)

(** Goals on [len] of appended lists. *)
Ltac len_solve :=
  unfold len; repeat (rewrite ?length_app; simpl); lia.

Lemma getitem_lookup {A} (l : list A) (i : nat) (x : A) :
  l !! i = Some x → getitem l (Z.of_nat i) = Ok x.
Proof.
  intros Hi. pose proof (lookup_lt_Some _ _ _ Hi) as Hlt.
  unfold getitem, len.
  destruct (Z.ltb_spec (Z.of_nat i) 0) as [?|_]; [lia|].
  destruct (Z.ltb_spec (Z.of_nat i) 0) as [?|_]; [lia|].
  destruct (Z.leb_spec (Z.of_nat (length l)) (Z.of_nat i)) as [?|_]; [lia|].
  simpl. by rewrite Nat2Z.id, Hi.
Qed.

Lemma getitem_middle {A} (pre post : list A) (x : A) :
  getitem (pre ++ x :: post) (len pre) = Ok x.
Proof. apply getitem_lookup. by rewrite list_lookup_middle. Qed.

Lemma list_index_Raise (x : string) (l : list string) :
  x ∉ l → list_index x l = Raise ValueError.
Proof.
  induction l as [|y l IH]; intros Hx; [done|].
  apply not_elem_of_cons in Hx as [Hne Hx]. simpl.
  destruct (String.eqb_spec y x) as [->|_]; [done|].
  by rewrite IH.
Qed.

Lemma list_index_Ok (x : string) (l : list string) (k : nat) :
  list_index x l = Ok k → l !! k = Some x.
Proof.
  revert k. induction l as [|y l IH]; intros k; [done|]. simpl.
  destruct (String.eqb_spec y x) as [->|_].
  - by intros [= <-].
  - destruct (list_index x l) as [j|e] eqn:Hj; [|done].
    intros [= <-]. by apply IH.
Qed.

Lemma list_index_exn (x : string) (l : list string) (e : exn) :
  list_index x l = Raise e → e = ValueError ∧ x ∉ l.
Proof.
  induction l as [|y l IH]; simpl.
  - intros [= <-]. split; [done|]. apply not_elem_of_nil.
  - destruct (String.eqb_spec y x) as [->|Hne]; [done|].
    destruct (list_index x l) as [j|e'] eqn:Hj; [done|].
    intros [= <-]. destruct IH as [-> Hx]; [done|]. split; [done|].
    apply not_elem_of_cons. split; [congruence|done].
Qed.

(** ** The range resolver *)

(** The rank of a record in the hierarchy, as the resolver looks it up. *)
Definition rank (s : TexSection) : result nat :=
  list_index (level s) level_hierarchy.

(** Records the scan steps over: a known level, deeper than [rt]. *)
Definition deeper_than (rt : nat) (m : TexSection) : Prop :=
  ∃ rm, rank m = Ok rm ∧ (rt < rm)%nat.

Lemma py_range_cons (a b : Z) : a < b → py_range a b = a :: py_range (a + 1) b.
Proof.
  intros Hab. unfold py_range. rewrite seqZ_cons by lia.
  f_equal. f_equal; lia.
Qed.

Lemma py_range_nil (a b : Z) : b ≤ a → py_range a b = [].
Proof. intros Hab. unfold py_range. apply seqZ_nil. lia. Qed.

Lemma scan_for_end_cons (sections : list TexSection) (c : nat) (i : Z)
    (rest : list Z) :
  scan_for_end sections c (i :: rest)
  = (next_section ← getitem sections i;
     next_level_idx ← rank next_section;
     if (next_level_idx <=? c)%nat
     then Ok (Some (line_num next_section - 1))
     else scan_for_end sections c rest).
Proof. reflexivity. Qed.

Lemma scan_for_end_skip (front mid tail : list TexSection) (rt : nat) :
  Forall (deeper_than rt) mid →
  scan_for_end (front ++ mid ++ tail) rt
    (py_range (len front) (len (front ++ mid ++ tail)))
  = scan_for_end (front ++ mid ++ tail) rt
      (py_range (len (front ++ mid)) (len (front ++ mid ++ tail))).
Proof.
  revert front. induction mid as [|m mid IH]; intros front Hmid.
  - by rewrite app_nil_r.
  - apply Forall_cons in Hmid as [(rm & Hrm & Hlt) Hmid].
    rewrite py_range_cons by len_solve.
    rewrite scan_for_end_cons.
    change ((m :: mid) ++ tail) with (m :: mid ++ tail).
    rewrite getitem_middle, bind_Ok, Hrm, bind_Ok.
    destruct (Nat.leb_spec rm rt) as [?|_]; [lia|].
    specialize (IH (front ++ [m]) Hmid).
    rewrite <- !(assoc_L (++) front [m]) in IH. simpl in IH.
    replace (len front + 1) with (len (front ++ [m]))
      by len_solve.
    by rewrite IH.
Qed.

Lemma find_range_bounded (pre mid post : list TexSection) (t n : TexSection)
    (rt rn : nat) :
  rank t = Ok rt →
  Forall (deeper_than rt) mid →
  rank n = Ok rn → (rn ≤ rt)%nat →
  find_section_content_range (pre ++ t :: mid ++ n :: post) (len pre)
  = Ok (line_num t, Int (line_num n - 1)).
Proof.
  intros Ht Hmid Hn Hle. unfold find_section_content_range.
  rewrite getitem_middle, bind_Ok. unfold rank in Ht. rewrite Ht, bind_Ok.
  pose proof (scan_for_end_skip (pre ++ [t]) mid (n :: post) rt Hmid) as Hskip.
  rewrite <- !(assoc_L (++) pre [t]) in Hskip. simpl in Hskip.
  replace (len pre + 1) with (len (pre ++ [t]))
    by len_solve.
  rewrite Hskip.
  rewrite py_range_cons by len_solve.
  rewrite scan_for_end_cons.
  replace (pre ++ t :: mid ++ n :: post) with ((pre ++ [t] ++ mid) ++ n :: post)
    by (by rewrite <- !(assoc_L (++))).
  replace (len (pre ++ t :: mid)) with (len (pre ++ [t] ++ mid)) by done.
  rewrite getitem_middle, bind_Ok, Hn, bind_Ok.
  destruct (Nat.leb_spec rn rt) as [_|?]; [|lia]. done.
Qed.

Lemma find_range_unbounded (pre post : list TexSection) (t : TexSection)
    (rt : nat) :
  rank t = Ok rt →
  Forall (deeper_than rt) post →
  find_section_content_range (pre ++ t :: post) (len pre)
  = Ok (line_num t, Inf).
Proof.
  intros Ht Hpost. unfold find_section_content_range.
  rewrite getitem_middle, bind_Ok. unfold rank in Ht. rewrite Ht, bind_Ok.
  pose proof (scan_for_end_skip (pre ++ [t]) post [] rt Hpost) as Hskip.
  rewrite app_nil_r in Hskip.
  rewrite <- !(assoc_L (++) pre [t]) in Hskip. simpl in Hskip.
  replace (len pre + 1) with (len (pre ++ [t]))
    by len_solve.
  rewrite Hskip, py_range_nil by lia. done.
Qed.

Lemma find_range_unknown_target (pre post : list TexSection) (t : TexSection) :
  level t ∉ level_hierarchy →
  find_section_content_range (pre ++ t :: post) (len pre) = Raise ValueError.
Proof.
  intros Ht. unfold find_section_content_range.
  by rewrite getitem_middle, bind_Ok, (list_index_Raise _ _ Ht).
Qed.

Lemma find_range_unknown_scanned (pre mid post : list TexSection)
    (t u : TexSection) (rt : nat) :
  rank t = Ok rt →
  Forall (deeper_than rt) mid →
  level u ∉ level_hierarchy →
  find_section_content_range (pre ++ t :: mid ++ u :: post) (len pre)
  = Raise ValueError.
Proof.
  intros Ht Hmid Hu. unfold find_section_content_range.
  rewrite getitem_middle, bind_Ok. unfold rank in Ht. rewrite Ht, bind_Ok.
  pose proof (scan_for_end_skip (pre ++ [t]) mid (u :: post) rt Hmid) as Hskip.
  rewrite <- !(assoc_L (++) pre [t]) in Hskip. simpl in Hskip.
  replace (len pre + 1) with (len (pre ++ [t]))
    by len_solve.
  rewrite Hskip.
  rewrite py_range_cons by len_solve.
  rewrite scan_for_end_cons.
  replace (pre ++ t :: mid ++ u :: post) with ((pre ++ [t] ++ mid) ++ u :: post)
    by (by rewrite <- !(assoc_L (++))).
  replace (len (pre ++ t :: mid)) with (len (pre ++ [t] ++ mid)) by done.
  rewrite getitem_middle, bind_Ok. unfold rank.
  by rewrite (list_index_Raise _ _ Hu).
Qed.

(** ** The extractor *)

Lemma slice_nonneg {A} (l : list A) (a b : Z) :
  0 ≤ a → 0 ≤ b →
  slice l a b = take (Z.to_nat b - Z.to_nat a) (drop (Z.to_nat a) l).
Proof.
  intros Ha Hb. unfold slice, len.
  destruct (Z.ltb_spec a 0) as [?|_]; [lia|].
  destruct (Z.ltb_spec b 0) as [?|_]; [lia|].
  destruct (Z_le_gt_dec a (Z.of_nat (length l))) as [Hal|Hal].
  - rewrite (Z.min_l a) by lia.
    destruct (Z_le_gt_dec b (Z.of_nat (length l))) as [Hbl|Hbl].
    + rewrite (Z.min_l b) by lia. f_equal. lia.
    + rewrite (Z.min_r b) by lia.
      rewrite !take_ge; [done|rewrite length_drop; lia..].
  - rewrite (Z.min_r a) by lia.
    rewrite !drop_ge by lia. by rewrite !take_nil.
Qed.

Lemma extract_lines_Inf (lines : list string) (start : Z) :
  1 ≤ start →
  extract_lines lines start Inf = drop (Z.to_nat (start - 1)) lines.
Proof.
  intros Hs. unfold extract_lines. simpl num_min.
  rewrite slice_nonneg by (unfold len; lia).
  apply take_ge. rewrite length_drop. unfold len. lia.
Qed.

Lemma extract_lines_Int (lines : list string) (start e : Z) :
  1 ≤ start → 0 ≤ e → e ≤ len lines →
  extract_lines lines start (Int e)
  = take (Z.to_nat e - Z.to_nat (start - 1)) (drop (Z.to_nat (start - 1)) lines).
Proof.
  intros Hs He Hlen. unfold extract_lines. simpl num_min.
  rewrite Z.min_l by done. by rewrite slice_nonneg by lia.
Qed.

(** C1. For a target record [t] at index [len pre] whose level is in the
    hierarchy, the resolver returns the start line [line_num t]; it scans
    forward over the records [mid] of strictly greater rank and stops at the
    first record [n] whose rank is less than or equal to the target's,
    returning [line_num n - 1] as the end line, whatever follows [n].  In
    particular a "section" record immediately followed by a "section" record
    at line [L] gets the end line [L - 1]. *)
Theorem C1_range_resolver :
  (∀ (pre mid post : list TexSection) (t n : TexSection) (rt rn : nat),
     rank t = Ok rt →
     Forall (deeper_than rt) mid →
     rank n = Ok rn → (rn ≤ rt)%nat →
     find_section_content_range (pre ++ t :: mid ++ n :: post) (len pre)
     = Ok (line_num t, Int (line_num n - 1)))
  ∧
  (∀ (pre post : list TexSection) (t n : TexSection),
     level t = "section" → level n = "section" →
     find_section_content_range (pre ++ t :: n :: post) (len pre)
     = Ok (line_num t, Int (line_num n - 1))).
Proof.
  split.
  - intros. by eapply find_range_bounded.
  - intros pre post t n Ht Hn.
    apply (find_range_bounded pre [] post t n 1 1); unfold rank;
      rewrite ?Ht, ?Hn; done.
Qed.

(** C5. A record [t] whose level is in the hierarchy and which is followed
    only by records of strictly greater rank (in particular the last record
    of the sequence) resolves to the unbounded range starting at its line;
    for a line number of at least 1, extracting that range yields every
    line of the buffer from that line to the end. *)
Theorem C5_unbounded_range (pre post : list TexSection) (t : TexSection)
    (rt : nat) (lines : list string) :
  rank t = Ok rt →
  Forall (deeper_than rt) post →
  1 ≤ line_num t →
  find_section_content_range (pre ++ t :: post) (len pre)
  = Ok (line_num t, Inf)
  ∧ extract_lines lines (line_num t) Inf
    = drop (Z.to_nat (line_num t - 1)) lines.
Proof.
  intros Ht Hpost Hline. split.
  - by eapply find_range_unbounded.
  - by apply extract_lines_Inf.
Qed.

(** ** Strings: [strip] and [int] *)

(** Stripping the characters of [g] from a string already stripped of
    those of [f] changes nothing, when [f] holds wherever [g] does. *)
Section Strip.

Variables f g : ascii → bool.
Hypothesis g_sub_f : ∀ c, g c = true → f c = true.

Lemma kept_by_f_kept_by_g (c : ascii) : f c = false → g c = false.
Proof.
  intros Hc. destruct (g c) eqn:Hg; [|done].
  apply g_sub_f in Hg. congruence.
Qed.

Lemma rstrip_by_sub (s : string) : rstrip_by g (rstrip_by f s) = rstrip_by f s.
Proof.
  induction s as [|c s IH]; [done|]. simpl.
  destruct (rstrip_by f s) as [|c' r] eqn:Hr.
  - destruct (f c) eqn:Hc; [done|]. simpl. by rewrite (kept_by_f_kept_by_g c Hc).
  - change (rstrip_by g (String c (String c' r)))
      with (match rstrip_by g (String c' r) with
            | EmptyString => if g c then EmptyString else String c EmptyString
            | r' => String c r'
            end).
    by rewrite IH.
Qed.

Lemma lstrip_by_rstrip_by (c : ascii) (s : string) :
  f c = false →
  lstrip_by g (rstrip_by f (String c s)) = rstrip_by f (String c s).
Proof.
  intros Hc. pose proof (kept_by_f_kept_by_g c Hc) as Hg. simpl.
  destruct (rstrip_by f s); rewrite ?Hc; simpl; by rewrite Hg.
Qed.

Lemma lstrip_by_head (s : string) :
  lstrip_by f s = EmptyString
  ∨ ∃ c r, lstrip_by f s = String c r ∧ f c = false.
Proof.
  induction s as [|c s IH]; [by left|]. simpl.
  destruct (f c) eqn:Hc; [done|]. right. by exists c, s.
Qed.

Lemma strip_by_sub (s : string) : strip_by g (strip_by f s) = strip_by f s.
Proof.
  unfold strip_by.
  destruct (lstrip_by_head s) as [->|(c & r & -> & Hc)]; [done|].
  rewrite lstrip_by_rstrip_by by done. apply rstrip_by_sub.
Qed.

End Strip.

Lemma strip_idemp (s : string) : strip (strip s) = strip s.
Proof. by apply strip_by_sub. Qed.

Lemma int_space_is_space (c : ascii) : is_int_space c = true → is_space c = true.
Proof. destruct c as [[] [] [] [] [] [] [] []]; vm_compute; done. Qed.

(** [int()] finds nothing to skip around a field [parse_toc] has
    stripped. *)
Lemma int_strip_strip (s : string) : strip_by is_int_space (strip s) = strip s.
Proof. apply strip_by_sub, int_space_is_space. Qed.

(** The literals [int()] accepts once the surrounding white space is gone:
    an optional sign, then decimal digits, where one underscore may stand
    between two digits. *)
Definition is_digit (c : ascii) : Prop :=
  (48 ≤ nat_of_ascii c ∧ nat_of_ascii c ≤ 57)%nat.

Inductive digit_tail : string → Prop :=
  | dt_nil : digit_tail EmptyString
  | dt_digit c s : is_digit c → digit_tail s → digit_tail (String c s)
  | dt_under c s :
      is_digit c → digit_tail s → digit_tail (String "_" (String c s)).

Inductive int_literal : string → Prop :=
  | il_plain c s : is_digit c → digit_tail s → int_literal (String c s)
  | il_plus c s :
      is_digit c → digit_tail s → int_literal (String "+" (String c s))
  | il_minus c s :
      is_digit c → digit_tail s → int_literal (String "-" (String c s)).

Lemma digit_val_is_digit (c : ascii) : is_Some (digit_val c) ↔ is_digit c.
Proof.
  unfold digit_val, is_digit.
  destruct (Nat.leb_spec 48 (nat_of_ascii c)), (Nat.leb_spec (nat_of_ascii c) 57);
    simpl; split; try (intros [? [=]]); try (intros [? ?]; lia); eauto.
Qed.

Lemma digit_val_None (c : ascii) : digit_val c = None ↔ ¬ is_digit c.
Proof.
  rewrite <- digit_val_is_digit. destruct (digit_val c) as [d|].
  - split; [done|]. intros H. destruct H. eauto.
  - split; [|done]. intros _ [? [=]].
Qed.

Lemma int_digits_tail (s : string) (acc : Z) :
  digit_tail s → is_Some (int_digits acc s).
Proof.
  intros Hs. revert acc. induction Hs as [|c s Hc _ IH|c s Hc _ IH]; intros acc.
  - by eexists.
  - simpl. apply digit_val_is_digit in Hc as [d ->]. apply IH.
  - apply digit_val_is_digit in Hc as [d Hd].
    simpl. rewrite Hd. apply IH.
Qed.

Lemma tail_int_digits (n : nat) (s : string) (acc : Z) :
  (String.length s ≤ n)%nat → is_Some (int_digits acc s) → digit_tail s.
Proof.
  revert s acc. induction n as [|n IH]; intros s acc Hlen Hs.
  - destruct s; [constructor|simpl in Hlen; lia].
  - destruct s as [|c s]; [constructor|]. simpl in Hlen, Hs.
    destruct (digit_val c) as [d|] eqn:Hd.
    + apply dt_digit; [apply digit_val_is_digit; eauto|].
      apply (IH _ (10 * acc + d)); [lia|done].
    + destruct (Ascii.eqb_spec c "_") as [->|_]; [|by destruct Hs].
      destruct s as [|c' s]; [by destruct Hs|].
      destruct (digit_val c') as [d|] eqn:Hd'; [|by destruct Hs].
      apply dt_under; [apply digit_val_is_digit; eauto|].
      apply (IH _ (10 * acc + d)); [simpl in Hlen; lia|done].
Qed.

Lemma int_unsigned_Some (s : string) :
  is_Some (int_unsigned s)
  ↔ ∃ c r, s = String c r ∧ is_digit c ∧ digit_tail r.
Proof.
  split.
  - destruct s as [|c r]; simpl; [intros [? [=]]|].
    destruct (digit_val c) as [d|] eqn:Hd; [|intros [? [=]]].
    intros Hr. exists c, r. split; [done|]. split.
    + apply digit_val_is_digit; eauto.
    + by eapply tail_int_digits.
  - intros (c & r & -> & Hc & Hr). simpl.
    apply digit_val_is_digit in Hc as [d ->]. by apply int_digits_tail.
Qed.

Lemma int_body_literal (s : string) : is_Some (int_body s) ↔ int_literal s.
Proof.
  split.
  - destruct s as [|c s]; [intros [? [=]]|]. unfold int_body.
    destruct (Ascii.eqb_spec c "+") as [->|_];
      [|destruct (Ascii.eqb_spec c "-") as [->|_]].
    + intros (c & r & -> & ? & ?)%int_unsigned_Some. by constructor.
    + rewrite fmap_is_Some.
      intros (c & r & -> & ? & ?)%int_unsigned_Some. by constructor.
    + intros (c' & r & [= -> ->] & ? & ?)%int_unsigned_Some. by constructor.
  - intros [c r Hc Hr|c r Hc Hr|c r Hc Hr].
    + assert (is_Some (int_unsigned (String c r))) as Hu
        by (apply int_unsigned_Some; eauto).
      unfold int_body.
      destruct (Ascii.eqb_spec c "+") as [->|_];
        [unfold is_digit in Hc; vm_compute in Hc; lia|].
      destruct (Ascii.eqb_spec c "-") as [->|_];
        [unfold is_digit in Hc; vm_compute in Hc; lia|]. done.
    + change (is_Some (int_unsigned (String c r))).
      apply int_unsigned_Some. eauto.
    + change (is_Some (Z.opp <$> int_unsigned (String c r))).
      rewrite fmap_is_Some. apply int_unsigned_Some. eauto.
Qed.

(** What [int()] converts: a literal within the digit limit. *)
Definition int_accepts (s : string) : Prop :=
  int_literal s ∧ exceeds_limit (count_digits s) = false.

Lemma int_of_str_Ok (s : string) :
  int_accepts (strip_by is_int_space s) ↔ ∃ z, int_of_str s = Ok z.
Proof.
  unfold int_accepts. rewrite <- int_body_literal. unfold int_of_str.
  destruct (int_body (strip_by is_int_space s)) as [z|].
  - destruct (exceeds_limit _); split.
    + by intros [_ ?].
    + intros [? [=]].
    + eauto.
    + eauto.
  - split.
    + intros [[? [=]] _].
    + intros [? [=]].
Qed.

Lemma int_of_str_Raise (s : string) :
  ¬ int_accepts (strip_by is_int_space s) ↔ int_of_str s = Raise ValueError.
Proof.
  rewrite int_of_str_Ok. unfold int_of_str.
  destruct (int_body (strip_by is_int_space s)) as [z|].
  - destruct (exceeds_limit _); split; try done.
    + by intros _ [? [=]].
    + intros H. destruct H. eauto.
  - split; [done|]. by intros _ [? [=]].
Qed.

(** ** The toc parser *)

Lemma parse_toc_loop_cons (line : string) (rest : list string)
    (sections : list TexSection) :
  parse_toc_loop (line :: rest) sections
  = if String.eqb (strip line) EmptyString then parse_toc_loop rest sections
    else match strip <$> split "," (strip line) with
         | [level; title; label; line_num] =>
             sec ← TexSection_init level title label line_num;
             parse_toc_loop rest (sections ++ [sec])
         | _ => parse_toc_loop rest sections
         end.
Proof. reflexivity. Qed.

Lemma parse_toc_loop_blank (line : string) (rest : list string)
    (sections : list TexSection) :
  strip line = EmptyString →
  parse_toc_loop (line :: rest) sections = parse_toc_loop rest sections.
Proof. intros Hb. by rewrite parse_toc_loop_cons, Hb. Qed.

Lemma parse_toc_loop_malformed (line : string) (rest : list string)
    (sections : list TexSection) :
  length (split "," (strip line)) ≠ 4%nat →
  parse_toc_loop (line :: rest) sections = parse_toc_loop rest sections.
Proof.
  intros Hlen. rewrite parse_toc_loop_cons.
  destruct (String.eqb (strip line) EmptyString); [done|].
  destruct (split "," (strip line)) as [|p1 [|p2 [|p3 [|p4 [|p5 ps]]]]];
    simpl in *; done.
Qed.

Lemma parse_toc_loop_fields (line : string) (rest : list string)
    (sections : list TexSection) (p1 p2 p3 p4 : string) :
  split "," (strip line) = [p1; p2; p3; p4] →
  parse_toc_loop (line :: rest) sections
  = (sec ← TexSection_init (strip p1) (strip p2) (strip p3) (strip p4);
     parse_toc_loop rest (sections ++ [sec])).
Proof.
  intros Hs. rewrite parse_toc_loop_cons, Hs.
  destruct (String.eqb_spec (strip line) EmptyString) as [Hb|_]; [|done].
  by rewrite Hb in Hs.
Qed.

Lemma TexSection_init_Ok (lv ti la p4 : string) (z : Z) :
  int_of_str (strip p4) = Ok z →
  TexSection_init lv ti la (strip p4) = Ok (mkTexSection lv ti la z).
Proof. intros Hz. unfold TexSection_init. by rewrite Hz. Qed.

Lemma TexSection_init_Raise (lv ti la p4 : string) :
  ¬ int_accepts (strip p4) →
  TexSection_init lv ti la (strip p4) = Raise ValueError.
Proof.
  intros Hp. unfold TexSection_init.
  rewrite <- (int_strip_strip p4) in Hp. apply int_of_str_Raise in Hp.
  by rewrite Hp.
Qed.

Lemma TexSection_init_exn (lv ti la n : string) (e : exn) :
  TexSection_init lv ti la n = Raise e → e = ValueError.
Proof.
  unfold TexSection_init, int_of_str.
  destruct (int_body (strip_by is_int_space n)); [|simpl; congruence].
  destruct (exceeds_limit _); simpl; congruence.
Qed.

Lemma parse_toc_loop_exn (ls : list string) (sections : list TexSection)
    (e : exn) :
  parse_toc_loop ls sections = Raise e → e = ValueError.
Proof.
  revert sections. induction ls as [|line rest IH]; intros sections; [done|].
  rewrite parse_toc_loop_cons.
  destruct (String.eqb (strip line) EmptyString); [apply IH|].
  destruct (strip <$> split "," (strip line))
    as [|p1 [|p2 [|p3 [|p4 [|p5 ps]]]]]; try apply IH.
  destruct (TexSection_init p1 p2 p3 p4) as [sec|e'] eqn:Hinit.
  - rewrite bind_Ok. apply IH.
  - rewrite bind_Raise. intros [= <-]. by eapply TexSection_init_exn.
Qed.

Lemma parse_toc_loop_bad_line (ls : list string) (sections : list TexSection)
    (line p1 p2 p3 p4 : string) :
  line ∈ ls →
  split "," (strip line) = [p1; p2; p3; p4] →
  ¬ int_accepts (strip p4) →
  parse_toc_loop ls sections = Raise ValueError.
Proof.
  intros Hin Hs Hbad. revert sections.
  induction ls as [|l rest IH]; intros sections; [by apply elem_of_nil in Hin|].
  destruct (decide (l = line)) as [->|Hne].
  - rewrite (parse_toc_loop_fields _ _ _ _ _ _ _ Hs).
    by rewrite TexSection_init_Raise.
  - apply elem_of_cons in Hin as [?|Hin]; [congruence|].
    specialize (IH Hin).
    destruct (parse_toc_loop (l :: rest) sections) as [r|e] eqn:Hl.
    + rewrite parse_toc_loop_cons in Hl.
      destruct (String.eqb (strip l) EmptyString); [by rewrite IH in Hl|].
      destruct (strip <$> split "," (strip l))
        as [|q1 [|q2 [|q3 [|q4 [|q5 qs]]]]]; try (by rewrite IH in Hl).
      destruct (TexSection_init q1 q2 q3 q4); [|done].
      by rewrite bind_Ok, IH in Hl.
    + f_equal. by eapply parse_toc_loop_exn.
Qed.

(** What the specification asks of the parser, line by line: a blank line
    and a line that does not split into four pieces give nothing; a line of
    four pieces gives the record of the trimmed pieces, the fourth read as
    an integer. *)
Inductive toc_records : list string → list TexSection → Prop :=
  | tr_nil : toc_records [] []
  | tr_blank line rest recs :
      strip line = EmptyString →
      toc_records rest recs →
      toc_records (line :: rest) recs
  | tr_malformed line rest recs :
      length (split "," (strip line)) ≠ 4%nat →
      toc_records rest recs →
      toc_records (line :: rest) recs
  | tr_record line rest recs p1 p2 p3 p4 z :
      strip line ≠ EmptyString →
      split "," (strip line) = [p1; p2; p3; p4] →
      int_of_str (strip p4) = Ok z →
      toc_records rest recs →
      toc_records (line :: rest)
        (mkTexSection (strip p1) (strip p2) (strip p3) z :: recs).

Lemma parse_toc_loop_records (ls : list string) (sections : list TexSection) :
  (∀ line p1 p2 p3 p4,
     line ∈ ls → split "," (strip line) = [p1; p2; p3; p4] →
     int_accepts (strip p4)) →
  ∃ recs, parse_toc_loop ls sections = Ok (sections ++ recs)
          ∧ toc_records ls recs.
Proof.
  revert sections. induction ls as [|line rest IH]; intros sections Hok.
  - exists []. split; [by rewrite app_nil_r|constructor].
  - assert (∀ line p1 p2 p3 p4,
              line ∈ rest → split "," (strip line) = [p1; p2; p3; p4] →
              int_accepts (strip p4)) as Hrest
      by (intros l ? ? ? ? Hl; apply Hok; by apply elem_of_cons; right).
    destruct (decide (strip line = EmptyString)) as [Hb|Hnb].
    { destruct (IH sections Hrest) as (recs & Hrun & Hrecs).
      exists recs. split; [by rewrite parse_toc_loop_blank|by apply tr_blank]. }
    destruct (decide (length (split "," (strip line)) = 4%nat)) as [Hlen|Hlen].
    2:{ destruct (IH sections Hrest) as (recs & Hrun & Hrecs).
        exists recs. split; [by rewrite parse_toc_loop_malformed|].
        by apply tr_malformed. }
    destruct (split "," (strip line)) as [|p1 [|p2 [|p3 [|p4 [|p5 ps]]]]] eqn:Hs;
      try done.
    assert (int_accepts (strip p4)) as Hlit
      by (apply (Hok line p1 p2 p3 p4); [apply elem_of_cons; by left|done]).
    rewrite <- (int_strip_strip p4) in Hlit.
    apply int_of_str_Ok in Hlit as [z Hz].
    destruct (IH (sections ++ [mkTexSection (strip p1) (strip p2) (strip p3) z])
                Hrest) as (recs & Hrun & Hrecs).
    exists (mkTexSection (strip p1) (strip p2) (strip p3) z :: recs). split.
    + rewrite (parse_toc_loop_fields _ _ _ _ _ _ _ Hs).
      rewrite (TexSection_init_Ok _ _ _ _ _ Hz), bind_Ok, Hrun.
      by rewrite <- (assoc_L (++)).
    + by eapply tr_record.
Qed.

(** ** Running [main] *)

(** The world after one more printed line. *)
Definition say (w : world) (s : string) : world :=
  mkWorld (files w) (stdout w ++ [s]).

(** The world after a file is written. *)
Definition wrote (w : world) (path content : string) : world :=
  mkWorld (<[path := content]> (files w)) (stdout w).

Definition subfile_text (content : list string) : string :=
  String.concat EmptyString (subfile_header ++ content ++ [subfile_footer]).

Lemma create_subfile_run (filename : string) (content : list string) (w : world) :
  create_subfile filename content w
  = (Ok tt, say (wrote w (path_join SECTIONS_DIR filename) (subfile_text content))
              ("  Created: " +:+ filename)).
Proof. reflexivity. Qed.

Lemma for_each_cons {A} (body : A → M unit) (x : A) (l : list A) (w : world) :
  for_each body (x :: l) w
  = match body x w with
    | (Ok _, w') => for_each body l w'
    | (Raise e, w') => (Raise e, w')
    end.
Proof. reflexivity. Qed.

Lemma subfile_step_missing (sections : list TexSection) (lines : list string)
    (key filename : string) (w : world) :
  list_find (λ s, label s = key) sections = None →
  subfile_step sections lines (key, filename) w = (Ok tt, say w (warning key)).
Proof. intros Hf. unfold subfile_step. by rewrite Hf. Qed.

Lemma subfile_step_found (sections : list TexSection) (lines : list string)
    (key filename : string) (w : world) (i : nat) (s : TexSection) :
  list_find (λ s, label s = key) sections = Some (i, s) →
  subfile_step sections lines (key, filename) w
  = match find_section_content_range sections (Z.of_nat i) with
    | Ok range =>
        (Ok tt,
         say (wrote w (path_join SECTIONS_DIR filename)
                (subfile_text (extract_lines lines range.1 range.2)))
           ("  Created: " +:+ filename))
    | Raise e => (Raise e, w)
    end.
Proof.
  intros Hf. unfold subfile_step. rewrite Hf.
  by destruct (find_section_content_range sections (Z.of_nat i)).
Qed.

Definition banner : list string :=
  [ "LaTeX Subfile Splitter"; str_repeat "=" 50;
    nl +:+ "1. Parsing toc_main.txt..." ].

Definition closing (d : dict) : list string :=
  [ nl +:+ "Created: main_w_sub.tex"; nl +:+ str_repeat "=" 50; "Complete!";
    "Created " +:+ pretty (length d) +:+ " subfiles in: " +:+ SECTIONS_DIR;
    "Created main file: " +:+ OUTPUT_MAIN ].

Lemma main_unfold (d : dict) (w : world) :
  main d w
  = let w0 := foldl say w banner in
    match files w !! TOC_FILE with
    | None => (Raise FileNotFoundError, w0)
    | Some toc =>
        match parse_toc_text toc with
        | Raise e => (Raise e, w0)
        | Ok sections =>
            let w1 :=
              say (say w0 ("   Found " +:+ pretty (length sections) +:+ " sections"))
                (nl +:+ "2. Reading main.tex...") in
            match files w !! MAIN_TEX with
            | None => (Raise FileNotFoundError, w1)
            | Some tex =>
                let lines := readlines tex in
                let w2 :=
                  say (say w1 ("   Read " +:+ pretty (length lines) +:+ " lines"))
                    (nl +:+ "3. Generating subfiles...") in
                match for_each (subfile_step sections lines) d w2 with
                | (Raise e, w3) => (Raise e, w3)
                | (Ok _, w3) =>
                    let w4 := say w3 (nl +:+ "4. Generating main_w_sub.tex...") in
                    match main_w_sub_output d lines sections with
                    | Raise e => (Raise e, w4)
                    | Ok output =>
                        (Ok tt,
                         foldl say
                           (wrote w4 OUTPUT_MAIN (String.concat EmptyString output))
                           (closing d))
                    end
                end
            end
        end
    end.
Proof.
  unfold main, parse_toc, read_main_tex, generate_main_w_sub, mkdir_exist_ok.
  unfold mbind, M_mbind, M_bind, mret, M_mret, M_ret, read_text, lift, print.
  unfold banner, say; cbn [files stdout foldl].
  destruct (files w !! TOC_FILE) as [toc|]; [|reflexivity].
  destruct (parse_toc_text toc) as [sections|e]; [|reflexivity].
  cbn [files stdout foldl].
  destruct (files w !! MAIN_TEX) as [tex|]; [|reflexivity].
  cbn [files stdout foldl].
  match goal with |- context [for_each ?b d ?w2] =>
    destruct (for_each b d w2) as [[[]|e] w3] end; [|reflexivity].
  destruct (main_w_sub_output d (readlines tex) sections) as [output|e];
    reflexivity.
Qed.

Lemma main_bad_toc (d : dict) (w : world) (toc : string) (e : exn) :
  files w !! TOC_FILE = Some toc →
  parse_toc_text toc = Raise e →
  main d w = (Raise e, foldl say w banner).
Proof. intros Hf Hp. by rewrite main_unfold, Hf, Hp. Qed.

(** ** Paths *)

Lemma output_main_not_subfile (f : string) :
  OUTPUT_MAIN ≠ path_join SECTIONS_DIR f.
Proof. cbv. discriminate. Qed.

Lemma toc_file_not_subfile (f : string) : TOC_FILE ≠ path_join SECTIONS_DIR f.
Proof. cbv. discriminate. Qed.

Lemma main_tex_not_subfile (f : string) : MAIN_TEX ≠ path_join SECTIONS_DIR f.
Proof. cbv. discriminate. Qed.

Lemma append_inj_l (p s1 s2 : string) : p +:+ s1 = p +:+ s2 → s1 = s2.
Proof. induction p as [|c p IH]; [done|]. intros [= H]. by apply IH. Qed.

Lemma path_join_inj (dir f1 f2 : string) :
  path_join dir f1 = path_join dir f2 → f1 = f2.
Proof.
  unfold path_join. intros H%append_inj_l. by apply (append_inj_l "/") in H.
Qed.

(** ** Joining written strings *)

Lemma concat_cons (x : string) (xs : list string) :
  String.concat EmptyString (x :: xs) = x +:+ String.concat EmptyString xs.
Proof.
  destruct xs as [|y ys]; simpl; [|done].
  induction x as [|c x IH]; [done|].
  change (String c x = String c (x +:+ EmptyString)). by f_equal.
Qed.

Lemma append_assoc (a b c : string) : (a +:+ b) +:+ c = a +:+ (b +:+ c).
Proof.
  induction a as [|x a IH]; [done|].
  change (String x ((a +:+ b) +:+ c) = String x (a +:+ b +:+ c)). by f_equal.
Qed.

Lemma concat_app (xs ys : list string) :
  String.concat EmptyString (xs ++ ys)
  = String.concat EmptyString xs +:+ String.concat EmptyString ys.
Proof.
  induction xs as [|x xs IH]; [done|].
  change ((x :: xs) ++ ys) with (x :: (xs ++ ys)).
  by rewrite !concat_cons, IH, append_assoc.
Qed.

(** ** Claims on the toc parser *)

(** C2, as the code has it.  When the fourth piece of every line that splits
    on commas into exactly four pieces is, once trimmed, an integer literal
    that [int()] converts, the parser raises nothing and returns, in order,
    one record per such line (level, title and label trimmed, the line
    number the value of the trimmed fourth piece); blank lines and lines
    with another number of pieces contribute no record. *)
Theorem C2_parser_records (toc : string) :
  (∀ line p1 p2 p3 p4,
     line ∈ readlines toc → split "," (strip line) = [p1; p2; p3; p4] →
     int_accepts (strip p4)) →
  ∃ recs, parse_toc_text toc = Ok recs ∧ toc_records (readlines toc) recs.
Proof.
  intros Hok. destruct (parse_toc_loop_records (readlines toc) [] Hok)
    as (recs & Hrun & Hrecs).
  exists recs. by split.
Qed.

(** C10. A toc line that splits on commas into exactly four pieces whose
    fourth piece, once trimmed, is not an integer literal that [int()]
    converts makes the parser raise [ValueError]; [main] does not catch it:
    the run stops there, after its first three console lines, with no file
    written. *)
Theorem C10_bad_line_number (toc line p1 p2 p3 p4 : string) (d : dict)
    (w : world) :
  line ∈ readlines toc →
  split "," (strip line) = [p1; p2; p3; p4] →
  ¬ int_accepts (strip p4) →
  parse_toc_text toc = Raise ValueError
  ∧ (files w !! TOC_FILE = Some toc →
     (main d w).1 = Raise ValueError
     ∧ files (main d w).2 = files w
     ∧ stdout (main d w).2 = stdout w ++ banner).
Proof.
  intros Hin Hs Hbad.
  assert (parse_toc_text toc = Raise ValueError) as Hp
    by (by eapply parse_toc_loop_bad_line).
  split; [done|]. intros Hf. rewrite (main_bad_toc d w toc _ Hf Hp).
  repeat split. unfold banner. cbn. by rewrite <- !(assoc_L (++)).
Qed.

(** ** The subfile writer *)

(** C4, as the code has it.  For a plain file name and any content lines,
    [create_subfile] succeeds and leaves at [SECTIONS_DIR/filename] exactly
    the four header lines, then the content lines, then the footer; the
    footer is one entry of the list written but two lines of the file, an
    empty line and the line that closes the document.  No other file
    changes and one status line is printed. *)
Theorem C4_subfile_contents (filename : string) (content : list string)
    (w : world) :
  plain_name filename = true →
  (create_subfile filename content w).1 = Ok tt
  ∧ files (create_subfile filename content w).2 !! path_join SECTIONS_DIR filename
    = Some (String.concat EmptyString
              ([ "\documentclass[../main.tex]{subfiles}" +:+ nl;
                 "\graphicspath{{\subfix{../Images/}}}" +:+ nl;
                 "\begin{document}" +:+ nl;
                 nl ]
               ++ content
               ++ [ nl; "\end{document}" +:+ nl ]))
  ∧ subfile_header
    = [ "\documentclass[../main.tex]{subfiles}" +:+ nl;
        "\graphicspath{{\subfix{../Images/}}}" +:+ nl;
        "\begin{document}" +:+ nl;
        nl ]
  ∧ Forall (λ h, readlines h = [h]) subfile_header
  ∧ readlines subfile_footer = [ nl; "\end{document}" +:+ nl ]
  ∧ (∀ p, p ≠ path_join SECTIONS_DIR filename →
          files (create_subfile filename content w).2 !! p = files w !! p)
  ∧ stdout (create_subfile filename content w).2
    = stdout w ++ ["  Created: " +:+ filename].
Proof.
  intros _. rewrite create_subfile_run. cbn [fst snd say wrote files stdout].
  split; [done|]. split; [|split; [done|]; split; [|split; [done|]; split]].
  - rewrite lookup_insert_eq. unfold subfile_text. f_equal.
    rewrite (assoc_L (++)), (assoc_L (++) _ content).
    by rewrite (concat_app (_ ++ content)), (concat_app (_ ++ content)).
  - repeat constructor.
  - intros p Hp. by rewrite lookup_insert_ne.
  - done.
Qed.

(** ** [enumerate], [mapM] and the chapter indices *)

Lemma enumerate_cons {A} (k : nat) (x : A) (l : list A) :
  enumerate k (x :: l) = (k, x) :: enumerate (S k) l.
Proof. reflexivity. Qed.

Lemma enumerate_app {A} (k : nat) (l1 l2 : list A) :
  enumerate k (l1 ++ l2) = enumerate k l1 ++ enumerate (k + length l1) l2.
Proof.
  revert k. induction l1 as [|x l1 IH]; intros k.
  - simpl. by rewrite Nat.add_0_r.
  - change ((x :: l1) ++ l2) with (x :: (l1 ++ l2)).
    rewrite !enumerate_cons, IH. simpl. do 3 f_equal. lia.
Qed.

Lemma enumerate_lookup {A} (k j : nat) (l : list A) (i : nat) (x : A) :
  enumerate k l !! j = Some (i, x) → i = (k + j)%nat ∧ l !! j = Some x.
Proof.
  revert k j. induction l as [|y l IH]; intros k j; [done|].
  rewrite enumerate_cons. destruct j as [|j]; simpl.
  - intros [= -> ->]. split; [lia|done].
  - intros [-> ?]%IH. split; [lia|done].
Qed.

Lemma enumerate_elem {A} (l : list A) (i : nat) (x : A) :
  (i, x) ∈ enumerate 0 l → l !! i = Some x.
Proof.
  intros [j Hj]%list_elem_of_lookup.
  by apply enumerate_lookup in Hj as [-> ?].
Qed.

Lemma mapM_result_Ok {A B} (f : A → result B) (l : list A) :
  Forall (λ x, ∃ y, f x = Ok y) l → ∃ ys, mapM f l = Ok ys.
Proof.
  induction 1 as [|x l [y Hy] _ [ys Hys]]; [by exists []|].
  exists (y :: ys). simpl. by rewrite Hy, bind_Ok, Hys.
Qed.

Lemma chapter_indices_app (l1 l2 : list TexSection) :
  chapter_indices (l1 ++ l2)
  = chapter_indices l1
    ++ (filter (λ p, level p.2 = "chapter") (enumerate (length l1) l2)).*1.
Proof.
  unfold chapter_indices. by rewrite enumerate_app, filter_app, fmap_app.
Qed.

Lemma chapter_indices_snoc (l : list TexSection) (x : TexSection) :
  chapter_indices (l ++ [x])
  = chapter_indices l ++ (if decide (level x = "chapter") then [length l] else []).
Proof.
  rewrite chapter_indices_app. f_equal.
  change (enumerate (length l) [x]) with [(length l, x)].
  rewrite filter_cons, filter_nil. simpl. by destruct (decide _).
Qed.

Lemma chapter_indices_elem (sections : list TexSection) (i : nat) :
  i ∈ chapter_indices sections →
  ∃ s, sections !! i = Some s ∧ level s = "chapter".
Proof.
  unfold chapter_indices. intros ([i' s] & -> & Hin)%list_elem_of_fmap.
  apply list_elem_of_filter in Hin as [Hlv Hin].
  exists s. split; [by apply enumerate_elem|done].
Qed.

Lemma chapter_indices_nonempty (sections : list TexSection) (c : TexSection) :
  c ∈ sections → level c = "chapter" → chapter_indices sections ≠ [].
Proof.
  intros Hin Hc. apply list_elem_of_split in Hin as (l1 & l2 & ->).
  rewrite chapter_indices_app, enumerate_cons, filter_cons.
  simpl. destruct (decide _) as [_|?]; [|done].
  intros H. by apply app_eq_nil in H as [_ ?].
Qed.

(** No chapter follows the last chapter: the [while] loop of step 4 always
    runs to the end of the records. *)
Lemma after_last_chapter (sections : list TexSection) (i : nat) :
  last (chapter_indices sections) = Some i →
  (i < length sections)%nat
  ∧ Forall (λ s, level s ≠ "chapter") (drop (i + 1) sections).
Proof.
  induction sections as [|x l IH] using rev_ind; [done|].
  rewrite chapter_indices_snoc, length_app. simpl.
  destruct (decide (level x = "chapter")) as [Hx|Hx].
  - rewrite last_snoc. intros [= <-]. split; [lia|].
    rewrite drop_ge by (rewrite length_app; simpl; lia). constructor.
  - rewrite app_nil_r. intros [Hlt Hall]%IH. split; [lia|].
    rewrite drop_app_le by lia. apply Forall_app. split; [done|].
    by repeat constructor.
Qed.

Lemma skip_to_chapter_all (rest : list TexSection) (k : nat) :
  Forall (λ s, level s ≠ "chapter") rest →
  skip_to_chapter rest k = (k + length rest)%nat.
Proof.
  intros Hall. revert k. induction Hall as [|s rest Hs _ IH]; intros k.
  - simpl. lia.
  - simpl. destruct (decide (level s ≠ "chapter")) as [_|?]; [|done].
    rewrite IH. lia.
Qed.

(** ** The reassembler never raises *)

Lemma subfile_command_Ok (d : dict) (p : nat * TexSection) :
  dict_mem d (label p.2) = true → ∃ c, subfile_command d p = Ok c.
Proof.
  unfold dict_mem, subfile_command, dict_getitem.
  destruct (dict_get d (label p.2)) as [f|]; [|done]. intros _.
  rewrite bind_Ok. eauto.
Qed.

Lemma chapter_block_Ok (d : dict) (lines : list string)
    (sections : list TexSection) (indices : list nat) (ch_idx chapter_idx : nat) :
  Forall (λ i, i < length sections)%nat indices →
  indices !! ch_idx = Some chapter_idx →
  ∃ block, chapter_block d lines sections indices (ch_idx, chapter_idx) = Ok block.
Proof.
  intros Hall Hidx.
  assert (chapter_idx < length sections)%nat as Hlt
    by (by eapply (Forall_lookup_1 _ _ _ _ Hall)).
  destruct (lookup_lt_is_Some_2 sections chapter_idx Hlt) as [chapter Hch].
  unfold chapter_block.
  rewrite (getitem_lookup _ _ _ Hch), bind_Ok.
  assert (∃ nci, (if (ch_idx + 1 <? length indices)%nat
                  then getitem indices (Z.of_nat (ch_idx + 1))
                  else Ok (length sections)) = Ok nci
                 ∧ (nci ≤ length sections)%nat) as (nci & -> & Hnci).
  { destruct (Nat.ltb_spec (ch_idx + 1) (length indices)) as [Hn|_]; [|eauto].
    destruct (lookup_lt_is_Some_2 indices _ Hn) as [nci Hnci].
    exists nci. split; [by apply getitem_lookup|].
    pose proof (Forall_lookup_1 _ _ _ _ Hall Hnci). simpl in *. lia. }
  rewrite bind_Ok.
  case_match eqn:Hsub.
  - destruct (Nat.ltb_spec nci (length sections)) as [Hn|_].
    + destruct (lookup_lt_is_Some_2 sections _ Hn) as [s Hs].
      rewrite (getitem_lookup _ _ _ Hs), !bind_Ok. eauto.
    + rewrite bind_Ok. eauto.
  - rewrite <- Hsub.
    match goal with |- context [mapM ?f ?l] =>
      destruct (mapM_result_Ok f l) as [cs ->] end; [|rewrite bind_Ok; eauto].
    apply Forall_forall. intros q [Hq _]%list_elem_of_filter.
    by apply subfile_command_Ok.
Qed.

Lemma chapters_output_Ok (d : dict) (lines : list string)
    (sections : list TexSection) :
  ∃ chapters, chapters_output d lines sections = Ok chapters.
Proof.
  unfold chapters_output.
  match goal with |- context [mapM ?f ?l] =>
    destruct (mapM_result_Ok f l) as [blocks ->] end; [|rewrite bind_Ok; eauto].
  apply Forall_forall. intros [ch_idx chapter_idx] Hin.
  apply chapter_block_Ok; [|by apply enumerate_elem].
  apply Forall_forall. intros i (s & Hs & _)%chapter_indices_elem.
  by eapply lookup_lt_Some.
Qed.

(** ** Step 4 *)

Lemma slice_from_nat {A} (l : list A) (i : nat) :
  slice_from l (Z.of_nat i) = drop i l.
Proof.
  unfold slice_from. rewrite slice_nonneg by (unfold len; lia).
  rewrite Nat2Z.id. apply take_ge. rewrite length_drop. unfold len. lia.
Qed.

Lemma slice_from_last {A} (l : list A) :
  slice_from l (len l - 1) = match last l with Some x => [x] | None => [] end.
Proof.
  destruct l as [|y l'] using rev_ind; [done|].
  rewrite last_snoc.
  replace (len (l' ++ [y]) - 1) with (Z.of_nat (length l'))
    by len_solve.
  rewrite slice_from_nat, drop_app_length. done.
Qed.

(** The line number at which step 4 starts copying. *)
Definition backmatter_start (lines : list string) : Z :=
  match list_find (λ line, is_backmatter_marker line) lines with
  | Some (i, _) => Z.of_nat i + 1
  | None => len lines
  end.

Lemma backmatter_eq (lines : list string) (sections : list TexSection) :
  chapter_indices sections ≠ [] →
  backmatter lines sections = Ok (slice_from lines (backmatter_start lines - 1)).
Proof.
  intros Hne. unfold backmatter.
  destruct (last (chapter_indices sections)) as [i|] eqn:Hlast;
    [|by apply last_None in Hlast].
  apply after_last_chapter in Hlast as [Hlt Hall].
  rewrite (skip_to_chapter_all _ _ Hall), length_drop.
  destruct (Nat.ltb_spec (i + 1 + (length sections - (i + 1))) (length sections))
    as [?|_]; [lia|].
  unfold backmatter_start.
  by destruct (list_find _ lines) as [[j m]|].
Qed.

Lemma backmatter_no_chapter (lines : list string) (sections : list TexSection) :
  chapter_indices sections = [] → backmatter lines sections = Ok [].
Proof. intros Hnil. unfold backmatter. by rewrite Hnil. Qed.

Lemma main_w_sub_output_Ok (d : dict) (lines : list string)
    (sections : list TexSection) :
  ∃ chapters tail,
    chapters_output d lines sections = Ok chapters
    ∧ backmatter lines sections = Ok tail
    ∧ main_w_sub_output d lines sections
      = Ok (preamble_and_frontmatter lines ++ chapters ++ tail).
Proof.
  destruct (chapters_output_Ok d lines sections) as [chapters Hch].
  assert (∃ tail, backmatter lines sections = Ok tail) as [tail Htail].
  { destruct (decide (chapter_indices sections = [])) as [Hnil|Hne].
    - rewrite backmatter_no_chapter by done. eauto.
    - rewrite backmatter_eq by done. eauto. }
  exists chapters, tail. unfold main_w_sub_output.
  by rewrite Hch, bind_Ok, Htail, bind_Ok.
Qed.

Lemma backmatter_start_marker (pre post : list string) (m : string) :
  Forall (λ l, is_backmatter_marker l = false) pre →
  is_backmatter_marker m = true →
  backmatter_start (pre ++ m :: post) = Z.of_nat (length pre) + 1.
Proof.
  intros Hpre Hm. unfold backmatter_start.
  assert (list_find (λ line, is_backmatter_marker line) (pre ++ m :: post)
          = Some (length pre, m)) as ->; [|done].
  apply list_find_Some. split; [by rewrite list_lookup_middle|].
  split; [by rewrite Hm|].
  intros j y Hj Hlt. rewrite lookup_app_l in Hj by done.
  rewrite (Forall_lookup_1 _ _ _ _ Hpre Hj). by intros [].
Qed.

Lemma backmatter_start_none (lines : list string) :
  Forall (λ l, is_backmatter_marker l = false) lines →
  backmatter_start lines = len lines.
Proof.
  intros Hall. unfold backmatter_start.
  assert (list_find (λ line, is_backmatter_marker line) lines = None) as ->;
    [|done].
  apply list_find_None. eapply Forall_impl; [exact Hall|].
  intros l Hl. rewrite Hl. by intros [].
Qed.

(** ** Claim on the back matter *)

(** What the specification says step 4 appends, the heading of the last
    chapter record being at line [last_chapter_line]: everything from the
    first marker line found after that line, nothing when there is none. *)
Definition spec_backmatter (lines : list string) (last_chapter_line : Z)
  : list string :=
  let after := Z.to_nat last_chapter_line in
  match list_find (λ line, is_backmatter_marker line) (drop after lines) with
  | Some (i, _) => drop (after + i) lines
  | None => []
  end.

(** What step 4 does.  When the records hold a chapter (whether or not
    other records follow the last one), the list written to the master file
    is what steps 1 to 3 emitted followed by every line of the source from
    the first line, counted from the top of the file, that contains
    [\backmatter] or [\bibliography]; when no line contains one, it is
    followed by the last line of the source alone (by nothing for an empty
    source).  The search does not start after the last chapter, as the
    comment of step 4 has it: see the run at [c3_lines] below. *)
Lemma backmatter_from_top (d : dict) (lines : list string)
    (sections : list TexSection) (c : TexSection) :
  c ∈ sections → level c = "chapter" →
  ∃ chapters,
    chapters_output d lines sections = Ok chapters
    ∧ (∀ pre m post,
         lines = pre ++ m :: post →
         Forall (λ l, is_backmatter_marker l = false) pre →
         is_backmatter_marker m = true →
         main_w_sub_output d lines sections
         = Ok (preamble_and_frontmatter lines ++ chapters ++ m :: post))
    ∧ (Forall (λ l, is_backmatter_marker l = false) lines →
       main_w_sub_output d lines sections
       = Ok (preamble_and_frontmatter lines ++ chapters
             ++ match last lines with Some l => [l] | None => [] end)).
Proof.
  intros Hin Hc.
  pose proof (chapter_indices_nonempty _ _ Hin Hc) as Hne.
  destruct (main_w_sub_output_Ok d lines sections)
    as (chapters & tail & Hch & Htail & Hout).
  rewrite backmatter_eq in Htail by done. injection Htail as <-.
  exists chapters. split; [done|]. split.
  - intros pre m post -> Hpre Hm. rewrite Hout.
    rewrite backmatter_start_marker by done.
    replace (Z.of_nat (length pre) + 1 - 1) with (Z.of_nat (length pre)) by lia.
    by rewrite slice_from_nat, drop_app_length.
  - intros Hall. rewrite Hout, backmatter_start_none by done.
    by rewrite slice_from_last.
Qed.

(** ** The loop over the label table *)

(** The record index the loop finds for a key. *)
Definition find_label (sections : list TexSection) (key : string)
  : option (nat * TexSection) :=
  list_find (λ s, label s = key) sections.

(** Range resolution succeeds for every entry whose label is found. *)
Definition resolves (sections : list TexSection) (d : dict) : Prop :=
  Forall (λ entry, ∀ i s, find_label sections entry.1 = Some (i, s) →
            ∃ range, find_section_content_range sections (Z.of_nat i) = Ok range) d.

(** The line one turn of the loop prints and the file it writes, when it
    does not raise. *)
Definition step_line (sections : list TexSection) (entry : string * string)
  : string :=
  match find_label sections entry.1 with
  | None => warning entry.1
  | Some _ => "  Created: " +:+ entry.2
  end.

Definition step_files (sections : list TexSection) (lines : list string)
    (fs : gmap string string) (entry : string * string) : gmap string string :=
  match find_label sections entry.1 with
  | None => fs
  | Some (i, _) =>
      match find_section_content_range sections (Z.of_nat i) with
      | Ok range =>
          <[path_join SECTIONS_DIR entry.2 :=
              subfile_text (extract_lines lines range.1 range.2)]> fs
      | Raise _ => fs
      end
  end.

Lemma step_missing (sections : list TexSection) (lines : list string)
    (fs : gmap string string) (key f : string) :
  find_label sections key = None →
  step_line sections (key, f) = warning key
  ∧ step_files sections lines fs (key, f) = fs.
Proof. intros Hf. unfold step_line, step_files. simpl. by rewrite Hf. Qed.

Lemma step_found (sections : list TexSection) (lines : list string)
    (fs : gmap string string) (key f : string) (i : nat) (s : TexSection)
    (range : Z * num) :
  find_label sections key = Some (i, s) →
  find_section_content_range sections (Z.of_nat i) = Ok range →
  step_line sections (key, f) = "  Created: " +:+ f
  ∧ step_files sections lines fs (key, f)
    = <[path_join SECTIONS_DIR f :=
          subfile_text (extract_lines lines range.1 range.2)]> fs.
Proof.
  intros Hf Hr. unfold step_line, step_files. simpl. by rewrite Hf, Hr.
Qed.

Lemma for_each_run (sections : list TexSection) (lines : list string)
    (d : dict) (w : world) :
  resolves sections d →
  for_each (subfile_step sections lines) d w
  = (Ok tt, mkWorld (foldl (step_files sections lines) (files w) d)
              (stdout w ++ (step_line sections <$> d))).
Proof.
  intros Hres. revert w. induction Hres as [|[key f] d Hk _ IH]; intros w.
  - simpl. unfold mret, M_mret, M_ret. destruct w. simpl. by rewrite app_nil_r.
  - rewrite for_each_cons, fmap_cons. cbn [foldl]. simpl in Hk.
    destruct (find_label sections key) as [[i s]|] eqn:Hfind.
    + rewrite (subfile_step_found _ _ _ _ _ _ _ Hfind).
      destruct (Hk i s eq_refl) as [range Hrange]. rewrite Hrange.
      destruct (step_found sections lines (files w) key f i s range Hfind Hrange)
        as [-> ->].
      rewrite IH. unfold say, wrote. cbn [files stdout].
      by rewrite <- (assoc_L (++)).
    + rewrite (subfile_step_missing _ _ _ _ _ Hfind), IH.
      destruct (step_missing sections lines (files w) key f Hfind) as [-> ->].
      unfold say. cbn [files stdout]. by rewrite <- (assoc_L (++)).
Qed.

(** An entry whose label is found but whose range resolution raises stops
    the loop. *)
Lemma for_each_raises (sections : list TexSection) (lines : list string)
    (d : dict) (w : world) (key filename : string) (i : nat) (s : TexSection)
    (e : exn) :
  (key, filename) ∈ d →
  find_label sections key = Some (i, s) →
  find_section_content_range sections (Z.of_nat i) = Raise e →
  ∃ e' w', for_each (subfile_step sections lines) d w = (Raise e', w').
Proof.
  intros Hin Hfind Hraise. revert w.
  induction d as [|[k f] d IH]; intros w; [by apply elem_of_nil in Hin|].
  rewrite for_each_cons.
  destruct (subfile_step sections lines (k, f) w) as [[[]|e0] w0] eqn:Hstep;
    [|eauto].
  apply elem_of_cons in Hin as [[= <- <-]|Hin]; [|by apply IH].
  rewrite (subfile_step_found _ _ _ _ _ _ _ Hfind), Hraise in Hstep.
  discriminate Hstep.
Qed.

(** Which exception: the loop and the resolver only ever raise
    [ValueError]. *)
Lemma scan_for_end_exn (sections : list TexSection) (c : nat) (indices : list Z)
    (e : exn) :
  Forall (λ j, 0 ≤ j < len sections) indices →
  scan_for_end sections c indices = Raise e → e = ValueError.
Proof.
  induction 1 as [|j indices Hj _ IH]; [done|].
  rewrite scan_for_end_cons.
  assert (∃ x, getitem sections j = Ok x) as [x ->].
  { destruct (lookup_lt_is_Some_2 sections (Z.to_nat j)) as [x Hx];
      [unfold len in Hj; lia|].
    exists x. rewrite <- (Z2Nat.id j) by lia. by apply getitem_lookup. }
  rewrite bind_Ok. unfold rank.
  destruct (list_index (level x) level_hierarchy) as [r|e'] eqn:Hr.
  - rewrite bind_Ok. by destruct (r <=? c)%nat.
  - rewrite bind_Raise. intros [= <-]. by apply list_index_exn in Hr as [-> _].
Qed.

Lemma find_range_exn (sections : list TexSection) (i : nat) (e : exn) :
  (i < length sections)%nat →
  find_section_content_range sections (Z.of_nat i) = Raise e → e = ValueError.
Proof.
  intros Hi. unfold find_section_content_range.
  destruct (lookup_lt_is_Some_2 sections i Hi) as [t Ht].
  rewrite (getitem_lookup _ _ _ Ht), bind_Ok.
  destruct (list_index (level t) level_hierarchy) as [r|e'] eqn:Hr.
  2:{ rewrite bind_Raise. intros [= <-]. by apply list_index_exn in Hr as [-> _]. }
  rewrite bind_Ok.
  destruct (scan_for_end sections r _) as [o|e'] eqn:Hscan.
  - by rewrite bind_Ok.
  - rewrite bind_Raise. intros [= <-].
    eapply scan_for_end_exn; [|exact Hscan].
    unfold py_range. apply Forall_forall. intros j Hj.
    apply elem_of_seqZ in Hj. lia.
Qed.

Lemma subfile_step_exn (sections : list TexSection) (lines : list string)
    (entry : string * string) (w w' : world) (e : exn) :
  subfile_step sections lines entry w = (Raise e, w') → e = ValueError.
Proof.
  destruct entry as [key f].
  destruct (find_label sections key) as [[i s]|] eqn:Hfind.
  - rewrite (subfile_step_found _ _ _ _ _ _ _ Hfind).
    destruct (find_section_content_range sections (Z.of_nat i)) as [r|e'] eqn:Hr;
      [done|].
    intros [= <- _]. eapply find_range_exn; [|exact Hr].
    apply list_find_Some in Hfind as [Hl _]. by eapply lookup_lt_Some.
  - by rewrite (subfile_step_missing _ _ _ _ _ Hfind).
Qed.

Lemma for_each_exn (sections : list TexSection) (lines : list string)
    (d : dict) (w w' : world) (e : exn) :
  for_each (subfile_step sections lines) d w = (Raise e, w') → e = ValueError.
Proof.
  revert w. induction d as [|entry d IH]; intros w; [done|].
  rewrite for_each_cons.
  destruct (subfile_step sections lines entry w) as [[[]|e0] w0] eqn:Hstep.
  - apply IH.
  - intros [= <- _]. by eapply subfile_step_exn.
Qed.

(** With every level in the hierarchy, resolution succeeds at every
    index. *)
Lemma scan_for_end_total (sections : list TexSection) (c : nat)
    (indices : list Z) :
  Forall (λ s, level s ∈ level_hierarchy) sections →
  Forall (λ j, 0 ≤ j < len sections) indices →
  ∃ o, scan_for_end sections c indices = Ok o.
Proof.
  intros Hlv. induction 1 as [|j indices Hj _ [o IH]]; [by eexists|].
  destruct (scan_for_end sections c (j :: indices)) as [o'|e] eqn:Hscan; [eauto|].
  exfalso. rewrite scan_for_end_cons in Hscan.
  destruct (lookup_lt_is_Some_2 sections (Z.to_nat j)) as [x Hx];
    [unfold len in Hj; lia|].
  rewrite <- (Z2Nat.id j), (getitem_lookup _ _ _ Hx), bind_Ok in Hscan by lia.
  unfold rank in Hscan.
  destruct (list_index (level x) level_hierarchy) as [r|e'] eqn:Hr.
  - rewrite bind_Ok, IH in Hscan. by destruct (r <=? c)%nat.
  - apply list_index_exn in Hr as [_ Hr]. apply Hr.
    by eapply (Forall_lookup_1 _ _ _ _ Hlv).
Qed.

Lemma find_range_total (sections : list TexSection) (i : nat) :
  Forall (λ s, level s ∈ level_hierarchy) sections →
  (i < length sections)%nat →
  ∃ range, find_section_content_range sections (Z.of_nat i) = Ok range.
Proof.
  intros Hlv Hi. unfold find_section_content_range.
  destruct (lookup_lt_is_Some_2 sections i Hi) as [t Ht].
  rewrite (getitem_lookup _ _ _ Ht), bind_Ok.
  destruct (list_index (level t) level_hierarchy) as [r|e'] eqn:Hr.
  2:{ apply list_index_exn in Hr as [_ Hr]. destruct Hr.
      by eapply (Forall_lookup_1 _ _ _ _ Hlv). }
  rewrite bind_Ok.
  destruct (scan_for_end_total sections r
              (py_range (Z.of_nat i + 1) (len sections)) Hlv) as [o ->].
  - unfold py_range. apply Forall_forall. intros j Hj.
    apply elem_of_seqZ in Hj. lia.
  - rewrite bind_Ok. eauto.
Qed.

Lemma known_levels_resolve (sections : list TexSection) (d : dict) :
  Forall (λ s, level s ∈ level_hierarchy) sections → resolves sections d.
Proof.
  intros Hlv. apply Forall_forall. intros entry _ i s Hfind.
  apply find_range_total; [done|].
  apply list_find_Some in Hfind as [Hl _]. by eapply lookup_lt_Some.
Qed.

(** ** A run that completes *)

Definition progress (sections : list TexSection) (lines : list string)
  : list string :=
  [ "   Found " +:+ pretty (length sections) +:+ " sections";
    nl +:+ "2. Reading main.tex...";
    "   Read " +:+ pretty (length lines) +:+ " lines";
    nl +:+ "3. Generating subfiles..." ].

(** Everything a complete run prints, in order. *)
Definition printed (d : dict) (sections : list TexSection) (lines : list string)
  : list string :=
  banner ++ progress sections lines ++ (step_line sections <$> d)
  ++ [nl +:+ "4. Generating main_w_sub.tex..."] ++ closing d.

Lemma main_completes (d : dict) (w : world) (toc tex : string)
    (sections : list TexSection) :
  files w !! TOC_FILE = Some toc →
  parse_toc_text toc = Ok sections →
  files w !! MAIN_TEX = Some tex →
  resolves sections d →
  ∃ output,
    main_w_sub_output d (readlines tex) sections = Ok output
    ∧ main d w
      = (Ok tt,
         mkWorld (<[OUTPUT_MAIN := String.concat EmptyString output]>
                    (foldl (step_files sections (readlines tex)) (files w) d))
           (stdout w ++ printed d sections (readlines tex))).
Proof.
  intros Htoc Hparse Htex Hres.
  destruct (main_w_sub_output_Ok d (readlines tex) sections)
    as (chapters & tail & _ & _ & Hout).
  eexists. split; [exact Hout|].
  rewrite main_unfold, Htoc, Hparse, Htex. cbv zeta.
  rewrite (for_each_run _ _ _ _ Hres), Hout.
  unfold printed, progress, banner, closing, say, wrote.
  cbn [foldl files stdout]. do 2 f_equal.
  rewrite <- !(assoc_L (++)). done.
Qed.

(** A run in which some found entry fails to resolve aborts. *)
Lemma main_aborts (d : dict) (w : world) (toc tex : string)
    (sections : list TexSection) (key filename : string) (i : nat)
    (s : TexSection) (e : exn) :
  files w !! TOC_FILE = Some toc →
  parse_toc_text toc = Ok sections →
  files w !! MAIN_TEX = Some tex →
  (key, filename) ∈ d →
  find_label sections key = Some (i, s) →
  find_section_content_range sections (Z.of_nat i) = Raise e →
  (main d w).1 = Raise ValueError.
Proof.
  intros Htoc Hparse Htex Hin Hfind Hraise.
  rewrite main_unfold, Htoc, Hparse, Htex. cbv zeta.
  match goal with |- context [for_each ?b d ?w2] =>
    destruct (for_each_raises sections (readlines tex) d w2 _ _ _ _ _
                Hin Hfind Hraise) as (e' & w' & Hloop) end.
  rewrite Hloop. simpl. f_equal. by eapply for_each_exn.
Qed.

(** ** Files and lines of the loop *)

Lemma loop_files_other (sections : list TexSection) (lines : list string)
    (fs : gmap string string) (d : dict) (p : string) :
  (∀ k f, (k, f) ∈ d → find_label sections k ≠ None →
          p ≠ path_join SECTIONS_DIR f) →
  foldl (step_files sections lines) fs d !! p = fs !! p.
Proof.
  revert fs. induction d as [|[k f] d IH]; intros fs Hp; [done|].
  cbn [foldl]. rewrite IH.
  - unfold step_files. simpl.
    destruct (find_label sections k) as [[i s]|] eqn:Hfind; [|done].
    destruct (find_section_content_range sections (Z.of_nat i)); [|done].
    rewrite lookup_insert_ne; [done|].
    intros Heq. eapply Hp; [apply elem_of_cons; by left| |done]. by rewrite Hfind.
  - intros k' f' Hin. apply Hp. apply elem_of_cons. by right.
Qed.

Lemma loop_files_found (sections : list TexSection) (lines : list string)
    (fs : gmap string string) (d : dict) (key f : string) (i : nat)
    (s : TexSection) (range : Z * num) :
  NoDup d.*2 →
  (key, f) ∈ d →
  find_label sections key = Some (i, s) →
  find_section_content_range sections (Z.of_nat i) = Ok range →
  foldl (step_files sections lines) fs d !! path_join SECTIONS_DIR f
  = Some (subfile_text (extract_lines lines range.1 range.2)).
Proof.
  intros Hnd Hin Hfind Hrange. revert fs.
  induction d as [|[k f'] d IH]; intros fs; [by apply elem_of_nil in Hin|].
  rewrite fmap_cons in Hnd. apply NoDup_cons in Hnd as [Hnotin Hnd].
  cbn [foldl]. apply elem_of_cons in Hin as [[= <- <-]|Hin]; [|by apply IH].
  rewrite loop_files_other.
  - destruct (step_found sections lines fs key f i s range Hfind Hrange)
      as [_ ->]. by rewrite lookup_insert_eq.
  - intros k0 f0 Hin0 _ Heq%path_join_inj. subst f0. apply Hnotin.
    apply list_elem_of_fmap. by exists (k0, f).
Qed.

Lemma snd_unique (d : dict) (k1 k2 f : string) :
  NoDup d.*2 → (k1, f) ∈ d → (k2, f) ∈ d → k1 = k2.
Proof.
  induction d as [|[k f'] d IH]; intros Hnd H1 H2; [by apply elem_of_nil in H1|].
  rewrite fmap_cons in Hnd. apply NoDup_cons in Hnd as [Hnotin Hnd].
  apply elem_of_cons in H1 as [E1|H1]; apply elem_of_cons in H2 as [E2|H2].
  - congruence.
  - injection E1 as -> ->. destruct Hnotin.
    apply list_elem_of_fmap. by exists (k2, f').
  - injection E2 as -> ->. destruct Hnotin.
    apply list_elem_of_fmap. by exists (k1, f').
  - by apply IH.
Qed.

Lemma length_append (s1 s2 : string) :
  String.length (s1 +:+ s2) = (String.length s1 + String.length s2)%nat.
Proof.
  induction s1 as [|c s1 IH]; [done|].
  change (S (String.length (s1 +:+ s2))
          = S (String.length s1 + String.length s2)). by rewrite IH.
Qed.

Lemma append_inj_r (s1 s2 p : string) : s1 +:+ p = s2 +:+ p → s1 = s2.
Proof.
  revert s2. induction s1 as [|a s1 IH]; intros [|c s2] H.
  - done.
  - apply (f_equal String.length) in H. rewrite !length_append in H.
    simpl in H. lia.
  - apply (f_equal String.length) in H. rewrite !length_append in H.
    simpl in H. lia.
  - injection H as -> H. f_equal. by apply IH.
Qed.

Lemma warning_inj (k1 k2 : string) : warning k1 = warning k2 → k1 = k2.
Proof. unfold warning. intros H%append_inj_l. by apply append_inj_r in H. Qed.

Lemma warning_not_created (k f : string) : "  Created: " +:+ f ≠ warning k.
Proof. unfold warning. cbv [String.append]. discriminate. Qed.

Definition count (l : list string) (s : string) : nat := count_occ string_dec l s.

Lemma count_app (l1 l2 : list string) (s : string) :
  count (l1 ++ l2) s = (count l1 s + count l2 s)%nat.
Proof. apply count_occ_app. Qed.

Lemma step_lines_absent (sections : list TexSection) (d : dict) (key : string) :
  key ∉ d.*1 → count (step_line sections <$> d) (warning key) = 0%nat.
Proof.
  induction d as [|[k f] d IH]; intros Hk; [done|].
  rewrite fmap_cons in Hk. apply not_elem_of_cons in Hk as [Hne Hk].
  rewrite fmap_cons. unfold count. rewrite count_occ_cons_neq; [by apply IH|].
  unfold step_line. simpl in *. destruct (find_label sections k).
  - apply warning_not_created.
  - intros H%warning_inj. congruence.
Qed.

Lemma step_lines_once (sections : list TexSection) (d : dict) (key f : string) :
  NoDup d.*1 → (key, f) ∈ d → find_label sections key = None →
  count (step_line sections <$> d) (warning key) = 1%nat.
Proof.
  intros Hnd Hin Hfind.
  induction d as [|[k f'] d IH]; [by apply elem_of_nil in Hin|].
  rewrite fmap_cons in Hnd. apply NoDup_cons in Hnd as [Hnotin Hnd].
  rewrite fmap_cons. unfold count.
  apply elem_of_cons in Hin as [[= <- <-]|Hin].
  - rewrite count_occ_cons_eq by (unfold step_line; simpl; by rewrite Hfind).
    f_equal. by apply step_lines_absent.
  - rewrite count_occ_cons_neq; [by apply IH|].
    unfold step_line. simpl. destruct (find_label sections k).
    + apply warning_not_created.
    + intros H%warning_inj. subst k. apply Hnotin.
      apply list_elem_of_fmap. by exists (key, f).
Qed.

Lemma fixed_lines_no_warning (d : dict) (sections : list TexSection)
    (lines : list string) (key : string) :
  count banner (warning key) = 0%nat
  ∧ count (progress sections lines) (warning key) = 0%nat
  ∧ count ([nl +:+ "4. Generating main_w_sub.tex..."] ++ closing d)
      (warning key) = 0%nat.
Proof.
  unfold count, banner, progress, closing, warning. simpl app.
  repeat split;
    repeat (rewrite count_occ_cons_neq;
            [|cbv [String.append nl str_repeat]; discriminate]);
    reflexivity.
Qed.

Lemma find_label_None (sections : list TexSection) (key : string) :
  find_label sections key = None ↔ key ∉ label <$> sections.
Proof.
  unfold find_label. rewrite list_find_None, Forall_forall. split.
  - intros Hall (s & -> & Hs)%list_elem_of_fmap. by apply (Hall s).
  - intros Hk s Hs Heq. apply Hk. apply list_elem_of_fmap. by exists s.
Qed.

Lemma find_label_Some (sections : list TexSection) (key : string) :
  key ∈ label <$> sections → ∃ i s, find_label sections key = Some (i, s).
Proof.
  intros Hk. destruct (find_label sections key) as [[i s]|] eqn:Hf; [eauto|].
  by apply find_label_None in Hf.
Qed.

Lemma loop_files_foreign (sections : list TexSection) (lines : list string)
    (fs : gmap string string) (d : dict) :
  Forall (λ entry, find_label sections entry.1 = None) d →
  foldl (step_files sections lines) fs d = fs.
Proof.
  intros Hall. revert fs.
  induction Hall as [|[k f] d Hk _ IH]; intros fs; [done|].
  cbn [foldl]. rewrite IH. unfold step_files. simpl in *. by rewrite Hk.
Qed.

(** ** Claims on a whole run *)

(** C8. When the level of the target record is not one of the four values
    of the hierarchy, or when the scan reaches a record whose level is not,
    the lookup raises [ValueError]; [main] does not catch it, so a run in
    which this happens for an entry of the table ends with that error; and
    the parser builds a record from any four-piece line with an integer
    fourth piece, whatever its level piece is. *)
Theorem C8_unknown_level :
  (∀ (pre post : list TexSection) (t : TexSection),
     level t ∉ level_hierarchy →
     find_section_content_range (pre ++ t :: post) (len pre) = Raise ValueError)
  ∧ (∀ (pre mid post : list TexSection) (t u : TexSection) (rt : nat),
       rank t = Ok rt → Forall (deeper_than rt) mid →
       level u ∉ level_hierarchy →
       find_section_content_range (pre ++ t :: mid ++ u :: post) (len pre)
       = Raise ValueError)
  ∧ (∀ (d : dict) (w : world) (toc tex : string) (sections : list TexSection)
       (key filename : string) (i : nat) (s : TexSection) (e : exn),
       files w !! TOC_FILE = Some toc →
       parse_toc_text toc = Ok sections →
       files w !! MAIN_TEX = Some tex →
       (key, filename) ∈ d →
       find_label sections key = Some (i, s) →
       find_section_content_range sections (Z.of_nat i) = Raise e →
       (main d w).1 = Raise ValueError)
  ∧ (∀ (line : string) (rest : list string) (acc : list TexSection)
       (p1 p2 p3 p4 : string) (z : Z),
       split "," (strip line) = [p1; p2; p3; p4] →
       int_of_str (strip p4) = Ok z →
       parse_toc_loop (line :: rest) acc
       = parse_toc_loop rest
           (acc ++ [mkTexSection (strip p1) (strip p2) (strip p3) z])).
Proof.
  split; [|split; [|split]].
  - intros. by apply find_range_unknown_target.
  - intros. by eapply find_range_unknown_scanned.
  - intros. by eapply main_aborts.
  - intros line rest acc p1 p2 p3 p4 z Hs Hz.
    by rewrite (parse_toc_loop_fields _ _ _ _ _ _ _ Hs),
      (TexSection_init_Ok _ _ _ _ _ Hz).
Qed.

(** The records of the round-trip scenario and a toc that holds them. *)
Definition c6_toc : string :=
  "chapter,Intro,ch1,1" +:+ nl +:+
  "section,Background,significance_of_study,3" +:+ nl +:+
  "chapter,Methods,ch2,10" +:+ nl.

Definition c6_sections : list TexSection :=
  [ mkTexSection "chapter" "Intro" "ch1" 1;
    mkTexSection "section" "Background" "significance_of_study" 3;
    mkTexSection "chapter" "Methods" "ch2" 10 ].

(** C6. With the three records chapter Intro ch1 at line 1, section
    Background significance_of_study at line 3 and chapter Methods ch2 at
    line 10, and a source of twelve lines, the section resolves to the range
    3 to 9, the extracted lines are lines 3 to 9, and the run leaves in
    [sections/significance_of_study.tex] those seven lines between the four
    lines of the fixed header and the fixed footer, an empty line and the
    line that closes the document. *)
Theorem C6_round_trip (w : world) (tex : string)
    (l1 l2 l3 l4 l5 l6 l7 l8 l9 l10 l11 l12 : string) :
  files w !! TOC_FILE = Some c6_toc →
  files w !! MAIN_TEX = Some tex →
  readlines tex = [l1; l2; l3; l4; l5; l6; l7; l8; l9; l10; l11; l12] →
  parse_toc_text c6_toc = Ok c6_sections
  ∧ find_section_content_range c6_sections 1 = Ok (3, Int 9)
  ∧ extract_lines (readlines tex) 3 (Int 9) = [l3; l4; l5; l6; l7; l8; l9]
  ∧ (main LABEL_TO_FILENAME w).1 = Ok tt
  ∧ files (main LABEL_TO_FILENAME w).2
      !! path_join SECTIONS_DIR "significance_of_study.tex"
    = Some (String.concat EmptyString
              ([ "\documentclass[../main.tex]{subfiles}" +:+ nl;
                 "\graphicspath{{\subfix{../Images/}}}" +:+ nl;
                 "\begin{document}" +:+ nl;
                 nl ]
               ++ [l3; l4; l5; l6; l7; l8; l9]
               ++ [ nl +:+ "\end{document}" +:+ nl ])).
Proof.
  intros Htoc Htex Hlines.
  assert (parse_toc_text c6_toc = Ok c6_sections) as Hparse by reflexivity.
  assert (find_section_content_range c6_sections 1 = Ok (3, Int 9)) as Hrange
    by reflexivity.
  assert (extract_lines (readlines tex) 3 (Int 9) = [l3; l4; l5; l6; l7; l8; l9])
    as Hext by (by rewrite Hlines).
  assert (resolves c6_sections LABEL_TO_FILENAME) as Hres.
  { apply known_levels_resolve. repeat constructor. }
  destruct (main_completes LABEL_TO_FILENAME w c6_toc tex c6_sections
              Htoc Hparse Htex Hres) as (output & _ & ->).
  repeat split; try done. cbn [snd files].
  rewrite lookup_insert_ne by apply output_main_not_subfile.
  change LABEL_TO_FILENAME
    with (("significance_of_study", "significance_of_study.tex")
          :: tl LABEL_TO_FILENAME).
  cbn [foldl]. rewrite loop_files_foreign by (repeat constructor).
  destruct (step_found c6_sections (readlines tex) (files w)
              "significance_of_study" "significance_of_study.tex" 1%nat
              (mkTexSection "section" "Background" "significance_of_study" 3)
              (3, Int 9) eq_refl Hrange) as [_ ->].
  rewrite lookup_insert_eq. cbn [fst snd]. by rewrite Hext.
Qed.

(** C7, as the code has it.  In a run whose toc parses, whose source file
    is there and in which range resolution succeeds for every table entry
    whose label is found, the run completes; for every entry whose label is
    in no record it prints its warning exactly once and leaves the entry's
    file as it was, and for every entry whose label is found it writes the
    entry's file.  (The table has distinct keys, being a dict, and distinct
    file names.) *)
Theorem C7_missing_labels (d : dict) (w : world) (toc tex : string)
    (sections : list TexSection) :
  NoDup d.*1 → NoDup d.*2 →
  files w !! TOC_FILE = Some toc →
  parse_toc_text toc = Ok sections →
  files w !! MAIN_TEX = Some tex →
  resolves sections d →
  (main d w).1 = Ok tt
  ∧ ∃ out,
      stdout (main d w).2 = stdout w ++ out
      ∧ ∀ key filename,
          (key, filename) ∈ d →
          (key ∉ label <$> sections →
           count out (warning key) = 1%nat
           ∧ files (main d w).2 !! path_join SECTIONS_DIR filename
             = files w !! path_join SECTIONS_DIR filename)
          ∧ (key ∈ label <$> sections →
             ∃ i s range,
               find_label sections key = Some (i, s)
               ∧ find_section_content_range sections (Z.of_nat i) = Ok range
               ∧ files (main d w).2 !! path_join SECTIONS_DIR filename
                 = Some (subfile_text
                           (extract_lines (readlines tex) range.1 range.2))).
Proof.
  intros Hkeys Hnames Htoc Hparse Htex Hres.
  destruct (main_completes d w toc tex sections Htoc Hparse Htex Hres)
    as (output & _ & ->).
  split; [done|]. exists (printed d sections (readlines tex)).
  split; [done|]. intros key filename Hin. cbn [snd files]. split.
  - intros Hmissing%find_label_None. split.
    + unfold printed. rewrite !count_app.
      destruct (fixed_lines_no_warning d sections (readlines tex) key)
        as (-> & -> & Hrest).
      rewrite count_app in Hrest. rewrite Hrest.
      by rewrite (step_lines_once sections d key filename).
    + rewrite lookup_insert_ne by apply output_main_not_subfile.
      apply loop_files_other.
      intros k f Hkf Hfound Heq%path_join_inj. subst f.
      by rewrite (snd_unique d k key filename) in Hfound.
  - intros (i & s & Hfind)%find_label_Some.
    apply Forall_forall with (x := (key, filename)) in Hres; [|done].
    destruct (Hres i s Hfind) as [range Hrange].
    exists i, s, range. split; [done|]. split; [done|].
    rewrite lookup_insert_ne by apply output_main_not_subfile.
    by eapply loop_files_found.
Qed.

(** ** What a run adds to the world *)

Definition empty_world : world := mkWorld ∅ [].

(** The world [w] once the files of [out] are written over it and the lines
    of [out] printed after its own. *)
Definition after (out w : world) : world :=
  mkWorld (files out ∪ files w) (stdout w ++ stdout out).

Lemma after_empty (w : world) : after empty_world w = w.
Proof.
  destruct w as [fs ls]. unfold after. simpl.
  by rewrite (left_id_L ∅ (∪)), app_nil_r.
Qed.

Lemma say_after (out w : world) (s : string) :
  say (after out w) s = after (say out s) w.
Proof. unfold say, after. simpl. by rewrite <- (assoc_L (++)). Qed.

Lemma wrote_after (out w : world) (p c : string) :
  wrote (after out w) p c = after (wrote out p c) w.
Proof. unfold wrote, after. simpl. by rewrite insert_union_l. Qed.

Lemma foldl_say_after (out w : world) (l : list string) :
  foldl say (after out w) l = after (foldl say out l) w.
Proof.
  revert out. induction l as [|s l IH]; intros out; [done|].
  cbn [foldl]. by rewrite say_after, IH.
Qed.

Lemma files_foldl_say (w : world) (l : list string) :
  files (foldl say w l) = files w.
Proof. revert w. induction l as [|s l IH]; intros w; [done|]. cbn [foldl]. by rewrite IH. Qed.

(** A run never writes to its two inputs. *)
Definition spares_inputs (out : world) : Prop :=
  files out !! TOC_FILE = None ∧ files out !! MAIN_TEX = None.

Lemma spares_say (out : world) (s : string) :
  spares_inputs out → spares_inputs (say out s).
Proof. done. Qed.

Lemma spares_foldl_say (out : world) (l : list string) :
  spares_inputs out → spares_inputs (foldl say out l).
Proof. unfold spares_inputs. by rewrite files_foldl_say. Qed.

Lemma spares_wrote (out : world) (p c : string) :
  p ≠ TOC_FILE → p ≠ MAIN_TEX →
  spares_inputs out → spares_inputs (wrote out p c).
Proof.
  intros H1 H2 [Ht Hm]. unfold spares_inputs, wrote. simpl.
  by rewrite !lookup_insert_ne.
Qed.

Lemma spares_empty : spares_inputs empty_world.
Proof. done. Qed.

Lemma subfile_step_after (sections : list TexSection) (lines : list string)
    (entry : string * string) :
  ∃ r out, spares_inputs out
           ∧ ∀ w, subfile_step sections lines entry w = (r, after out w).
Proof.
  destruct entry as [key f].
  destruct (find_label sections key) as [[i s]|] eqn:Hfind.
  - destruct (find_section_content_range sections (Z.of_nat i))
      as [range|e] eqn:Hrange.
    + eexists (Ok tt), (say (wrote empty_world _ _) _). split.
      * apply spares_say, spares_wrote; [| |done].
        -- intros H. symmetry in H. by apply toc_file_not_subfile in H.
        -- intros H. symmetry in H. by apply main_tex_not_subfile in H.
      * intros w. rewrite (subfile_step_found _ _ _ _ _ _ _ Hfind), Hrange.
        by rewrite <- say_after, <- wrote_after, after_empty.
    + exists (Raise e), empty_world. split; [done|]. intros w.
      by rewrite (subfile_step_found _ _ _ _ _ _ _ Hfind), Hrange, after_empty.
  - exists (Ok tt), (say empty_world (warning key)). split; [done|]. intros w.
    by rewrite (subfile_step_missing _ _ _ _ _ Hfind), <- say_after, after_empty.
Qed.

Lemma after_after (out2 out1 w : world) :
  after out2 (after out1 w) = after (after out2 out1) w.
Proof.
  unfold after. simpl. by rewrite (assoc_L (∪)), (assoc_L (++)).
Qed.

Lemma spares_after (out2 out1 : world) :
  spares_inputs out2 → spares_inputs out1 → spares_inputs (after out2 out1).
Proof.
  intros [H2t H2m] [H1t H1m]. unfold spares_inputs, after. simpl.
  by rewrite !lookup_union_None.
Qed.

Lemma for_each_after (sections : list TexSection) (lines : list string)
    (d : dict) :
  ∃ r out, spares_inputs out
           ∧ ∀ w, for_each (subfile_step sections lines) d w = (r, after out w).
Proof.
  induction d as [|entry d (r & out & Hsp & IH)].
  - exists (Ok tt), empty_world. split; [done|]. intros w.
    by rewrite after_empty.
  - destruct (subfile_step_after sections lines entry)
      as (r1 & out1 & Hsp1 & Hstep).
    destruct r1 as [[]|e].
    + exists r, (after out out1). split; [by apply spares_after|]. intros w.
      by rewrite for_each_cons, Hstep, IH, after_after.
    + exists (Raise e), out1. split; [done|]. intros w.
      by rewrite for_each_cons, Hstep.
Qed.

Lemma main_after (d : dict) (toc tex : option string) :
  ∃ r out,
    spares_inputs out
    ∧ (r = Ok tt → is_Some (files out !! OUTPUT_MAIN))
    ∧ ∀ w, files w !! TOC_FILE = toc → files w !! MAIN_TEX = tex →
           main d w = (r, after out w).
Proof.
  destruct toc as [toc|].
  2:{ exists (Raise FileNotFoundError), (foldl say empty_world banner).
      split; [by apply spares_foldl_say|]. split; [done|]. intros w Ht _.
      by rewrite main_unfold, Ht, <- foldl_say_after, after_empty. }
  destruct (parse_toc_text toc) as [sections|e] eqn:Hparse.
  2:{ exists (Raise e), (foldl say empty_world banner).
      split; [by apply spares_foldl_say|]. split; [done|]. intros w Ht _.
      by rewrite main_unfold, Ht, Hparse, <- foldl_say_after, after_empty. }
  destruct tex as [tex|].
  2:{ eexists (Raise FileNotFoundError),
        (say (say (foldl say empty_world banner) _) _).
      split; [by apply spares_say, spares_say, spares_foldl_say|].
      split; [done|].
      intros w Ht Hm. rewrite main_unfold, Ht, Hparse, Hm. cbv zeta.
      by rewrite <- !say_after, <- foldl_say_after, after_empty. }
  destruct (for_each_after sections (readlines tex) d) as (r & out & Hsp & Hloop).
  set (pre := say (say (say (say (foldl say empty_world banner)
                ("   Found " +:+ pretty (length sections) +:+ " sections"))
                (nl +:+ "2. Reading main.tex..."))
                ("   Read " +:+ pretty (length (readlines tex)) +:+ " lines"))
                (nl +:+ "3. Generating subfiles...")).
  assert (spares_inputs pre) as Hpre
    by (by apply spares_say, spares_say, spares_say, spares_say, spares_foldl_say).
  assert (∀ w, say (say (say (say (foldl say w banner)
                ("   Found " +:+ pretty (length sections) +:+ " sections"))
                (nl +:+ "2. Reading main.tex..."))
                ("   Read " +:+ pretty (length (readlines tex)) +:+ " lines"))
                (nl +:+ "3. Generating subfiles...")
               = after pre w) as Hw2.
  { intros w. unfold pre.
    by rewrite <- !say_after, <- foldl_say_after, after_empty. }
  destruct r as [[]|e].
  2:{ exists (Raise e), (after out pre). split; [by apply spares_after|].
      split; [done|].
      intros w Ht Hm. rewrite main_unfold, Ht, Hparse, Hm. cbv zeta.
      by rewrite Hw2, Hloop, after_after. }
  destruct (main_w_sub_output d (readlines tex) sections) as [output|e] eqn:Hout.
  - eexists (Ok tt),
      (foldl say (wrote (say (after out pre) _) OUTPUT_MAIN _) (closing d)).
    split; [|split].
    + apply spares_foldl_say, spares_wrote;
        [by cbv|by cbv|by apply spares_say, spares_after].
    + intros _. rewrite files_foldl_say. unfold wrote. cbn [files].
      rewrite lookup_insert_eq. by eexists.
    + intros w Ht Hm. rewrite main_unfold, Ht, Hparse, Hm. cbv zeta.
      rewrite Hw2, Hloop, Hout, after_after.
      by rewrite say_after, wrote_after, foldl_say_after.
  - eexists (Raise e), (say (after out pre) _).
    split; [by apply spares_say, spares_after|]. split; [done|].
    intros w Ht Hm. rewrite main_unfold, Ht, Hparse, Hm. cbv zeta.
    by rewrite Hw2, Hloop, Hout, after_after, say_after.
Qed.

(** C9. Two runs that find the same toc and the same source, with the same
    label table, end the same way, print the same lines and write the same
    files with the same contents, whatever else the two file systems hold:
    there is one [out], free of the two input paths, such that each run
    leaves its world with the files of [out] written over it.  In
    particular every path holds the same contents after both runs or is left
    untouched by both; after two complete runs the master file is there
    with the same contents; and running the script again on the files a
    run left changes no file. *)
Theorem C9_deterministic (d : dict) (w1 w2 : world) :
  files w1 !! TOC_FILE = files w2 !! TOC_FILE →
  files w1 !! MAIN_TEX = files w2 !! MAIN_TEX →
  ∃ r out,
    main d w1 = (r, after out w1)
    ∧ main d w2 = (r, after out w2)
    ∧ spares_inputs out
    ∧ (∀ p, (∃ c, files (main d w1).2 !! p = Some c
                  ∧ files (main d w2).2 !! p = Some c)
            ∨ (files (main d w1).2 !! p = files w1 !! p
               ∧ files (main d w2).2 !! p = files w2 !! p))
    ∧ (r = Ok tt →
       ∃ c, files (main d w1).2 !! OUTPUT_MAIN = Some c
            ∧ files (main d w2).2 !! OUTPUT_MAIN = Some c)
    ∧ (main d (main d w1).2).1 = r
    ∧ files (main d (main d w1).2).2 = files (main d w1).2.
Proof.
  intros Htoc Htex.
  destruct (main_after d (files w1 !! TOC_FILE) (files w1 !! MAIN_TEX))
    as (r & out & [Ht Hm] & Hmaster & Hrun).
  exists r, out.
  pose proof (Hrun w1 eq_refl eq_refl) as H1.
  pose proof (Hrun w2 (eq_sym Htoc) (eq_sym Htex)) as H2.
  assert (main d (after out w1) = (r, after out (after out w1))) as H3.
  { apply Hrun; unfold after; simpl; by rewrite lookup_union_r. }
  rewrite H1, H2. cbn [snd]. rewrite H3. cbn [fst snd].
  repeat split; try done.
  - intros p. unfold after. cbn [files].
    destruct (files out !! p) as [c|] eqn:Hp.
    + left. exists c. split; by apply lookup_union_Some_l.
    + right. split; by rewrite lookup_union_r.
  - intros [c Hc]%Hmaster. exists c. unfold after. cbn [files].
    split; by apply lookup_union_Some_l.
  - unfold after. cbn [files].
    by rewrite (assoc_L (∪)), (idemp_L (∪) (files out)).
Qed.

(** * Further properties of the script *)

(** ** [extract_lines] *)

(** X1. For a start line of at least 1 and a non-negative end line,
    [extract_lines] returns the lines numbered [start] to [end_], counted
    from 1 and both included, in order; the numbers beyond the buffer yield
    nothing, and a range whose end is below its start is empty. *)
Theorem X1_extract_lines_numbered (lines : list string) (start e : Z) (k : nat) :
  1 ≤ start → 0 ≤ e →
  extract_lines lines start (Int e) !! k
  = if decide (start + Z.of_nat k ≤ e)
    then lines !! (Z.to_nat (start - 1) + k)%nat
    else None.
Proof.
  intros Hs He. unfold extract_lines. simpl num_min.
  rewrite slice_nonneg by (unfold len; lia).
  destruct (decide (start + Z.of_nat k ≤ e)) as [Hk|Hk].
  - destruct (decide (start + Z.of_nat k ≤ len lines)) as [Hl|Hl].
    + rewrite lookup_take_lt by (unfold len in *; lia). by rewrite lookup_drop.
    + rewrite (lookup_ge_None_2 lines) by (unfold len in *; lia).
      apply lookup_ge_None_2. rewrite length_take, length_drop.
      unfold len in *. lia.
  - apply lookup_ge_None_2. rewrite length_take, length_drop.
    unfold len in *. lia.
Qed.

(** X2. Whatever the bounds, negative ones included, [extract_lines] returns
    a run of consecutive lines of the buffer: it never invents, repeats or
    reorders a line. *)
Theorem X2_extract_lines_segment (lines : list string) (start : Z) (end_ : num) :
  ∃ before after, lines = before ++ extract_lines lines start end_ ++ after.
Proof.
  unfold extract_lines, slice.
  match goal with |- context [take ?n (drop ?m lines)] =>
    exists (take m lines), (drop n (drop m lines)) end.
  by rewrite take_drop, take_drop.
Qed.

(** ** [find_preamble_end] and [find_frontmatter_end] *)

(** The test on a line in [find_frontmatter_end]. *)
Definition is_frontmatter_end (line : string) : bool :=
  contains "\mainmatter" line || is_chapter_line line.

Lemma list_find_first (f : string → bool) (pre post : list string) (m : string) :
  Forall (λ l, f l = false) pre → f m = true →
  list_find (λ l, f l) (pre ++ m :: post) = Some (length pre, m).
Proof.
  intros Hpre Hm. apply list_find_Some.
  split; [by rewrite list_lookup_middle|]. split; [by rewrite Hm|].
  intros j y Hj Hlt. rewrite lookup_app_l in Hj by done.
  rewrite (Forall_lookup_1 _ _ _ _ Hpre Hj). by intros [].
Qed.

Lemma list_find_none (f : string → bool) (lines : list string) :
  Forall (λ l, f l = false) lines → list_find (λ l, f l) lines = None.
Proof.
  intros Hall. apply list_find_None. eapply Forall_impl; [exact Hall|].
  intros l Hl. rewrite Hl. by intros [].
Qed.

Lemma find_preamble_end_first (pre post : list string) (m : string) :
  Forall (λ l, is_begin_document l = false) pre →
  is_begin_document m = true →
  find_preamble_end (pre ++ m :: post) = Z.of_nat (length pre) + 1.
Proof.
  intros Hpre Hm. unfold find_preamble_end.
  by rewrite (list_find_first _ _ _ _ Hpre Hm).
Qed.

(** X3. [find_preamble_end] returns the number, counted from 1, of the first
    line that opens the document body once stripped, and 1 when no line
    does; so the answer 1 does not tell a body opened on the first line
    from a body never opened.  The result is at least 1 and, for a
    non-empty buffer, a line number of the buffer. *)
Theorem X3_find_preamble_end (lines : list string) :
  (∀ pre m post,
     lines = pre ++ m :: post →
     Forall (λ l, is_begin_document l = false) pre →
     is_begin_document m = true →
     find_preamble_end lines = Z.of_nat (length pre) + 1)
  ∧ (Forall (λ l, is_begin_document l = false) lines →
     find_preamble_end lines = 1)
  ∧ 1 ≤ find_preamble_end lines
  ∧ (lines ≠ [] → find_preamble_end lines ≤ len lines).
Proof.
  split; [|unfold find_preamble_end; split; [|split]].
  - intros pre m post -> Hpre Hm. by apply find_preamble_end_first.
  - intros Hall. by rewrite (list_find_none _ _ Hall).
  - destruct (list_find _ lines) as [[i m]|]; lia.
  - intros Hne. destruct (list_find _ lines) as [[i m]|] eqn:Hf.
    + apply list_find_Some in Hf as [Hl _]. apply lookup_lt_Some in Hl.
      unfold len. lia.
    + destruct lines; [done|]. unfold len. simpl. lia.
Qed.

Lemma find_frontmatter_end_eq (lines : list string) :
  find_frontmatter_end lines
  = match list_find (λ l, is_frontmatter_end l) lines with
    | Some (i, _) => Z.of_nat i + 1
    | None => find_preamble_end lines
    end.
Proof. reflexivity. Qed.

Lemma find_frontmatter_end_first (pre post : list string) (m : string) :
  Forall (λ l, is_frontmatter_end l = false) pre →
  is_frontmatter_end m = true →
  find_frontmatter_end (pre ++ m :: post) = Z.of_nat (length pre) + 1.
Proof.
  intros Hpre Hm. rewrite find_frontmatter_end_eq.
  by rewrite (list_find_first is_frontmatter_end _ _ _ Hpre Hm).
Qed.

(** X4. [find_frontmatter_end] returns the number of the first line that
    contains [\mainmatter] anywhere or that starts, once stripped, with
    [\chapter{]; when no line does it falls back on [find_preamble_end]. *)
Theorem X4_find_frontmatter_end (lines : list string) :
  (∀ pre m post,
     lines = pre ++ m :: post →
     Forall (λ l, is_frontmatter_end l = false) pre →
     is_frontmatter_end m = true →
     find_frontmatter_end lines = Z.of_nat (length pre) + 1)
  ∧ (Forall (λ l, is_frontmatter_end l = false) lines →
     find_frontmatter_end lines = find_preamble_end lines).
Proof.
  split.
  - intros pre m post -> Hpre Hm. by apply find_frontmatter_end_first.
  - intros Hall. rewrite find_frontmatter_end_eq. by rewrite (list_find_none is_frontmatter_end _ Hall).
Qed.

(** ** Steps 1 and 2 of [generate_main_w_sub] *)

Definition package_line : string :=
  "\usepackage{subfiles} % Best loaded last in the preamble" +:+ nl.
Definition body_opening : string := nl +:+ "\begin{document}" +:+ nl +:+ nl.
Definition mainmatter_block : string :=
  nl +:+ "\mainmatter" +:+ nl +:+ "\newpage" +:+ nl.

Lemma slice_to_nat {A} (l : list A) (n : nat) :
  slice_to l (Z.of_nat n) = take n l.
Proof.
  unfold slice_to. rewrite slice_nonneg by lia.
  change (Z.to_nat 0) with 0%nat. rewrite drop_0. f_equal. lia.
Qed.

(** X5. For a source made of a preamble [pre], the line [b] that opens the
    body, front matter [front] and then a first line [m] that ends the front
    matter, steps 1 and 2 emit the preamble unchanged, the package line, a
    body opening of their own in place of [b], the front matter unchanged
    and a main-matter block of their own; [m] itself is not copied here. *)
Theorem X5_preamble_and_frontmatter (pre front rest : list string) (b m : string) :
  Forall (λ l, is_begin_document l = false) pre →
  is_begin_document b = true →
  Forall (λ l, is_frontmatter_end l = false) (pre ++ b :: front) →
  is_frontmatter_end m = true →
  preamble_and_frontmatter (pre ++ b :: front ++ m :: rest)
  = pre ++ [package_line] ++ [body_opening] ++ front ++ [mainmatter_block].
Proof.
  intros Hpre Hb Hfront Hm. unfold preamble_and_frontmatter.
  rewrite (find_preamble_end_first pre (front ++ m :: rest) b Hpre Hb).
  replace (find_frontmatter_end (pre ++ b :: front ++ m :: rest))
    with (Z.of_nat (length (pre ++ b :: front)) + 1)
    by (rewrite <- (find_frontmatter_end_first _ rest m Hfront Hm);
        by rewrite <- (assoc_L (++))).
  assert (slice_to (pre ++ b :: front ++ m :: rest) (Z.of_nat (length pre) + 1 - 1)
          = pre) as ->.
  { replace (Z.of_nat (length pre) + 1 - 1) with (Z.of_nat (length pre)) by lia.
    by rewrite slice_to_nat, take_app_length. }
  assert (extract_lines (pre ++ b :: front ++ m :: rest)
            (Z.of_nat (length pre) + 1 + 1)
            (Int (Z.of_nat (length (pre ++ b :: front)) + 1 - 1))
          = front) as ->; [|done].
  rewrite extract_lines_Int by len_solve.
  rewrite length_app. simpl.
  replace (Z.to_nat (Z.of_nat (length pre) + 1 + 1 - 1)) with (length (pre ++ [b]))
    by (rewrite length_app; simpl; lia).
  replace (pre ++ b :: front ++ m :: rest) with ((pre ++ [b]) ++ front ++ m :: rest)
    by (by rewrite <- (assoc_L (++))).
  rewrite drop_app_length.
  replace (Z.to_nat (Z.of_nat (length pre + S (length front)) + 1 - 1)
           - length (pre ++ [b]))%nat with (length front)
    by (rewrite length_app; simpl; lia).
  by rewrite take_app_length.
Qed.

(** ** [generate_main_w_sub] as a whole *)

(** X6. Whatever the source lines, the records and the label table,
    [generate_main_w_sub] raises nothing: no index or key it looks up is
    missing.  It writes the master file, touches no other file and prints
    one line. *)
Theorem X6_generate_main_w_sub_total (d : dict) (lines : list string)
    (sections : list TexSection) (w : world) :
  ∃ output,
    main_w_sub_output d lines sections = Ok output
    ∧ (generate_main_w_sub d lines sections w).1 = Ok tt
    ∧ files (generate_main_w_sub d lines sections w).2 !! OUTPUT_MAIN
      = Some (String.concat EmptyString output)
    ∧ (∀ p, p ≠ OUTPUT_MAIN →
            files (generate_main_w_sub d lines sections w).2 !! p = files w !! p)
    ∧ stdout (generate_main_w_sub d lines sections w).2
      = stdout w ++ [nl +:+ "Created: main_w_sub.tex"].
Proof.
  destruct (main_w_sub_output_Ok d lines sections)
    as (chapters & tail & _ & _ & Hout).
  eexists. split; [exact Hout|].
  unfold generate_main_w_sub, mbind, M_mbind, M_bind, lift, writelines, print.
  rewrite Hout. cbn [fst snd files stdout]. repeat split.
  - by rewrite lookup_insert_eq.
  - intros p Hp. by rewrite lookup_insert_ne.
Qed.

Lemma chapter_indices_none (sections : list TexSection) :
  Forall (λ s, level s ≠ "chapter") sections → chapter_indices sections = [].
Proof.
  intros Hall. destruct (chapter_indices sections) as [|i l] eqn:Hi; [done|].
  assert (i ∈ chapter_indices sections) as Hin
    by (rewrite Hi; apply elem_of_cons; by left).
  apply chapter_indices_elem in Hin as (s & Hs & Hlv).
  by destruct (Forall_lookup_1 _ _ _ _ Hall Hs).
Qed.

(** X7. With no chapter-level record, an empty toc included, steps 3 and 4
    add nothing: the master file holds the output of steps 1 and 2 alone,
    and none of the source after the front matter. *)
Theorem X7_no_chapter_record (d : dict) (lines : list string)
    (sections : list TexSection) :
  Forall (λ s, level s ≠ "chapter") sections →
  main_w_sub_output d lines sections = Ok (preamble_and_frontmatter lines).
Proof.
  intros Hall. pose proof (chapter_indices_none _ Hall) as Hnil.
  unfold main_w_sub_output, chapters_output.
  rewrite Hnil, (backmatter_no_chapter _ _ Hnil). simpl.
  by rewrite !app_nil_r.
Qed.

(** ** [find_section_content_range]: the converse *)

Lemma getitem_nat_Ok {A} (l : list A) (i : nat) (x : A) :
  getitem l (Z.of_nat i) = Ok x → l !! i = Some x.
Proof.
  unfold getitem.
  destruct (Z.ltb_spec (Z.of_nat i) 0) as [?|_]; [lia|].
  destruct (_ || _); [done|]. rewrite Nat2Z.id.
  destruct (l !! i); [by intros [= ->]|done].
Qed.

Lemma scan_for_end_sound (front rest : list TexSection) (rt : nat)
    (o : option Z) :
  scan_for_end (front ++ rest) rt (py_range (len front) (len (front ++ rest)))
  = Ok o →
  match o with
  | None => Forall (deeper_than rt) rest
  | Some e =>
      ∃ mid n post rn,
        rest = mid ++ n :: post ∧ Forall (deeper_than rt) mid
        ∧ rank n = Ok rn ∧ (rn ≤ rt)%nat ∧ e = line_num n - 1
  end.
Proof.
  revert front. induction rest as [|x rest IH]; intros front.
  - rewrite app_nil_r, py_range_nil by lia. by intros [= <-].
  - rewrite py_range_cons by len_solve.
    rewrite scan_for_end_cons, getitem_middle, bind_Ok.
    destruct (rank x) as [rx|ex] eqn:Hx; [|done]. rewrite bind_Ok.
    destruct (Nat.leb_spec rx rt) as [Hle|Hgt].
    + intros [= <-]. exists [], x, rest, rx. by repeat split.
    + replace (len front + 1) with (len (front ++ [x])) by len_solve.
      replace (front ++ x :: rest) with ((front ++ [x]) ++ rest)
        by (by rewrite <- (assoc_L (++))).
      intros Hscan%IH. destruct o as [e|].
      * destruct Hscan as (mid & n & post & rn & -> & Hmid & Hn & Hle & ->).
        exists (x :: mid), n, post, rn. repeat split; try done.
        apply Forall_cons. split; [by exists rx|done].
      * apply Forall_cons. split; [by exists rx|done].
Qed.

(** X8. Whenever the resolver returns for an index that [enumerate] can
    yield, the start is the line of the record at that index, whose level is
    in the hierarchy, and the end is either unbounded, every later record
    being deeper, or one less than the line of the first later record that
    is not deeper: it never stops at a deeper record and never looks back. *)
Theorem X8_range_resolver_sound (sections : list TexSection) (i : nat)
    (range : Z * num) :
  find_section_content_range sections (Z.of_nat i) = Ok range →
  ∃ pre t rest rt,
    sections = pre ++ t :: rest ∧ length pre = i
    ∧ rank t = Ok rt ∧ range.1 = line_num t
    ∧ ((range.2 = Inf ∧ Forall (deeper_than rt) rest)
       ∨ ∃ mid n post rn,
           rest = mid ++ n :: post ∧ Forall (deeper_than rt) mid
           ∧ rank n = Ok rn ∧ (rn ≤ rt)%nat
           ∧ range.2 = Int (line_num n - 1)).
Proof.
  unfold find_section_content_range.
  destruct (getitem sections (Z.of_nat i)) as [t|e] eqn:Ht; [|done].
  apply getitem_nat_Ok in Ht. rewrite bind_Ok.
  apply list_elem_of_split_length in Ht as (pre & rest & -> & ->).
  destruct (list_index (level t) level_hierarchy) as [rt|e] eqn:Hrt; [|done].
  rewrite bind_Ok.
  replace (Z.of_nat (length pre) + 1) with (len (pre ++ [t])) by len_solve.
  replace (pre ++ t :: rest) with ((pre ++ [t]) ++ rest)
    by (by rewrite <- (assoc_L (++))).
  destruct (scan_for_end _ rt _) as [o|e] eqn:Hscan; [|done].
  apply scan_for_end_sound in Hscan. rewrite bind_Ok. intros [= <-].
  exists pre, t, rest, rt. rewrite <- (assoc_L (++)).
  repeat split; try done. destruct o as [e|]; [right|left; by split].
  destruct Hscan as (mid & n & post & rn & -> & Hmid & Hn & Hle & ->).
  by exists mid, n, post, rn.
Qed.

(** X9. The errors of the resolver.  An index past the end of the records,
    or below minus their number, raises [IndexError] before any level is
    looked up; an index inside them raises nothing but [ValueError], and
    raises nothing at all when every record has a level of the hierarchy. *)
Theorem X9_range_resolver_errors (sections : list TexSection) :
  (∀ idx, len sections ≤ idx ∨ idx < - len sections →
          find_section_content_range sections idx = Raise IndexError)
  ∧ (∀ (i : nat) e, (i < length sections)%nat →
       find_section_content_range sections (Z.of_nat i) = Raise e →
       e = ValueError)
  ∧ (∀ i : nat, (i < length sections)%nat →
       Forall (λ s, level s ∈ level_hierarchy) sections →
       ∃ range, find_section_content_range sections (Z.of_nat i) = Ok range).
Proof.
  split; [|split].
  - intros idx Hidx. unfold find_section_content_range, getitem.
    destruct (Z.ltb_spec idx 0) as [Hneg|Hpos].
    + destruct (Z.ltb_spec (idx + len sections) 0) as [_|?]; [done|].
      destruct (Z.leb_spec (len sections) (idx + len sections)) as [_|?];
        [done|lia].
    + destruct (Z.ltb_spec idx 0) as [?|_]; [lia|].
      destruct (Z.leb_spec (len sections) idx) as [_|?]; [done|lia].
  - intros i e Hi. by apply find_range_exn.
  - intros i Hi Hlv. by apply find_range_total.
Qed.

(** ** [main]: missing inputs and a failure part-way *)

(** X10. In a world where the directory of the inputs is there, as some
    file in it shows, a missing toc file makes [main] raise
    [FileNotFoundError] after its first three console lines; when the toc
    file is there and parses, a missing source file does so after the
    record count and the next heading have been printed.  In both cases no
    file is written.  (When the directory itself is missing the run stops
    earlier, in [mkdir]; such a world is not among those described here.) *)
Theorem X10_missing_input (d : dict) (w : world) :
  (∀ name content,
     files w !! path_join BASE_DIR name = Some content →
     files w !! TOC_FILE = None →
     (main d w).1 = Raise FileNotFoundError
     ∧ files (main d w).2 = files w
     ∧ stdout (main d w).2 = stdout w ++ banner)
  ∧ (∀ toc sections,
       files w !! TOC_FILE = Some toc →
       parse_toc_text toc = Ok sections →
       files w !! MAIN_TEX = None →
       (main d w).1 = Raise FileNotFoundError
       ∧ files (main d w).2 = files w
       ∧ stdout (main d w).2
         = stdout w ++ banner
           ++ [ "   Found " +:+ pretty (length sections) +:+ " sections";
                nl +:+ "2. Reading main.tex..." ]).
Proof.
  split.
  - intros name content _ Ht. rewrite main_unfold, Ht. repeat split.
    unfold banner. cbn. by rewrite <- !(assoc_L (++)).
  - intros toc sections Ht Hp Hm. rewrite main_unfold, Ht, Hp, Hm.
    repeat split. unfold banner. cbn. by rewrite <- !(assoc_L (++)).
Qed.

Lemma files_say (w : world) (s : string) : files (say w s) = files w.
Proof. reflexivity. Qed.

Lemma for_each_app {A} (body : A → M unit) (l1 l2 : list A) (w : world) :
  for_each body (l1 ++ l2) w
  = match for_each body l1 w with
    | (Ok _, w') => for_each body l2 w'
    | (Raise e, w') => (Raise e, w')
    end.
Proof.
  revert w. induction l1 as [|x l1 IH]; intros w; [done|].
  change ((x :: l1) ++ l2) with (x :: (l1 ++ l2)).
  rewrite !for_each_cons. destruct (body x w) as [[[]|e] w']; [apply IH|done].
Qed.

(** X11. Nothing is rolled back.  When the entries [d1] of the table are
    processed and the next entry, whose label is found, fails in range
    resolution, the run ends with [ValueError]; the files of [d1] stay
    written, the later entries are not looked at and the master file is not
    written. *)
Theorem X11_failure_keeps_earlier_files (d1 d2 : dict) (key filename : string)
    (w : world) (toc tex : string) (sections : list TexSection) (i : nat)
    (s : TexSection) (e : exn) :
  files w !! TOC_FILE = Some toc →
  parse_toc_text toc = Ok sections →
  files w !! MAIN_TEX = Some tex →
  resolves sections d1 →
  find_label sections key = Some (i, s) →
  find_section_content_range sections (Z.of_nat i) = Raise e →
  (main (d1 ++ (key, filename) :: d2) w).1 = Raise ValueError
  ∧ files (main (d1 ++ (key, filename) :: d2) w).2
    = foldl (step_files sections (readlines tex)) (files w) d1
  ∧ files (main (d1 ++ (key, filename) :: d2) w).2 !! OUTPUT_MAIN
    = files w !! OUTPUT_MAIN
  ∧ stdout (main (d1 ++ (key, filename) :: d2) w).2
    = stdout w ++ banner ++ progress sections (readlines tex)
      ++ (step_line sections <$> d1).
Proof.
  intros Ht Hp Hm Hres Hfind Hraise.
  assert (e = ValueError) as ->.
  { eapply find_range_exn; [|exact Hraise].
    apply list_find_Some in Hfind as [Hl _]. by eapply lookup_lt_Some. }
  rewrite main_unfold, Ht, Hp, Hm. cbv zeta.
  rewrite for_each_app, (for_each_run _ _ _ _ Hres), for_each_cons.
  rewrite (subfile_step_found _ _ _ _ _ _ _ Hfind), Hraise.
  cbn [fst snd files stdout]. rewrite !files_say, files_foldl_say.
  split; [done|]. split; [done|]. split.
  - apply loop_files_other. intros k f _ _. apply output_main_not_subfile.
  - unfold banner, progress, say. cbn [foldl stdout].
    by rewrite <- !(assoc_L (++)).
Qed.

(** ** [parse_toc]: what every record satisfies, and how tocs compose *)

Fixpoint has_char (c : ascii) (s : string) : bool :=
  match s with
  | EmptyString => false
  | String x s' => Ascii.eqb x c || has_char c s'
  end.

Lemma split_no_sep (sep : ascii) (s : string) :
  Forall (λ p, has_char sep p = false) (split sep s).
Proof.
  induction s as [|c s IH]; [by repeat constructor|]. simpl.
  destruct (Ascii.eqb c sep) eqn:Hc; [by constructor|].
  destruct (split sep s) as [|p ps]; [repeat constructor; simpl; by rewrite Hc|].
  apply Forall_cons in IH as [Hp Hps]. constructor; [|done].
  simpl. by rewrite Hc, Hp.
Qed.

Lemma lstrip_by_no_char (f : ascii → bool) (c : ascii) (s : string) :
  has_char c s = false → has_char c (lstrip_by f s) = false.
Proof.
  induction s as [|x s IH]; [done|]. simpl.
  intros [Hx Hs]%orb_false_elim. destruct (f x); [by apply IH|].
  simpl. by rewrite Hx, Hs.
Qed.

Lemma rstrip_by_no_char (f : ascii → bool) (c : ascii) (s : string) :
  has_char c s = false → has_char c (rstrip_by f s) = false.
Proof.
  induction s as [|x s IH]; [done|]. simpl.
  intros [Hx Hs]%orb_false_elim. specialize (IH Hs).
  destruct (rstrip_by f s) as [|y r].
  - destruct (f x); [done|]. simpl. by rewrite Hx.
  - simpl in *. by rewrite Hx, IH.
Qed.

Lemma strip_no_char (c : ascii) (s : string) :
  has_char c s = false → has_char c (strip s) = false.
Proof. intros Hs. by apply rstrip_by_no_char, lstrip_by_no_char. Qed.

(** A field as [parse_toc] stores it: stripped, and free of commas. *)
Definition clean_field (f : string) : Prop :=
  strip f = f ∧ has_char "," f = false.

Lemma clean_piece (line : string) (p : string) :
  p ∈ split "," (strip line) → clean_field (strip p).
Proof.
  intros Hp. split; [apply strip_idemp|]. apply strip_no_char.
  by apply (proj1 (Forall_forall _ _) (split_no_sep "," (strip line))).
Qed.

Lemma parse_toc_loop_invariant (P : TexSection → Prop) (ls : list string)
    (acc res : list TexSection) :
  (∀ line p1 p2 p3 p4 z,
     split "," (strip line) = [p1; p2; p3; p4] →
     P (mkTexSection (strip p1) (strip p2) (strip p3) z)) →
  Forall P acc →
  parse_toc_loop ls acc = Ok res → Forall P res.
Proof.
  intros HP. revert acc. induction ls as [|line rest IH]; intros acc Hacc.
  - by intros [= <-].
  - rewrite parse_toc_loop_cons.
    destruct (String.eqb (strip line) EmptyString); [by apply IH|].
    destruct (split "," (strip line)) as [|p1 [|p2 [|p3 [|p4 [|p5 ps]]]]] eqn:Hs;
      try (by apply IH). simpl.
    unfold TexSection_init.
    destruct (int_of_str (strip p4)) as [z|e]; [|done]. rewrite !bind_Ok.
    apply IH. apply Forall_app. split; [done|].
    repeat constructor. by eapply HP.
Qed.

(** X12. In every record the parser returns, the level, the title and the
    label are stripped of surrounding white space and hold no comma: a
    title that contains a comma cannot be written in the toc, its line is
    dropped for having five fields. *)
Theorem X12_record_fields_clean (toc : string) (recs : list TexSection) :
  parse_toc_text toc = Ok recs →
  Forall (λ r, clean_field (level r) ∧ clean_field (title r)
               ∧ clean_field (label r)) recs.
Proof.
  apply parse_toc_loop_invariant; [|done].
  intros line p1 p2 p3 p4 z Hs. simpl.
  repeat split; try apply strip_idemp; apply strip_no_char;
    apply (proj1 (Forall_forall _ _) (split_no_sep "," (strip line)));
    rewrite Hs; set_solver.
Qed.

Lemma parse_toc_loop_acc (ls : list string) (acc : list TexSection) :
  parse_toc_loop ls acc = (r ← parse_toc_loop ls []; Ok (acc ++ r)).
Proof.
  revert acc. induction ls as [|line rest IH]; intros acc.
  - simpl. by rewrite app_nil_r.
  - rewrite !parse_toc_loop_cons.
    destruct (String.eqb (strip line) EmptyString); [apply IH|].
    destruct (strip <$> split "," (strip line))
      as [|p1 [|p2 [|p3 [|p4 [|p5 ps]]]]]; try apply IH.
    destruct (TexSection_init p1 p2 p3 p4) as [sec|e]; [|done].
    rewrite !bind_Ok, (IH (acc ++ [sec])), (IH ([] ++ [sec])).
    destruct (parse_toc_loop rest []) as [r|e]; [|done].
    by rewrite !bind_Ok, <- (assoc_L (++)).
Qed.

Lemma parse_toc_loop_app (l1 l2 : list string) (acc : list TexSection) :
  parse_toc_loop (l1 ++ l2) acc
  = (r ← parse_toc_loop l1 acc; parse_toc_loop l2 r).
Proof.
  revert acc. induction l1 as [|line rest IH]; intros acc; [done|].
  change ((line :: rest) ++ l2) with (line :: (rest ++ l2)).
  rewrite !parse_toc_loop_cons.
  destruct (String.eqb (strip line) EmptyString); [apply IH|].
  destruct (strip <$> split "," (strip line))
    as [|p1 [|p2 [|p3 [|p4 [|p5 ps]]]]]; try apply IH.
  destruct (TexSection_init p1 p2 p3 p4) as [sec|e]; [|done].
  rewrite !bind_Ok. apply IH.
Qed.

(** ** Reading lines *)

Lemma append_cons (c : ascii) (a b : string) :
  String c a +:+ b = String c (a +:+ b).
Proof. reflexivity. Qed.

Lemma readlines_lf (s : string) : readlines (String "010" s) = nl :: readlines s.
Proof. reflexivity. Qed.

Lemma readlines_cr (s : string) :
  readlines (String "013" s)
  = nl :: readlines (match s with
                     | String c s' => if Ascii.eqb c "010" then s' else s
                     | EmptyString => s
                     end).
Proof.
  destruct s as [|c s']; [reflexivity|].
  destruct c as [[] [] [] [] [] [] [] []]; reflexivity.
Qed.

Lemma readlines_other (c : ascii) (s : string) :
  c ≠ "010"%char → c ≠ "013"%char →
  readlines (String c s)
  = match readlines s with
    | l :: ls => String c l :: ls
    | [] => [String c EmptyString]
    end.
Proof.
  intros Hlf Hcr. simpl.
  destruct (Ascii.eqb_spec c "010") as [?|_]; [done|].
  by destruct (Ascii.eqb_spec c "013") as [?|_].
Qed.

Lemma readlines_nonempty (c : ascii) (s : string) : readlines (String c s) ≠ [].
Proof.
  destruct (decide (c = "010"%char)) as [->|Hlf]; [by rewrite readlines_lf|].
  destruct (decide (c = "013"%char)) as [->|Hcr]; [by rewrite readlines_cr|].
  rewrite readlines_other by done. by destruct (readlines s).
Qed.

Lemma readlines_app_lf (n : nat) (a b : string) :
  (String.length a ≤ n)%nat →
  readlines (a +:+ String "010" b) = readlines (a +:+ nl) ++ readlines b.
Proof.
  revert a. induction n as [|n IH]; intros a Hlen.
  { destruct a; [reflexivity|simpl in Hlen; lia]. }
  destruct a as [|c a]; [reflexivity|]. simpl in Hlen.
  rewrite !append_cons.
  destruct (decide (c = "010"%char)) as [->|Hlf].
  { rewrite !readlines_lf, IH by lia. done. }
  destruct (decide (c = "013"%char)) as [->|Hcr].
  { rewrite !readlines_cr. destruct a as [|c' a]; [reflexivity|].
    rewrite !append_cons. simpl in Hlen.
    destruct (Ascii.eqb c' "010").
    - rewrite IH by lia. done.
    - rewrite <- !append_cons, IH by (simpl; lia). done. }
  rewrite !readlines_other by done. rewrite IH by lia.
  destruct (readlines (a +:+ nl)) as [|l ls] eqn:Hr; [|done].
  destruct a; by apply readlines_nonempty in Hr.
Qed.

(** X13. Two tocs put one after the other, the first ending with a line
    break, give the records of the first followed by those of the second;
    an error in the first is the error of the whole, and the second is then
    not read. *)
Theorem X13_toc_concatenation (a b : string) :
  parse_toc_text (a +:+ String "010" b)
  = (r1 ← parse_toc_text (a +:+ nl);
     r2 ← parse_toc_text b;
     Ok (r1 ++ r2)).
Proof.
  unfold parse_toc_text.
  rewrite (readlines_app_lf (String.length a)) by done.
  rewrite parse_toc_loop_app.
  destruct (parse_toc_loop (readlines (a +:+ nl)) []) as [r1|e]; [|done].
  by rewrite !bind_Ok, parse_toc_loop_acc.
Qed.

(** X14. Reading loses nothing of a text without carriage return: the lines
    [read_main_tex] returns, joined, are the text of the file, so the
    slices the script copies are byte for byte those of the source. *)
Theorem X14_read_main_tex_lossless (w : world) (text : string) :
  files w !! MAIN_TEX = Some text →
  has_char "013" text = false →
  ∃ lines, read_main_tex MAIN_TEX w = (Ok lines, w)
           ∧ String.concat EmptyString lines = text.
Proof.
  intros Hf Hcr. exists (readlines text). split.
  - unfold read_main_tex, mbind, M_mbind, M_bind, read_text, mret, M_mret, M_ret.
    by rewrite Hf.
  - clear Hf. induction text as [|c s IH]; [done|].
    simpl in Hcr. apply orb_false_elim in Hcr as [Hc Hs]. specialize (IH Hs).
    destruct (decide (c = "010"%char)) as [->|Hlf].
    + by rewrite readlines_lf, concat_cons, IH.
    + rewrite readlines_other by (try done; by intros ->).
      destruct (readlines s) as [|l ls] eqn:Hr.
      * destruct s; [done|by apply readlines_nonempty in Hr].
      * rewrite concat_cons in *. rewrite append_cons. by rewrite IH.
Qed.

(** ** Step 3 of [generate_main_w_sub], chapter by chapter

    The loop of step 3 works on positions: the positions of the chapter
    records, the position of the next chapter, a slice between the two.
    What it computes is described here on the records themselves: a chapter,
    the records up to the next chapter, and the next chapter if any. *)

(** The records that follow a chapter, up to the next chapter record. *)
Fixpoint chapter_body (rest : list TexSection) : list TexSection :=
  match rest with
  | [] => []
  | s :: rest' =>
      if decide (level s = "chapter") then [] else s :: chapter_body rest'
  end.

Fixpoint next_chapter (rest : list TexSection) : option TexSection :=
  match rest with
  | [] => None
  | s :: rest' =>
      if decide (level s = "chapter") then Some s else next_chapter rest'
  end.

Definition section_records (body : list TexSection) : list TexSection :=
  filter (λ s, level s = "section") body.

(** The file names the table gives to the section records of [body]. *)
Definition mapped_files (d : dict) (body : list TexSection) : list string :=
  omap (λ s, dict_get d (label s)) (section_records body).

Definition subfile_line (filename : string) : string :=
  "\subfile{sections/" +:+ replace ".tex" EmptyString filename +:+ "}" +:+ nl.

(** What one chapter contributes to the master file. *)
Definition block_spec (d : dict) (lines : list string) (chapter : TexSection)
    (body : list TexSection) (next : option TexSection) : list string :=
  match mapped_files d body with
  | _ :: _ =>
      [chapter_heading chapter]
      ++ drop_chapter_lines
           (extract_lines lines (line_num chapter)
              (match section_records body with
               | s :: _ => Int (line_num s - 1)
               | [] => Inf
               end))
      ++ [nl] ++ (subfile_line <$> mapped_files d body) ++ [nl]
  | [] =>
      [chapter_heading chapter]
      ++ drop_chapter_lines
           (extract_lines lines (line_num chapter)
              (Int (match next with
                    | Some n => line_num n - 1
                    | None => len lines
                    end)))
      ++ [nl]
  end.

Fixpoint chapters_spec (d : dict) (lines : list string)
    (sections : list TexSection) : list string :=
  match sections with
  | [] => []
  | s :: rest =>
      if decide (level s = "chapter")
      then block_spec d lines s (chapter_body rest) (next_chapter rest)
           ++ chapters_spec d lines rest
      else chapters_spec d lines rest
  end.

Lemma filter_enumerate {A} (P : A → Prop) `{!∀ x, Decision (P x)}
    (k : nat) (l : list A) :
  (filter (λ p, P p.2) (enumerate k l)).*2 = filter P l.
Proof.
  revert k. induction l as [|x l IH]; intros k; [done|].
  rewrite enumerate_cons, !filter_cons. simpl.
  destruct (decide (P x)); simpl; by rewrite IH.
Qed.

Lemma filter_chapter_free (k : nat) (body : list TexSection) :
  Forall (λ s, level s ≠ "chapter") body →
  filter (λ p, level p.2 = "chapter") (enumerate k body) = [].
Proof.
  intros Hall. revert k.
  induction Hall as [|s body Hs _ IH]; intros k; [done|].
  rewrite enumerate_cons, filter_cons. simpl.
  destruct (decide (level s = "chapter")); [done|apply IH].
Qed.

Lemma chapter_body_split (rest : list TexSection) :
  ∃ post, rest = chapter_body rest ++ post
    ∧ Forall (λ s, level s ≠ "chapter") (chapter_body rest)
    ∧ next_chapter rest = head post
    ∧ (∀ n, head post = Some n → level n = "chapter").
Proof.
  induction rest as [|s rest (post & Hrest & Hall & Hnext & Hpost)].
  - exists []. by repeat split.
  - simpl. destruct (decide (level s = "chapter")) as [Hs|Hs].
    + exists (s :: rest). repeat split; [done|]. by intros n [= <-].
    + exists post. split; [simpl; by f_equal|]. split; [by constructor|done].
Qed.

Lemma chapter_body_free (body : list TexSection) :
  Forall (λ s, level s ≠ "chapter") body →
  chapter_body body = body ∧ next_chapter body = None.
Proof.
  induction 1 as [|s body Hs _ [IHb IHn]]; [done|]. simpl.
  destruct (decide (level s = "chapter")); [done|]. by rewrite IHb.
Qed.

Lemma mapM_cons {A B} (f : A → result B) (x : A) (l : list A) :
  mapM f (x :: l) = (y ← f x; k ← mapM f l; Ok (y :: k)).
Proof. reflexivity. Qed.

Lemma subfile_command_mapped (d : dict) (i : nat) (s : TexSection) (f : string) :
  dict_get d (label s) = Some f → subfile_command d (i, s) = Ok (subfile_line f).
Proof.
  intros Hg. unfold subfile_command, dict_getitem. simpl. by rewrite Hg.
Qed.

Lemma subfile_commands (d : dict) (l : list (nat * TexSection)) :
  mapM (subfile_command d) (filter (λ p, dict_mem d (label p.2) = true) l)
  = Ok (subfile_line <$> omap (λ s, dict_get d (label s)) l.*2).
Proof.
  induction l as [|[i s] l IH]; [done|].
  rewrite filter_cons. simpl.
  destruct (decide (dict_mem d (label s) = true)) as [Hm|Hm];
    unfold dict_mem in Hm; destruct (dict_get d (label s)) as [f|] eqn:Hg;
    try done.
  rewrite mapM_cons, (subfile_command_mapped d i s f Hg), bind_Ok, IH, bind_Ok.
  done.
Qed.

Lemma mapped_length (d : dict) (l : list (nat * TexSection)) :
  length (filter (λ p, dict_mem d (label p.2) = true) l)
  = length (omap (λ s, dict_get d (label s)) l.*2).
Proof.
  induction l as [|[i s] l IH]; [done|].
  rewrite filter_cons. simpl.
  destruct (decide (dict_mem d (label s) = true)) as [Hm|Hm];
    unfold dict_mem in Hm; destruct (dict_get d (label s)) as [f|] eqn:Hg;
    try done.
  simpl. by rewrite IH.
Qed.

Lemma chapter_indices_from (pre : list TexSection) (c : TexSection)
    (rest : list TexSection) :
  level c = "chapter" →
  chapter_indices (pre ++ c :: rest)
  = chapter_indices pre ++ length pre
    :: (filter (λ p, level p.2 = "chapter") (enumerate (S (length pre)) rest)).*1.
Proof.
  intros Hc. rewrite chapter_indices_app, enumerate_cons, filter_cons. simpl.
  by destruct (decide (level c = "chapter")).
Qed.

Lemma next_chapter_index (k : nat) (body post : list TexSection) :
  Forall (λ s, level s ≠ "chapter") body →
  (∀ n, head post = Some n → level n = "chapter") →
  (filter (λ p, level p.2 = "chapter") (enumerate k (body ++ post))).*1
  = match post with
    | [] => []
    | _ :: post' =>
        (k + length body)%nat
        :: (filter (λ p, level p.2 = "chapter")
              (enumerate (S (k + length body)) post')).*1
    end.
Proof.
  intros Hbody Hpost.
  rewrite enumerate_app, filter_app, (filter_chapter_free _ _ Hbody). simpl.
  destruct post as [|n post']; [done|].
  rewrite enumerate_cons, filter_cons. simpl.
  destruct (decide (level n = "chapter")) as [_|Hn]; [done|].
  by destruct Hn; apply Hpost.
Qed.

Lemma chapter_block_spec (d : dict) (lines : list string)
    (pre : list TexSection) (c : TexSection) (rest : list TexSection) :
  level c = "chapter" →
  chapter_block d lines (pre ++ c :: rest) (chapter_indices (pre ++ c :: rest))
    (length (chapter_indices pre), length pre)
  = Ok (block_spec d lines c (chapter_body rest) (next_chapter rest)).
Proof.
  intros Hc.
  destruct (chapter_body_split rest) as (post & Hrest & Hbody & Hnext & Hpost).
  rewrite Hnext. clear Hnext.
  revert Hrest Hbody. generalize (chapter_body rest). intros body -> Hbody.
  set (k := length (chapter_indices pre)).
  set (nci := (length pre + 1 + length body)%nat).
  assert ((if (k + 1 <? length (chapter_indices (pre ++ c :: body ++ post)))%nat
           then getitem (chapter_indices (pre ++ c :: body ++ post))
                  (Z.of_nat (k + 1))
           else Ok (length (pre ++ c :: body ++ post))) = Ok nci) as Hnci.
  { rewrite (chapter_indices_from _ _ _ Hc), (next_chapter_index _ _ _ Hbody Hpost).
    destruct post as [|n post'].
    - match goal with |- context [(?a <? ?b)%nat] =>
        destruct (Nat.ltb_spec a b) as [Hlt|_] end.
      + rewrite length_app in Hlt. simpl in Hlt. fold k in Hlt. lia.
      + f_equal. rewrite !length_app. simpl. rewrite length_app. simpl.
        unfold nci. lia.
    - match goal with |- context [(?a <? ?b)%nat] =>
        destruct (Nat.ltb_spec a b) as [_|Hge] end;
        [|rewrite length_app in Hge; simpl in Hge; fold k in Hge; lia].
      apply getitem_lookup. rewrite lookup_app_r by (fold k; lia). fold k.
      replace (k + 1 - k)%nat with 1%nat by lia. simpl. f_equal. unfold nci. lia. }
  assert ((if (nci <? length (pre ++ c :: body ++ post))%nat
           then s ← getitem (pre ++ c :: body ++ post) (Z.of_nat nci);
                Ok (line_num s - 1)
           else Ok (len lines))
          = Ok (match head post with
                | Some n => line_num n - 1
                | None => len lines
                end)) as Hend.
  { destruct post as [|n post']; simpl head.
    - destruct (Nat.ltb_spec nci (length (pre ++ c :: body ++ []))) as [Hlt|_];
        [|done].
      rewrite length_app in Hlt. simpl in Hlt. rewrite length_app in Hlt.
      simpl in Hlt. unfold nci in Hlt. lia.
    - destruct (Nat.ltb_spec nci (length (pre ++ c :: body ++ n :: post')))
        as [_|Hge].
      + rewrite (getitem_lookup _ nci n); [done|].
        replace (pre ++ c :: body ++ n :: post')
          with ((pre ++ c :: body) ++ n :: post')
          by (by rewrite <- (assoc_L (++))).
        replace nci with (length (pre ++ c :: body))
          by (rewrite length_app; simpl; unfold nci; lia).
        apply list_lookup_middle. done.
      + rewrite length_app in Hge. simpl in Hge. rewrite length_app in Hge.
        simpl in Hge. unfold nci in Hge. lia. }
  assert (slice (pre ++ c :: body ++ post) (Z.of_nat (length pre + 1))
            (Z.of_nat nci) = body) as Hslice.
  { rewrite slice_nonneg by lia. rewrite !Nat2Z.id.
    replace (pre ++ c :: body ++ post) with ((pre ++ [c]) ++ body ++ post)
      by (by rewrite <- (assoc_L (++))).
    rewrite drop_app_length' by (rewrite length_app; simpl; lia).
    replace (nci - (length pre + 1))%nat with (length body) by (unfold nci; lia).
    by rewrite take_app_length. }
  unfold chapter_block.
  change (Z.of_nat (length pre)) with (len pre).
  rewrite getitem_middle, bind_Ok, Hnci, bind_Ok, Hslice, Hend.
  set (cs := filter _ (enumerate (length pre + 1) body)).
  assert (cs.*2 = section_records body) as Hcs
    by exact (filter_enumerate (λ s, level s = "section") (length pre + 1) body).
  unfold block_spec, mapped_files. rewrite <- Hcs. clear Hcs. clearbody cs.
  rewrite (subfile_commands d cs).
  pose proof (mapped_length d cs) as Hlen.
  destruct (filter (λ p, dict_mem d (label p.2) = true) cs) as [|p ps];
    destruct (omap (λ s, dict_get d (label s)) cs.*2) as [|f fs];
    try done.
  rewrite bind_Ok. by destruct cs as [|[i s] cs'].
Qed.

Lemma chapters_loop_spec (d : dict) (lines : list string)
    (pre suf : list TexSection) :
  ∃ blocks,
    mapM (chapter_block d lines (pre ++ suf) (chapter_indices (pre ++ suf)))
      (enumerate (length (chapter_indices pre))
         (filter (λ p, level p.2 = "chapter") (enumerate (length pre) suf)).*1)
    = Ok blocks
    ∧ concat blocks = chapters_spec d lines suf.
Proof.
  revert pre. induction suf as [|s rest IH]; intros pre; [by exists []|].
  destruct (IH (pre ++ [s])) as (blocks & Hblocks & Hconcat). clear IH.
  rewrite chapter_indices_snoc in Hblocks.
  rewrite <- (assoc_L (++)) in Hblocks.
  rewrite (length_app pre [s]) in Hblocks. simpl in Hblocks.
  rewrite Nat.add_1_r in Hblocks.
  rewrite enumerate_cons, filter_cons. simpl.
  destruct (decide (level s = "chapter")) as [Hs|Hs].
  - rewrite length_app, Nat.add_1_r in Hblocks.
    exists (block_spec d lines s (chapter_body rest) (next_chapter rest) :: blocks).
    rewrite fmap_cons, enumerate_cons, mapM_cons. simpl fst.
    rewrite (chapter_block_spec d lines pre s rest Hs), bind_Ok.
    rewrite Hblocks, bind_Ok. split; [done|]. simpl. by rewrite Hconcat.
  - rewrite app_nil_r in Hblocks. by exists blocks.
Qed.

Lemma chapters_output_spec (d : dict) (lines : list string)
    (sections : list TexSection) :
  chapters_output d lines sections = Ok (chapters_spec d lines sections).
Proof.
  destruct (chapters_loop_spec d lines [] sections) as (blocks & Hb & Hc).
  unfold chapters_output. simpl in Hb.
  change (mapM (chapter_block d lines sections (chapter_indices sections))
            (enumerate 0 (chapter_indices sections)) = Ok blocks) in Hb.
  by rewrite Hb, bind_Ok, Hc.
Qed.

(** X15. Step 3 of [generate_main_w_sub] is a walk over the chapters: each
    chapter record contributes its heading and then, when the table maps
    one of the section records between it and the next chapter, the source
    lines from the chapter's line to the line before its first section
    record (mapped or not), an empty line, one [\subfile] command for each
    mapped section in order and an empty line; when the table maps none,
    the source lines up to the line before the next chapter record, or to
    the end of the file for the last chapter, and an empty line.  Lines that
    start a chapter are removed from what is copied.  So in a chapter with
    a mapped section, the text of its unmapped sections is not copied. *)
Theorem X15_chapters_by_records (d : dict) (lines : list string)
    (sections : list TexSection) :
  chapters_output d lines sections = Ok (chapters_spec d lines sections).
Proof. apply chapters_output_spec. Qed.

Lemma section_records_body (rest : list TexSection) :
  section_records (chapter_body (filter (λ s, level s = "chapter" ∨ level s = "section") rest))
  = section_records (chapter_body rest)
  ∧ next_chapter (filter (λ s, level s = "chapter" ∨ level s = "section") rest)
    = next_chapter rest.
Proof.
  unfold section_records.
  induction rest as [|s rest [IHb IHn]]; [done|].
  rewrite filter_cons.
  destruct (decide (level s = "chapter" ∨ level s = "section")) as [[Hs|Hs]|Hs];
    cbn [chapter_body next_chapter];
    destruct (decide (level s = "chapter")) as [Hc|Hc];
    try done; try (by rewrite Hs in Hc).
  - rewrite !filter_cons. destruct (decide (level s = "section")); [|done].
    by rewrite IHb.
  - destruct Hs. by left.
  - rewrite filter_cons. destruct (decide (level s = "section")) as [Hsec|_];
      [|done].
    destruct Hs. by right.
Qed.

Lemma block_spec_body (d : dict) (lines : list string) (c : TexSection)
    (body1 body2 : list TexSection) (next : option TexSection) :
  section_records body1 = section_records body2 →
  block_spec d lines c body1 next = block_spec d lines c body2 next.
Proof. intros Hb. unfold block_spec, mapped_files. by rewrite Hb. Qed.

Lemma chapters_spec_structural (d : dict) (lines : list string)
    (sections : list TexSection) :
  chapters_spec d lines
    (filter (λ s, level s = "chapter" ∨ level s = "section") sections)
  = chapters_spec d lines sections.
Proof.
  induction sections as [|s rest IH]; [done|].
  rewrite filter_cons.
  destruct (decide (level s = "chapter" ∨ level s = "section")) as [Hs|Hs];
    cbn [chapters_spec]; destruct (decide (level s = "chapter")) as [Hc|Hc];
    try done.
  - destruct (section_records_body rest) as [Hb ->].
    by rewrite IH, (block_spec_body d lines s _ _ _ Hb).
  - destruct Hs. by left.
Qed.

(** X16. The master file depends on the chapter and section records only:
    records of any other level, subsections and levels outside the
    hierarchy included, can be removed from the toc without changing what
    [generate_main_w_sub] writes.  (The same records do matter to
    [find_section_content_range].) *)
Theorem X16_master_ignores_deeper_records (d : dict) (lines : list string)
    (sections : list TexSection) :
  main_w_sub_output d lines
    (filter (λ s, level s = "chapter" ∨ level s = "section") sections)
  = main_w_sub_output d lines sections.
Proof.
  unfold main_w_sub_output.
  rewrite !chapters_output_spec, !bind_Ok, chapters_spec_structural.
  destruct (decide (Forall (λ s, level s ≠ "chapter") sections)) as [Hall|Hex].
  - rewrite !backmatter_no_chapter; [done|by apply chapter_indices_none|].
    apply chapter_indices_none. apply Forall_forall.
    intros s [_ Hs]%list_elem_of_filter.
    by apply (proj1 (Forall_forall _ _) Hall).
  - apply not_Forall_Exists in Hex; [|apply _].
    apply Exists_exists in Hex as (c & Hin & Hc). simpl in Hc.
    assert (level c = "chapter") as Hch
      by (by destruct (decide (level c = "chapter"))).
    rewrite !backmatter_eq; [done| |].
    + by apply (chapter_indices_nonempty _ c).
    + apply (chapter_indices_nonempty _ c); [|done].
      apply list_elem_of_filter. split; [by left|done].
Qed.

Lemma chapters_spec_app (d : dict) (lines : list string)
    (pre suf : list TexSection) :
  ∃ earlier,
    chapters_spec d lines (pre ++ suf) = earlier ++ chapters_spec d lines suf.
Proof.
  induction pre as [|s pre [earlier IH]]; [by exists []|].
  cbn [app chapters_spec]. destruct (decide (level s = "chapter")).
  - eexists. by rewrite IH, (assoc_L (++)).
  - by exists earlier.
Qed.

Lemma chapters_spec_free (d : dict) (lines : list string)
    (body : list TexSection) :
  Forall (λ s, level s ≠ "chapter") body → chapters_spec d lines body = [].
Proof.
  induction 1 as [|s body Hs _ IH]; [done|]. cbn [chapters_spec].
  by destruct (decide (level s = "chapter")).
Qed.

(** X17. When the table maps no section of the last chapter, that chapter
    is copied from its line to the end of the source file, the back matter
    and the line that closes the document included, and step 4 then appends
    the back matter once more: for a source whose first marker line [m]
    comes after the chapter's line, the lines [m :: post] are in the master
    file twice. *)
Theorem X17_back_matter_twice (d : dict) (top mid post : list string)
    (m : string) (pre body : list TexSection) (c : TexSection) :
  level c = "chapter" →
  Forall (λ s, level s ≠ "chapter") body →
  mapped_files d body = [] →
  line_num c = Z.of_nat (length top) + 1 →
  Forall (λ l, is_backmatter_marker l = false) (top ++ mid) →
  is_backmatter_marker m = true →
  ∃ earlier,
    main_w_sub_output d (top ++ mid ++ m :: post) (pre ++ c :: body)
    = Ok (preamble_and_frontmatter (top ++ mid ++ m :: post)
          ++ earlier
          ++ [chapter_heading c] ++ drop_chapter_lines (mid ++ m :: post) ++ [nl]
          ++ m :: post).
Proof.
  intros Hc Hbody Hmapped Hline Hfree Hm.
  destruct (chapters_spec_app d (top ++ mid ++ m :: post) pre (c :: body))
    as [earlier Hsplit].
  exists earlier. unfold main_w_sub_output.
  rewrite chapters_output_spec, bind_Ok, Hsplit.
  rewrite backmatter_eq
    by (apply (chapter_indices_nonempty _ c); [set_solver|done]).
  rewrite bind_Ok. cbn [chapters_spec].
  destruct (decide (level c = "chapter")) as [_|?]; [|done].
  destruct (chapter_body_free body Hbody) as [-> ->].
  rewrite (chapters_spec_free _ _ _ Hbody), app_nil_r.
  unfold block_spec. rewrite Hmapped.
  assert (extract_lines (top ++ mid ++ m :: post) (line_num c)
            (Int (len (top ++ mid ++ m :: post))) = mid ++ m :: post) as ->.
  { rewrite extract_lines_Int by (unfold len; lia).
    rewrite Hline.
    replace (Z.to_nat (Z.of_nat (length top) + 1 - 1)) with (length top) by lia.
    rewrite drop_app_length. apply take_ge. unfold len.
    rewrite Nat2Z.id, !length_app. lia. }
  assert (slice_from (top ++ mid ++ m :: post)
            (backmatter_start (top ++ mid ++ m :: post) - 1) = m :: post) as ->.
  { replace (top ++ mid ++ m :: post) with ((top ++ mid) ++ m :: post)
      by (by rewrite <- (assoc_L (++))).
    rewrite (backmatter_start_marker _ _ _ Hfree Hm).
    replace (Z.of_nat (length (top ++ mid)) + 1 - 1)
      with (Z.of_nat (length (top ++ mid))) by lia.
    by rewrite slice_from_nat, drop_app_length. }
  by rewrite <- !(assoc_L (++)).
Qed.

(** ** The loop of [main] over the table *)

(** X18. The table's keys are distinct but two entries may name the same
    file: each of them whose label is found prints its own line, and the
    file the run leaves holds the section of the last such entry, the
    earlier contents being overwritten. *)
Theorem X18_shared_filename_last_wins (d1 d2 : dict) (key f : string)
    (w : world) (toc tex : string) (sections : list TexSection) (i : nat)
    (s : TexSection) (range : Z * num) :
  files w !! TOC_FILE = Some toc →
  parse_toc_text toc = Ok sections →
  files w !! MAIN_TEX = Some tex →
  resolves sections (d1 ++ (key, f) :: d2) →
  find_label sections key = Some (i, s) →
  find_section_content_range sections (Z.of_nat i) = Ok range →
  (∀ k, (k, f) ∈ d2 → find_label sections k = None) →
  (main (d1 ++ (key, f) :: d2) w).1 = Ok tt
  ∧ files (main (d1 ++ (key, f) :: d2) w).2 !! path_join SECTIONS_DIR f
    = Some (subfile_text (extract_lines (readlines tex) range.1 range.2)).
Proof.
  intros Htoc Hparse Htex Hres Hfind Hrange Hlast.
  destruct (main_completes _ w toc tex sections Htoc Hparse Htex Hres)
    as (output & _ & ->).
  split; [done|]. cbn [snd files].
  rewrite lookup_insert_ne by apply output_main_not_subfile.
  rewrite foldl_app. cbn [foldl]. rewrite loop_files_other.
  - destruct (step_found sections (readlines tex)
                (foldl (step_files sections (readlines tex)) (files w) d1)
                key f i s range Hfind Hrange) as [_ ->].
    by rewrite lookup_insert_eq.
  - intros k f' Hin Hfound Heq. apply path_join_inj in Heq as <-.
    by apply Hfound, Hlast.
Qed.

(** X19. When no label of the table is in the toc, the run still completes
    and its last lines report as many subfiles as the table has entries,
    although it wrote none: the count printed is the size of the table, not
    the number of files created. *)
Theorem X19_count_is_table_size (d : dict) (w : world) (toc tex : string)
    (sections : list TexSection) :
  files w !! TOC_FILE = Some toc →
  parse_toc_text toc = Ok sections →
  files w !! MAIN_TEX = Some tex →
  Forall (λ entry, find_label sections entry.1 = None) d →
  (main d w).1 = Ok tt
  ∧ (∃ earlier,
       stdout (main d w).2
       = earlier
         ++ [ "Created " +:+ pretty (length d) +:+ " subfiles in: " +:+ SECTIONS_DIR;
              "Created main file: " +:+ OUTPUT_MAIN ])
  ∧ ∀ f, files (main d w).2 !! path_join SECTIONS_DIR f
         = files w !! path_join SECTIONS_DIR f.
Proof.
  intros Htoc Hparse Htex Hnone.
  assert (resolves sections d) as Hres.
  { eapply Forall_impl; [exact Hnone|]. intros entry He j s Hf. congruence. }
  destruct (main_completes d w toc tex sections Htoc Hparse Htex Hres)
    as (output & _ & ->).
  split; [done|]. split.
  - cbn [snd stdout]. unfold printed, closing.
    exists (stdout w ++ banner ++ progress sections (readlines tex)
            ++ (step_line sections <$> d)
            ++ [nl +:+ "4. Generating main_w_sub.tex..."]
            ++ [nl +:+ "Created: main_w_sub.tex"; nl +:+ str_repeat "=" 50;
                "Complete!"]).
    by rewrite <- !(assoc_L (++)).
  - intros f. cbn [snd files].
    rewrite lookup_insert_ne by apply output_main_not_subfile.
    by rewrite loop_files_foreign.
Qed.

(** ** The [\subfile] command and the file it names *)

Lemma prefix_cons_ne (a b : ascii) (s1 s2 : string) :
  a ≠ b → String.prefix (String a s1) (String b s2) = false.
Proof. intros Hne. simpl. by destruct (ascii_dec a b). Qed.

Lemma replace_extension (name : string) :
  has_char "." name = false →
  replace ".tex" EmptyString (name +:+ ".tex") = name.
Proof.
  unfold replace. induction name as [|c name IH]; [by vm_compute|].
  simpl has_char. intros [Hc Hn]%orb_false_elim. rewrite append_cons.
  cbn [replace_go]. rewrite prefix_cons_ne.
  - f_equal. by apply IH.
  - intros <-. by vm_compute in Hc.
Qed.

(** X20. For a mapped section whose file name is a dot-free stem followed
    by [.tex], the command written to the master file names, relative to
    the directory of the master file and without the extension, exactly the
    file [create_subfile] writes for that name. *)
Theorem X20_subfile_command_names_the_file (d : dict) (i : nat)
    (s : TexSection) (stem : string) :
  dict_get d (label s) = Some (stem +:+ ".tex") →
  has_char "." stem = false →
  ∃ arg,
    subfile_command d (i, s) = Ok ("\subfile{" +:+ arg +:+ "}" +:+ nl)
    ∧ path_join BASE_DIR arg +:+ ".tex" = path_join SECTIONS_DIR (stem +:+ ".tex").
Proof.
  intros Hget Hstem. exists ("sections/" +:+ stem). split.
  - rewrite (subfile_command_mapped d i s _ Hget). unfold subfile_line.
    by rewrite (replace_extension _ Hstem).
  - unfold path_join, SECTIONS_DIR, path_join. by rewrite !append_assoc.
Qed.
End Interpreter.

(** * Concrete runs

    The theorems above hold for every setting of the digit limit; the runs
    below take the default one, and the script's own label table. *)

Definition default_max_str_digits : nat := 4300.

(** Membership in a list written out. *)
Ltac in_list := apply list_elem_of_In; simpl; auto.
Ltac not_in_list :=
  let H := fresh in
  intros H; apply list_elem_of_In in H; simpl in H; intuition discriminate.

Definition script : M unit := main default_max_str_digits LABEL_TO_FILENAME.

Definition parse (toc : string) : result (list TexSection) :=
  parse_toc_text default_max_str_digits toc.

Definition py_int (s : string) : result Z := int_of_str default_max_str_digits s.

(** ** The built-ins *)

Example strip_example : strip ("  a b " +:+ nl) = "a b".
Proof. reflexivity. Qed.
Example strip_separator : strip (String "028" "5") = "5".
Proof. reflexivity. Qed.
Example split_empty : split "," EmptyString = [EmptyString].
Proof. reflexivity. Qed.
Example split_holes : split "," "a,,b" = ["a"; EmptyString; "b"].
Proof. reflexivity. Qed.
Example split_comma : split "," "," = [EmptyString; EmptyString].
Proof. reflexivity. Qed.
Example replace_twice : replace ".tex" EmptyString "a.tex.tex" = "a".
Proof. reflexivity. Qed.
Example replace_no_overlap : replace ".tex" EmptyString "..textex" = ".tex".
Proof. reflexivity. Qed.
Example readlines_example :
  readlines ("a" +:+ String "013" nl +:+ "b" +:+ String "013" "c" +:+ nl +:+ nl +:+ "d")
  = ["a" +:+ nl; "b" +:+ nl; "c" +:+ nl; nl; "d"].
Proof. reflexivity. Qed.

Example py_int_plain : py_int "120" = Ok 120.
Proof. reflexivity. Qed.
Example py_int_spaces : py_int " 42 " = Ok 42.
Proof. reflexivity. Qed.
Example py_int_signed : py_int "-7" = Ok (-7).
Proof. reflexivity. Qed.
Example py_int_zeros : py_int "010" = Ok 10.
Proof. reflexivity. Qed.
Example py_int_underscore : py_int "1_000" = Ok 1000.
Proof. reflexivity. Qed.
Example py_int_word : py_int "ten" = Raise ValueError.
Proof. reflexivity. Qed.
Example py_int_empty : py_int EmptyString = Raise ValueError.
Proof. reflexivity. Qed.
Example py_int_float : py_int "3.0" = Raise ValueError.
Proof. reflexivity. Qed.
Example py_int_hex : py_int "0x10" = Raise ValueError.
Proof. reflexivity. Qed.
Example py_int_two_underscores : py_int "1__0" = Raise ValueError.
Proof. reflexivity. Qed.
Example py_int_sign_gap : py_int "+ 5" = Raise ValueError.
Proof. reflexivity. Qed.
Example py_int_separator : py_int (String "028" "5") = Raise ValueError.
Proof. reflexivity. Qed.
Example py_int_limit :
  (∃ z, py_int (str_repeat "1" 4300) = Ok z)
  ∧ py_int (str_repeat "1" 4301) = Raise ValueError
  ∧ ∃ z, int_of_str 0 (str_repeat "1" 4301) = Ok z.
Proof. vm_compute. eauto. Qed.

Example slice_examples :
  slice [1; 2; 3; 4; 5] (-1) 3 = []
  ∧ slice [1; 2; 3; 4; 5] (-1) 5 = [5]
  ∧ slice [1; 2; 3; 4; 5] (-7) 2 = [1; 2]
  ∧ slice [1; 2; 3; 4; 5] 3 1 = []
  ∧ slice [1; 2; 3; 4; 5] 2 100 = [3; 4; 5]
  ∧ slice_from [1; 2; 3; 4; 5] (-2) = [4; 5]
  ∧ slice_from ([] : list Z) (-1) = [].
Proof. repeat split. Qed.

(** A line number below 1 makes the slice start count from the end. *)
Example extract_lines_line_zero :
  extract_lines ["l1"; "l2"; "l3"] 0 Inf = ["l3"].
Proof. reflexivity. Qed.

(** ** The range resolver *)

Definition c1_chapter : TexSection := mkTexSection "chapter" "Intro" "ch1" 1.
Definition c1_section : TexSection :=
  mkTexSection "section" "Background" "significance_of_study" 3.
Definition c1_subsection : TexSection :=
  mkTexSection "subsection" "Details" "sub" 5.
Definition c1_section2 : TexSection := mkTexSection "section" "Next" "nxt" 8.
Definition c1_odd : TexSection := mkTexSection "appendix" "Odd" "odd" 20.

Lemma C1_range_resolver_witness :
  find_section_content_range
    [c1_chapter; c1_section; c1_subsection; c1_section2; c1_odd] 1
  = Ok (3, Int 7)
  ∧ find_section_content_range [c1_chapter; c1_section; c1_section2] 1
    = Ok (3, Int 7).
Proof.
  split.
  - apply (proj1 C1_range_resolver [c1_chapter] [c1_subsection] [c1_odd]
             c1_section c1_section2 1%nat 1%nat).
    + reflexivity.
    + repeat constructor. exists 2%nat. split; [reflexivity | lia].
    + reflexivity.
    + lia.
  - apply (proj2 C1_range_resolver [c1_chapter] [] c1_section c1_section2);
      reflexivity.
Defined.

Lemma C5_unbounded_range_witness :
  find_section_content_range [c1_chapter; c1_section; c1_section2] 2
  = Ok (8, Inf)
  ∧ extract_lines ["l1"; "l2"; "l3"; "l4"; "l5"; "l6"; "l7"; "l8"; "l9"] 8 Inf
    = ["l8"; "l9"].
Proof.
  apply (C5_unbounded_range [c1_chapter; c1_section] [] c1_section2 1%nat
           ["l1"; "l2"; "l3"; "l4"; "l5"; "l6"; "l7"; "l8"; "l9"]).
  - reflexivity.
  - constructor.
  - simpl. lia.
Defined.

(** The resolver takes any index a list takes: a negative one counts from
    the end, and the scan then starts before the target.  [main] only passes
    the indices [enumerate] yields. *)
Example find_range_negative_index :
  find_section_content_range [c1_chapter; c1_section] (-1) = Ok (3, Int 0)
  ∧ find_section_content_range [c1_chapter; c1_section] 2 = Raise IndexError.
Proof. split; reflexivity. Qed.

(** ** The toc parser *)

Example parse_toc_example :
  parse ("chapter,Intro,ch1,1" +:+ nl +:+
         "section, Background ,significance_of_study, 3 " +:+ nl +:+
         nl +:+
         "only,three,fields" +:+ nl +:+
         "chapter,Methods,ch2,10")
  = Ok [ mkTexSection "chapter" "Intro" "ch1" 1;
         mkTexSection "section" "Background" "significance_of_study" 3;
         mkTexSection "chapter" "Methods" "ch2" 10 ].
Proof. reflexivity. Qed.

Definition c2_toc : string :=
  "chapter,Intro,ch1,1" +:+ nl +:+ nl +:+
  "a stray line" +:+ nl +:+
  "section, Background , sec:bg , 3 " +:+ nl +:+
  "too,many,fields,in,here" +:+ nl.

Lemma C2_parser_records_witness :
  ∃ recs, parse c2_toc = Ok recs
          ∧ toc_records default_max_str_digits (readlines c2_toc) recs.
Proof.
  unfold parse. apply (C2_parser_records default_max_str_digits c2_toc).
  intros line p1 p2 p3 p4 Hin Hs. vm_compute in Hin.
  repeat (apply elem_of_cons in Hin as [->|Hin];
          [vm_compute in Hs; try discriminate Hs; injection Hs as <- <- <- <-;
           (split; [apply int_body_literal; vm_compute; eauto|reflexivity])|]).
  by apply elem_of_nil in Hin.
Defined.

(** C2 as stated fails: a non-blank line of exactly four pieces whose
    fourth piece is not an integer yields no record, the parser raises. *)
Lemma C2_counterexample :
  strip "section,Background,sec:bg,twelve" ≠ EmptyString
  ∧ split "," (strip "section,Background,sec:bg,twelve")
    = ["section"; "Background"; "sec:bg"; "twelve"]
  ∧ parse "section,Background,sec:bg,twelve" = Raise ValueError
  ∧ ¬ ∃ recs, parse "section,Background,sec:bg,twelve" = Ok recs.
Proof.
  split; [vm_compute; discriminate|]. split; [reflexivity|].
  split; [reflexivity|].
  intros [recs Hrecs]. vm_compute in Hrecs. discriminate Hrecs.
Qed.

Definition c10_toc : string :=
  "chapter,Intro,ch1,1" +:+ nl +:+ "section,Background,sec:bg,twelve" +:+ nl.
Definition c10_world : world :=
  mkWorld (<[TOC_FILE := c10_toc]> (<[MAIN_TEX := "text"]> ∅)) [].

Lemma C10_bad_line_number_witness :
  parse c10_toc = Raise ValueError
  ∧ (script c10_world).1 = Raise ValueError
  ∧ files (script c10_world).2 = files c10_world
  ∧ stdout (script c10_world).2 = stdout c10_world ++ banner.
Proof.
  unfold parse, script.
  destruct (C10_bad_line_number default_max_str_digits c10_toc
              ("section,Background,sec:bg,twelve" +:+ nl)
              "section" "Background" "sec:bg" "twelve"
              LABEL_TO_FILENAME c10_world) as [Hparse Hrun].
  - vm_compute. in_list.
  - reflexivity.
  - intros [H%int_body_literal _]. vm_compute in H. destruct H as [z Hz].
    discriminate Hz.
  - split; [exact Hparse|]. apply Hrun. reflexivity.
Defined.

(** ** The subfile writer *)

Example create_subfile_example :
  files (create_subfile "a.tex" ["x" +:+ nl; "y" +:+ nl] (mkWorld ∅ [])).2
    !! path_join SECTIONS_DIR "a.tex"
  = Some ("\documentclass[../main.tex]{subfiles}" +:+ nl +:+
          "\graphicspath{{\subfix{../Images/}}}" +:+ nl +:+
          "\begin{document}" +:+ nl +:+ nl +:+
          "x" +:+ nl +:+ "y" +:+ nl +:+
          nl +:+ "\end{document}" +:+ nl).
Proof. by rewrite create_subfile_run; cbn; rewrite lookup_insert_eq. Qed.

(** The names of the script's table are plain. *)
Example table_names_plain :
  Forall (λ name, plain_name name = true) LABEL_TO_FILENAME.*2.
Proof. repeat constructor. Qed.

Example names_with_path_syntax :
  plain_name "nodir/a.tex" = false ∧ plain_name "./a.tex" = false
  ∧ plain_name ".." = false ∧ plain_name EmptyString = false.
Proof. repeat split. Qed.

Lemma C4_subfile_contents_witness :
  (create_subfile "a.tex" ["x" +:+ nl; "y" +:+ nl] (mkWorld ∅ [])).1 = Ok tt
  ∧ files (create_subfile "a.tex" ["x" +:+ nl; "y" +:+ nl] (mkWorld ∅ [])).2
      !! path_join SECTIONS_DIR "a.tex"
    = Some (String.concat EmptyString
              [ "\documentclass[../main.tex]{subfiles}" +:+ nl;
                "\graphicspath{{\subfix{../Images/}}}" +:+ nl;
                "\begin{document}" +:+ nl;
                nl;
                "x" +:+ nl;
                "y" +:+ nl;
                nl;
                "\end{document}" +:+ nl ])
  ∧ stdout (create_subfile "a.tex" ["x" +:+ nl; "y" +:+ nl] (mkWorld ∅ [])).2
    = ["  Created: a.tex"].
Proof.
  destruct (C4_subfile_contents "a.tex" ["x" +:+ nl; "y" +:+ nl] (mkWorld ∅ []))
    as (Hok & Hfile & _ & _ & _ & _ & Hout); [reflexivity|].
  split; [exact Hok|]. split; [exact Hfile|exact Hout].
Defined.

(** C4 as stated fails: the footer is not one line.  After the four header
    lines and the content line the file written for [a.tex] holds two more
    lines, seven in all where the claim counts six, and no text of a single
    line put after the header and the content gives the file. *)
Lemma C4_counterexample :
  ∃ text,
    files (create_subfile "a.tex" ["x" +:+ nl] (mkWorld ∅ [])).2
      !! path_join SECTIONS_DIR "a.tex" = Some text
    ∧ readlines text
      = [ "\documentclass[../main.tex]{subfiles}" +:+ nl;
          "\graphicspath{{\subfix{../Images/}}}" +:+ nl;
          "\begin{document}" +:+ nl;
          nl;
          "x" +:+ nl;
          nl;
          "\end{document}" +:+ nl ]
    ∧ length (readlines text) ≠ (4 + 1 + 1)%nat
    ∧ ¬ ∃ footer,
          readlines footer = [footer]
          ∧ text = String.concat EmptyString (subfile_header ++ ["x" +:+ nl])
                   +:+ footer.
Proof.
  eexists. split.
  { rewrite create_subfile_run. cbn [snd say wrote files].
    apply lookup_insert_eq. }
  split; [reflexivity|]. split; [vm_compute; discriminate|].
  intros (footer & Hone & Heq).
  assert (footer = subfile_footer) as ->.
  { symmetry. unfold subfile_text in Heq.
    rewrite (assoc_L (++)), concat_app, concat_cons in Heq.
    apply append_inj_l in Heq. exact Heq. }
  vm_compute in Hone. discriminate Hone.
Qed.

(** ** The back matter *)

Definition c3_sections : list TexSection :=
  [ mkTexSection "chapter" "One" "ch:one" 3 ].

Definition c3_lines : list string :=
  [ "\bibliographystyle{plain}" +:+ nl;
    "\begin{document}" +:+ nl;
    "\chapter{One}" +:+ nl;
    "text" +:+ nl;
    "\bibliography{refs}" +:+ nl;
    "\end{document}" +:+ nl ].

Definition c3_lines_plain : list string :=
  [ "\documentclass{book}" +:+ nl;
    "\begin{document}" +:+ nl;
    "\chapter{One}" +:+ nl;
    "text" +:+ nl;
    "\end{document}" +:+ nl ].

Example backmatter_from_top_example :
  (∃ chapters,
     chapters_output LABEL_TO_FILENAME c3_lines c3_sections = Ok chapters
     ∧ main_w_sub_output LABEL_TO_FILENAME c3_lines c3_sections
       = Ok (preamble_and_frontmatter c3_lines ++ chapters ++ c3_lines))
  ∧ (∃ chapters,
       chapters_output LABEL_TO_FILENAME c3_lines_plain c3_sections = Ok chapters
       ∧ main_w_sub_output LABEL_TO_FILENAME c3_lines_plain c3_sections
         = Ok (preamble_and_frontmatter c3_lines_plain ++ chapters
               ++ ["\end{document}" +:+ nl])).
Proof.
  split.
  - destruct (backmatter_from_top LABEL_TO_FILENAME c3_lines c3_sections
                (mkTexSection "chapter" "One" "ch:one" 3))
      as (chapters & Hch & Hmarker & _).
    + in_list.
    + reflexivity.
    + exists chapters. split; [exact Hch|].
      apply (Hmarker [] ("\bibliographystyle{plain}" +:+ nl)).
      * reflexivity.
      * constructor.
      * reflexivity.
  - destruct (backmatter_from_top LABEL_TO_FILENAME c3_lines_plain c3_sections
                (mkTexSection "chapter" "One" "ch:one" 3))
      as (chapters & Hch & _ & Hnone).
    + in_list.
    + reflexivity.
    + exists chapters. split; [exact Hch|].
      apply Hnone. repeat constructor.
Qed.

(** C3.  The claim: with no record after the last chapter, step 4 appends
    the source from the first marker line found after the last chapter
    heading.  At the source [c3_lines], whose first line holds
    [\bibliographystyle] and whose only chapter is at line 3, the search of
    the code starts at the top of the file, finds the marker text in line 1
    and appends the whole source once more, the preamble included, where the
    claim gives the two lines from [\bibliography{refs}]. *)
Theorem C3_failing_input :
  backmatter c3_lines c3_sections = Ok c3_lines
  ∧ spec_backmatter c3_lines 3
    = [ "\bibliography{refs}" +:+ nl; "\end{document}" +:+ nl ]
  ∧ backmatter c3_lines c3_sections ≠ Ok (spec_backmatter c3_lines 3)
  ∧ main_w_sub_output LABEL_TO_FILENAME c3_lines c3_sections
    = Ok ([ "\bibliographystyle{plain}" +:+ nl;
            "\usepackage{subfiles} % Best loaded last in the preamble" +:+ nl;
            nl +:+ "\begin{document}" +:+ nl +:+ nl;
            nl +:+ "\mainmatter" +:+ nl +:+ "\newpage" +:+ nl;
            "\chapter{One} \label{ch:one}" +:+ nl +:+ nl;
            "text" +:+ nl;
            "\bibliography{refs}" +:+ nl;
            "\end{document}" +:+ nl;
            nl ]
          ++ c3_lines).
Proof.
  split; [reflexivity|]. split; [reflexivity|].
  split; [vm_compute; discriminate|]. reflexivity.
Qed.

(** With no marker line at all the start falls on the last line: step 4
    appends that line, where the search after the chapter finds nothing. *)
Example backmatter_no_marker_example :
  backmatter c3_lines_plain c3_sections = Ok [ "\end{document}" +:+ nl ]
  ∧ spec_backmatter c3_lines_plain 3 = [].
Proof. split; reflexivity. Qed.


(** ** Whole runs *)

Definition c8_odd : TexSection :=
  mkTexSection "paragraph" "Odd" "significance_of_study" 4.
Definition c8_toc : string :=
  "chapter,Intro,ch1,1" +:+ nl +:+ "paragraph,Odd,significance_of_study,4" +:+ nl.
Definition c8_world : world :=
  mkWorld (<[TOC_FILE := c8_toc]> (<[MAIN_TEX := "text"]> ∅)) [].

Lemma C8_unknown_level_witness :
  find_section_content_range [c1_chapter; c8_odd] 1 = Raise ValueError
  ∧ find_section_content_range
      [c1_chapter; c1_section; c1_subsection; c8_odd; c1_section2] 1
    = Raise ValueError
  ∧ (script c8_world).1 = Raise ValueError
  ∧ parse_toc_loop default_max_str_digits
      ["paragraph,Odd,significance_of_study,4" +:+ nl] [c1_chapter]
    = parse_toc_loop default_max_str_digits [] ([c1_chapter] ++ [c8_odd]).
Proof.
  unfold script.
  destruct (C8_unknown_level default_max_str_digits)
    as (Htarget & Hscan & Hmain & Hparse).
  split; [|split; [|split]].
  - apply (Htarget [c1_chapter] [] c8_odd).
    not_in_list.
  - apply (Hscan [c1_chapter] [c1_subsection] [c1_section2] c1_section c8_odd
             1%nat).
    + reflexivity.
    + repeat constructor. exists 2%nat. split; [reflexivity|lia].
    + not_in_list.
  - apply (Hmain LABEL_TO_FILENAME c8_world c8_toc "text" [c1_chapter; c8_odd]
             "significance_of_study" "significance_of_study.tex" 1%nat c8_odd
             ValueError).
    + reflexivity.
    + reflexivity.
    + reflexivity.
    + in_list.
    + reflexivity.
    + reflexivity.
  - apply (Hparse ("paragraph,Odd,significance_of_study,4" +:+ nl) [] [c1_chapter]
             "paragraph" "Odd" "significance_of_study" "4" 4); reflexivity.
Defined.

Definition c6_tex : string :=
  "one" +:+ nl +:+ "two" +:+ nl +:+ "three" +:+ nl +:+ "four" +:+ nl +:+
  "five" +:+ nl +:+ "six" +:+ nl +:+ "seven" +:+ nl +:+ "eight" +:+ nl +:+
  "nine" +:+ nl +:+ "ten" +:+ nl +:+ "eleven" +:+ nl +:+ "twelve" +:+ nl.
Definition c6_world : world :=
  mkWorld (<[TOC_FILE := c6_toc]> (<[MAIN_TEX := c6_tex]> ∅)) [].

Lemma C6_round_trip_witness :
  parse c6_toc = Ok c6_sections
  ∧ find_section_content_range c6_sections 1 = Ok (3, Int 9)
  ∧ extract_lines (readlines c6_tex) 3 (Int 9)
    = [ "three" +:+ nl; "four" +:+ nl; "five" +:+ nl; "six" +:+ nl;
        "seven" +:+ nl; "eight" +:+ nl; "nine" +:+ nl ]
  ∧ (script c6_world).1 = Ok tt
  ∧ files (script c6_world).2
      !! path_join SECTIONS_DIR "significance_of_study.tex"
    = Some (String.concat EmptyString
              ([ "\documentclass[../main.tex]{subfiles}" +:+ nl;
                 "\graphicspath{{\subfix{../Images/}}}" +:+ nl;
                 "\begin{document}" +:+ nl;
                 nl ]
               ++ [ "three" +:+ nl; "four" +:+ nl; "five" +:+ nl; "six" +:+ nl;
                    "seven" +:+ nl; "eight" +:+ nl; "nine" +:+ nl ]
               ++ [ nl +:+ "\end{document}" +:+ nl ])).
Proof.
  unfold parse, script.
  apply (C6_round_trip default_max_str_digits c6_world c6_tex
           ("one" +:+ nl) ("two" +:+ nl) ("three" +:+ nl) ("four" +:+ nl)
           ("five" +:+ nl) ("six" +:+ nl) ("seven" +:+ nl) ("eight" +:+ nl)
           ("nine" +:+ nl) ("ten" +:+ nl) ("eleven" +:+ nl) ("twelve" +:+ nl));
    reflexivity.
Defined.

(** The parser keeps a quotation mark like any other character: were the
    fields of the toc written between quotation marks, the label would carry
    them and match no key of the table. *)
Definition dq : string := String "034" EmptyString.
Definition quoted_toc : string :=
  "section," +:+ dq +:+ "Background" +:+ dq +:+ ","
  +:+ dq +:+ "significance_of_study" +:+ dq +:+ ",3" +:+ nl.

Example quoted_fields_keep_their_marks :
  parse quoted_toc
  = Ok [ mkTexSection "section" (dq +:+ "Background" +:+ dq)
           (dq +:+ "significance_of_study" +:+ dq) 3 ]
  ∧ find_label
      [ mkTexSection "section" (dq +:+ "Background" +:+ dq)
          (dq +:+ "significance_of_study" +:+ dq) 3 ]
      "significance_of_study" = None.
Proof. split; reflexivity. Qed.

Definition c7_toc : string :=
  "chapter,Intro,ch1,1" +:+ nl +:+
  "section,Background,significance_of_study,3" +:+ nl +:+
  "section,Sensors,sensors,6" +:+ nl.
Definition c7_tex : string :=
  "one" +:+ nl +:+ "two" +:+ nl +:+ "three" +:+ nl +:+ "four" +:+ nl +:+
  "five" +:+ nl +:+ "six" +:+ nl +:+ "seven" +:+ nl.
Definition c7_sections : list TexSection :=
  [ mkTexSection "chapter" "Intro" "ch1" 1;
    mkTexSection "section" "Background" "significance_of_study" 3;
    mkTexSection "section" "Sensors" "sensors" 6 ].
Definition c7_world : world :=
  mkWorld (<[TOC_FILE := c7_toc]> (<[MAIN_TEX := c7_tex]> ∅)) [].

Lemma C7_missing_labels_witness :
  (script c7_world).1 = Ok tt
  ∧ ∃ out,
      stdout (script c7_world).2 = stdout c7_world ++ out
      ∧ ∀ key filename,
          (key, filename) ∈ LABEL_TO_FILENAME →
          (key ∉ label <$> c7_sections →
           count out (warning key) = 1%nat
           ∧ files (script c7_world).2 !! path_join SECTIONS_DIR filename
             = files c7_world !! path_join SECTIONS_DIR filename)
          ∧ (key ∈ label <$> c7_sections →
             ∃ i s range,
               find_label c7_sections key = Some (i, s)
               ∧ find_section_content_range c7_sections (Z.of_nat i) = Ok range
               ∧ files (script c7_world).2 !! path_join SECTIONS_DIR filename
                 = Some (subfile_text
                           (extract_lines (readlines c7_tex) range.1 range.2))).
Proof.
  unfold script.
  apply (C7_missing_labels default_max_str_digits LABEL_TO_FILENAME c7_world
           c7_toc c7_tex c7_sections).
  - apply NoDup_ListNoDup. vm_compute.
    repeat (constructor; [simpl; intuition discriminate|]). constructor.
  - apply NoDup_ListNoDup. vm_compute.
    repeat (constructor; [simpl; intuition discriminate|]). constructor.
  - reflexivity.
  - reflexivity.
  - reflexivity.
  - apply known_levels_resolve. repeat constructor.
Defined.

Example missing_labels_run :
  stdout (script c7_world).2
  = [ "LaTeX Subfile Splitter";
      "==================================================";
      nl +:+ "1. Parsing toc_main.txt...";
      "   Found 3 sections";
      nl +:+ "2. Reading main.tex...";
      "   Read 7 lines";
      nl +:+ "3. Generating subfiles...";
      "  Created: significance_of_study.tex";
      "  WARNING: Label 'problem_statement1' not found in toc_main.txt";
      "  WARNING: Label 'perception_geometry' not found in toc_main.txt";
      "  Created: sensors.tex";
      "  WARNING: Label 'sec:Atlas_LAN' not found in toc_main.txt";
      "  WARNING: Label 'sec:calibration' not found in toc_main.txt";
      "  WARNING: Label 'sec:sensor_data_dataset' not found in toc_main.txt";
      "  WARNING: Label 'yolo' not found in toc_main.txt";
      "  WARNING: Label 'gbcache' not found in toc_main.txt";
      "  WARNING: Label 'late_fusion' not found in toc_main.txt";
      "  WARNING: Label 'performance' not found in toc_main.txt";
      nl +:+ "4. Generating main_w_sub.tex...";
      nl +:+ "Created: main_w_sub.tex";
      nl +:+ "==================================================";
      "Complete!";
      "Created 11 subfiles in: /Users/dplane/git_repos/agentic_dissertation/Overleaf_PhD/sections";
      "Created main file: /Users/dplane/git_repos/agentic_dissertation/Overleaf_PhD/main_w_sub.tex" ].
Proof. reflexivity. Qed.

Definition c7_bad_toc : string :=
  "paragraph,Odd,significance_of_study,3" +:+ nl.
Definition c7_bad_world : world :=
  mkWorld (<[TOC_FILE := c7_bad_toc]> (<[MAIN_TEX := c7_tex]> ∅)) [].
Definition c7_bad_sections : list TexSection :=
  [mkTexSection "paragraph" "Odd" "significance_of_study" 3].
Definition c7_entry : string * string :=
  ("problem_statement1", "problem_statement1.tex").

(** C7 as stated fails.  The toc gives the label of the first table entry a
    level outside the hierarchy: the run stops at that entry with
    [ValueError], so the entry, though found, gets no file, and the entry
    [problem_statement1], though in no record, gets no warning. *)
Lemma C7_counterexample :
  parse c7_bad_toc = Ok c7_bad_sections
  ∧ c7_entry ∈ LABEL_TO_FILENAME
  ∧ ("problem_statement1" ∉ label <$> c7_bad_sections)
  ∧ (script c7_bad_world).1 = Raise ValueError
  ∧ count (stdout (script c7_bad_world).2) (warning "problem_statement1") = 0%nat
  ∧ files (script c7_bad_world).2
      !! path_join SECTIONS_DIR "significance_of_study.tex" = None.
Proof.
  split; [reflexivity|]. split; [in_list|]. split; [not_in_list|].
  split; [reflexivity|]. split; [reflexivity|]. reflexivity.
Qed.

Definition c9_stale_world : world :=
  mkWorld
    (<[OUTPUT_MAIN := "an older master file"]>
       (<[path_join SECTIONS_DIR "significance_of_study.tex" := "an older subfile"]>
          (files c6_world)))
    ["lines printed earlier"].

Lemma C9_deterministic_witness :
  ∃ r out,
    script c6_world = (r, after out c6_world)
    ∧ script c9_stale_world = (r, after out c9_stale_world)
    ∧ spares_inputs out
    ∧ (∀ p, (∃ c, files (script c6_world).2 !! p = Some c
                  ∧ files (script c9_stale_world).2 !! p = Some c)
            ∨ (files (script c6_world).2 !! p = files c6_world !! p
               ∧ files (script c9_stale_world).2 !! p
                 = files c9_stale_world !! p))
    ∧ (r = Ok tt →
       ∃ c, files (script c6_world).2 !! OUTPUT_MAIN = Some c
            ∧ files (script c9_stale_world).2 !! OUTPUT_MAIN = Some c)
    ∧ (script (script c6_world).2).1 = r
    ∧ files (script (script c6_world).2).2 = files (script c6_world).2.
Proof.
  unfold script.
  apply (C9_deterministic default_max_str_digits LABEL_TO_FILENAME
           c6_world c9_stale_world); reflexivity.
Defined.

Example rerun_overwrites_stale_files :
  files (script c9_stale_world).2
    !! path_join SECTIONS_DIR "significance_of_study.tex"
  = files (script c6_world).2
      !! path_join SECTIONS_DIR "significance_of_study.tex"
  ∧ files (script c9_stale_world).2 !! OUTPUT_MAIN
    = files (script c6_world).2 !! OUTPUT_MAIN
  ∧ is_Some (files (script c6_world).2 !! OUTPUT_MAIN).
Proof. vm_compute. repeat split. eauto. Qed.

(** ** Line extraction and the searches of [generate_main_w_sub] *)

Definition x_lines : list string :=
  [ "\documentclass{book}" +:+ nl;
    "  \begin{document}" +:+ nl;
    "\frontmatter" +:+ nl;
    "\tableofcontents" +:+ nl;
    "\mainmatter" +:+ nl;
    "\chapter{One}" +:+ nl;
    "text" +:+ nl;
    "\bibliography{refs}" +:+ nl;
    "\end{document}" +:+ nl ].

Lemma X1_extract_lines_numbered_witness :
  extract_lines x_lines 3 (Int 4) !! 1%nat = Some ("\tableofcontents" +:+ nl)
  ∧ extract_lines x_lines 3 (Int 4) !! 2%nat = None.
Proof.
  split.
  - rewrite (X1_extract_lines_numbered x_lines 3 4 1) by lia. reflexivity.
  - rewrite (X1_extract_lines_numbered x_lines 3 4 2) by lia. reflexivity.
Defined.

Lemma X3_find_preamble_end_witness :
  find_preamble_end x_lines = 2 ∧ find_preamble_end ["text" +:+ nl] = 1.
Proof.
  split.
  - apply (proj1 (X3_find_preamble_end x_lines)
             ["\documentclass{book}" +:+ nl] ("  \begin{document}" +:+ nl)
             (drop 2 x_lines)).
    + reflexivity.
    + repeat constructor.
    + reflexivity.
  - apply (proj1 (proj2 (X3_find_preamble_end ["text" +:+ nl]))).
    repeat constructor.
Defined.

Lemma X4_find_frontmatter_end_witness :
  find_frontmatter_end x_lines = 5
  ∧ find_frontmatter_end ["\begin{document}" +:+ nl; "text" +:+ nl]
    = find_preamble_end ["\begin{document}" +:+ nl; "text" +:+ nl].
Proof.
  split.
  - apply (proj1 (X4_find_frontmatter_end x_lines)
             (take 4 x_lines) ("\mainmatter" +:+ nl) (drop 5 x_lines)).
    + reflexivity.
    + repeat constructor.
    + reflexivity.
  - apply (proj2 (X4_find_frontmatter_end _)). repeat constructor.
Defined.

Lemma X5_preamble_and_frontmatter_witness :
  preamble_and_frontmatter x_lines
  = [ "\documentclass{book}" +:+ nl;
      package_line;
      body_opening;
      "\frontmatter" +:+ nl;
      "\tableofcontents" +:+ nl;
      mainmatter_block ].
Proof.
  apply (X5_preamble_and_frontmatter
           ["\documentclass{book}" +:+ nl]
           ["\frontmatter" +:+ nl; "\tableofcontents" +:+ nl]
           (drop 5 x_lines)
           ("  \begin{document}" +:+ nl) ("\mainmatter" +:+ nl)).
  - repeat constructor.
  - reflexivity.
  - repeat constructor.
  - reflexivity.
Defined.

Lemma X7_no_chapter_record_witness :
  main_w_sub_output LABEL_TO_FILENAME x_lines [c1_section; c1_subsection]
  = Ok (preamble_and_frontmatter x_lines).
Proof.
  apply X7_no_chapter_record. repeat constructor; discriminate.
Defined.

(** ** The range resolver *)

Lemma X8_range_resolver_sound_witness :
  ∃ pre t rest rt,
    [c1_chapter; c1_section; c1_subsection; c1_section2] = pre ++ t :: rest
    ∧ length pre = 1%nat
    ∧ rank t = Ok rt ∧ 3 = line_num t
    ∧ ((Int 7 = Inf ∧ Forall (deeper_than rt) rest)
       ∨ ∃ mid n post rn,
           rest = mid ++ n :: post ∧ Forall (deeper_than rt) mid
           ∧ rank n = Ok rn ∧ (rn ≤ rt)%nat
           ∧ Int 7 = Int (line_num n - 1)).
Proof.
  apply (X8_range_resolver_sound
           [c1_chapter; c1_section; c1_subsection; c1_section2] 1 (3, Int 7)).
  reflexivity.
Defined.

Lemma X9_range_resolver_errors_witness :
  find_section_content_range [c1_chapter; c1_section] 2 = Raise IndexError
  ∧ find_section_content_range [c1_chapter; c1_section] (-3) = Raise IndexError
  ∧ ∃ range, find_section_content_range [c1_chapter; c1_section] 1 = Ok range.
Proof.
  destruct (X9_range_resolver_errors [c1_chapter; c1_section])
    as (Hout & _ & Hok).
  split; [apply Hout; left; vm_compute; discriminate|].
  split; [apply Hout; right; reflexivity|].
  apply (Hok 1%nat); [simpl; lia|].
  repeat constructor; in_list.
Defined.

(** ** Runs that stop, and what they leave *)

Definition x10_world : world := mkWorld (<[TOC_FILE := c7_toc]> ∅) [].
Definition x10_no_toc : world := mkWorld (<[MAIN_TEX := c7_tex]> ∅) [].

Lemma X10_missing_input_witness :
  ((script x10_no_toc).1 = Raise FileNotFoundError
   ∧ files (script x10_no_toc).2 = files x10_no_toc
   ∧ stdout (script x10_no_toc).2 = banner)
  ∧ ((script x10_world).1 = Raise FileNotFoundError
     ∧ files (script x10_world).2 = files x10_world
     ∧ stdout (script x10_world).2
       = banner ++ [ "   Found 3 sections"; nl +:+ "2. Reading main.tex..." ]).
Proof.
  unfold script. split.
  - apply (proj1 (X10_missing_input default_max_str_digits LABEL_TO_FILENAME
                    x10_no_toc) "main.tex" c7_tex); reflexivity.
  - apply (proj2 (X10_missing_input default_max_str_digits LABEL_TO_FILENAME
                    x10_world) c7_toc c7_sections); reflexivity.
Defined.

Definition x11_toc : string :=
  "paragraph,Odd,problem_statement1,1" +:+ nl +:+
  "chapter,Intro,ch1,2" +:+ nl +:+
  "section,Background,significance_of_study,3" +:+ nl.
Definition x11_sections : list TexSection :=
  [ mkTexSection "paragraph" "Odd" "problem_statement1" 1;
    mkTexSection "chapter" "Intro" "ch1" 2;
    mkTexSection "section" "Background" "significance_of_study" 3 ].
Definition x11_world : world :=
  mkWorld (<[TOC_FILE := x11_toc]> (<[MAIN_TEX := c7_tex]> ∅)) [].

Lemma X11_failure_keeps_earlier_files_witness :
  (script x11_world).1 = Raise ValueError
  ∧ files (script x11_world).2 !! OUTPUT_MAIN = None
  ∧ files (script x11_world).2
      !! path_join SECTIONS_DIR "significance_of_study.tex"
    = Some (subfile_text
              [ "three" +:+ nl; "four" +:+ nl; "five" +:+ nl; "six" +:+ nl;
                "seven" +:+ nl ]).
Proof.
  unfold script.
  destruct (X11_failure_keeps_earlier_files default_max_str_digits
              [("significance_of_study", "significance_of_study.tex")]
              (drop 2 LABEL_TO_FILENAME)
              "problem_statement1" "problem_statement1.tex"
              x11_world x11_toc c7_tex x11_sections 0
              (mkTexSection "paragraph" "Odd" "problem_statement1" 1)
              ValueError) as (Hres & Hfiles & Hmain & _).
  - reflexivity.
  - reflexivity.
  - reflexivity.
  - constructor; [|constructor]. intros i s Hfind.
    exists (3, Inf). vm_compute in Hfind. injection Hfind as <- <-. reflexivity.
  - reflexivity.
  - reflexivity.
  - split; [exact Hres|]. split; [exact Hmain|].
    change (main default_max_str_digits LABEL_TO_FILENAME x11_world)
      with (main default_max_str_digits
              ([("significance_of_study", "significance_of_study.tex")]
               ++ ("problem_statement1", "problem_statement1.tex")
                  :: drop 2 LABEL_TO_FILENAME) x11_world).
    rewrite Hfiles. reflexivity.
Defined.

(** ** The parser and the reader *)

Lemma X12_record_fields_clean_witness :
  Forall (λ r, clean_field (level r) ∧ clean_field (title r)
               ∧ clean_field (label r)) c7_sections.
Proof.
  apply (X12_record_fields_clean default_max_str_digits c7_toc). reflexivity.
Defined.

Example toc_concatenation_example :
  parse (c2_toc +:+ c7_toc)
  = (r1 ← parse c2_toc; r2 ← parse c7_toc; Ok (r1 ++ r2)).
Proof. reflexivity. Qed.

Lemma X14_read_main_tex_lossless_witness :
  ∃ lines, read_main_tex MAIN_TEX c7_world = (Ok lines, c7_world)
           ∧ String.concat EmptyString lines = c7_tex.
Proof.
  apply (X14_read_main_tex_lossless c7_world c7_tex); reflexivity.
Defined.

(** A carriage return is not given back: it is read as a line break. *)
Example readlines_translates :
  String.concat EmptyString
    (readlines ("a" +:+ String "013" (String "010" "b") +:+ String "013" "c"))
  = "a" +:+ nl +:+ "b" +:+ nl +:+ "c".
Proof. reflexivity. Qed.

(** ** The chapters of the master file *)

Definition x15_sections : list TexSection :=
  [ mkTexSection "chapter" "Intro" "ch1" 1;
    mkTexSection "section" "Scope" "scope" 3;
    mkTexSection "section" "Sensors" "sensors" 5;
    mkTexSection "chapter" "Methods" EmptyString 7 ].
Definition x15_lines : list string :=
  [ "\chapter{Intro}" +:+ nl; "intro" +:+ nl;
    "\section{Scope}" +:+ nl; "scope" +:+ nl;
    "\section{Sensors}" +:+ nl; "sensors" +:+ nl;
    "\chapter{Methods}" +:+ nl; "methods" +:+ nl ].

(** The section [scope] is not in the table and [sensors] is: the chapter's
    block holds the introduction and one command, and the two lines of
    [scope] are not in it. *)
Example chapters_example :
  chapters_output LABEL_TO_FILENAME x15_lines x15_sections
  = Ok [ "\chapter{Intro} \label{ch1}" +:+ nl +:+ nl;
         "intro" +:+ nl;
         nl;
         "\subfile{sections/sensors}" +:+ nl;
         nl;
         "\chapter{Methods}" +:+ nl +:+ nl;
         "methods" +:+ nl;
         nl ].
Proof. reflexivity. Qed.

Definition x17_chapter : TexSection := mkTexSection "chapter" "One" "ch:one" 3.

Lemma X17_back_matter_twice_witness :
  ∃ earlier,
    main_w_sub_output LABEL_TO_FILENAME
      [ "\documentclass{book}" +:+ nl; "\begin{document}" +:+ nl;
        "\chapter{One}" +:+ nl; "text" +:+ nl;
        "\bibliography{refs}" +:+ nl; "\end{document}" +:+ nl ]
      [ x17_chapter; mkTexSection "section" "Scope" "scope" 4 ]
    = Ok (preamble_and_frontmatter
            [ "\documentclass{book}" +:+ nl; "\begin{document}" +:+ nl;
              "\chapter{One}" +:+ nl; "text" +:+ nl;
              "\bibliography{refs}" +:+ nl; "\end{document}" +:+ nl ]
          ++ earlier
          ++ [chapter_heading x17_chapter]
          ++ drop_chapter_lines
               [ "\chapter{One}" +:+ nl; "text" +:+ nl;
                 "\bibliography{refs}" +:+ nl; "\end{document}" +:+ nl ]
          ++ [nl]
          ++ [ "\bibliography{refs}" +:+ nl; "\end{document}" +:+ nl ]).
Proof.
  apply (X17_back_matter_twice LABEL_TO_FILENAME
           [ "\documentclass{book}" +:+ nl; "\begin{document}" +:+ nl ]
           [ "\chapter{One}" +:+ nl; "text" +:+ nl ]
           [ "\end{document}" +:+ nl ]
           ("\bibliography{refs}" +:+ nl)
           [] [ mkTexSection "section" "Scope" "scope" 4 ] x17_chapter).
  - reflexivity.
  - repeat constructor; discriminate.
  - reflexivity.
  - reflexivity.
  - repeat constructor.
  - reflexivity.
Defined.

(** ** The table *)

Definition x18_table : dict :=
  [ ("significance_of_study", "part.tex"); ("sensors", "part.tex");
    ("yolo", "part.tex") ].

Lemma X18_shared_filename_last_wins_witness :
  (main default_max_str_digits x18_table c7_world).1 = Ok tt
  ∧ files (main default_max_str_digits x18_table c7_world).2
      !! path_join SECTIONS_DIR "part.tex"
    = Some (subfile_text
              (extract_lines (readlines c7_tex) (6, Inf).1 (6, Inf).2)).
Proof.
  apply (X18_shared_filename_last_wins default_max_str_digits
           [("significance_of_study", "part.tex")] [("yolo", "part.tex")]
           "sensors" "part.tex" c7_world c7_toc c7_tex c7_sections 2
           (mkTexSection "section" "Sensors" "sensors" 6) (6, Inf)).
  - reflexivity.
  - reflexivity.
  - reflexivity.
  - apply known_levels_resolve. repeat constructor; in_list.
  - reflexivity.
  - reflexivity.
  - intros k Hin. apply list_elem_of_In in Hin. simpl in Hin.
    destruct Hin as [[= <-]|[]]. reflexivity.
Defined.

Definition x19_world : world :=
  mkWorld (<[TOC_FILE := "chapter,One,ch:one,3" +:+ nl]>
             (<[MAIN_TEX := c7_tex]> ∅)) [].

Lemma X19_count_is_table_size_witness :
  (script x19_world).1 = Ok tt
  ∧ (∃ earlier,
       stdout (script x19_world).2
       = earlier
         ++ [ "Created " +:+ pretty (length LABEL_TO_FILENAME)
              +:+ " subfiles in: " +:+ SECTIONS_DIR;
              "Created main file: " +:+ OUTPUT_MAIN ])
  ∧ ∀ f, files (script x19_world).2 !! path_join SECTIONS_DIR f
         = files x19_world !! path_join SECTIONS_DIR f.
Proof.
  unfold script.
  apply (X19_count_is_table_size default_max_str_digits LABEL_TO_FILENAME
           x19_world ("chapter,One,ch:one,3" +:+ nl) c7_tex
           [mkTexSection "chapter" "One" "ch:one" 3]).
  - reflexivity.
  - reflexivity.
  - reflexivity.
  - repeat (constructor; [reflexivity|]). constructor.
Defined.

Lemma X20_subfile_command_names_the_file_witness :
  ∃ arg,
    subfile_command LABEL_TO_FILENAME (1%nat, c1_section)
    = Ok ("\subfile{" +:+ arg +:+ "}" +:+ nl)
    ∧ path_join BASE_DIR arg +:+ ".tex"
      = path_join SECTIONS_DIR ("significance_of_study" +:+ ".tex").
Proof.
  apply (X20_subfile_command_names_the_file LABEL_TO_FILENAME 1 c1_section
           "significance_of_study"); reflexivity.
Defined.

(** [str.replace] removes every [.tex] of the name, not only the
    extension. *)
Example subfile_line_inner_extension :
  subfile_line "my.text.tex" = "\subfile{sections/myt}" +:+ nl.
Proof. reflexivity. Qed.
